(** * Mock NVML: session gate, handle codec, versioned structs, synthetic topology

    A shallow embedding of the C sources of the mock NVML library
    (pkg/gpu/mocknvml): nvml_init.c, data/devices.h, nvml_device.c,
    nvml_memory.c, nvml_mig.c, nvml_system.c and nvml_stubs.c.

    Conventions of the embedding.
    - [unsigned int], [unsigned long long] and [uintptr_t] values are [Z];
      where the C arithmetic can wrap, the reduction modulo 2^32 is written.
    - The process-wide counter [g_nvml_ref_count], an [int], is threaded
      explicitly as the first argument [g] of every operation; its increment
      is written with the wrap-around of a 32-bit two's-complement [int].
      The mutex only brackets the read-modify-write of that counter, so a
      call is one atomic step here.
    - A pointer argument is a [ptr A]: [None] is NULL, [Some a] is a valid
      pointer to a cell that currently holds [a].  An operation returns the
      cell as it is after the call.
    - An operation is a computation in the [option] monad: [None] is a fault
      (a write through NULL, a read outside the fixture table, a copy beyond
      the end of the caller's array).  A theorem that gives the result of a
      call as [Some] thereby says that the call does not fault.
    - A character array of the fixture that has room for the terminator of
      its initialiser is the C string of that initialiser.  The one array
      that has no such room, [pci_bus_id], is read the way the struct lays it
      out: on into the member that follows it. *)

From Stdlib Require Import ZArith Lia Bool List String Ascii.
From stdpp Require Import base option list.
Import ListNotations.

Local Open Scope Z_scope.

(** ** Return codes (bridge/nvml_types.h) *)

Inductive nvmlReturn_t : Set :=
| NVML_SUCCESS
| NVML_ERROR_UNINITIALIZED
| NVML_ERROR_INVALID_ARGUMENT
| NVML_ERROR_NOT_SUPPORTED
| NVML_ERROR_NO_PERMISSION
| NVML_ERROR_ALREADY_INITIALIZED
| NVML_ERROR_NOT_FOUND
| NVML_ERROR_INSUFFICIENT_SIZE
| NVML_ERROR_INSUFFICIENT_POWER
| NVML_ERROR_DRIVER_NOT_LOADED
| NVML_ERROR_TIMEOUT
| NVML_ERROR_IRQ_ISSUE
| NVML_ERROR_LIBRARY_NOT_FOUND
| NVML_ERROR_FUNCTION_NOT_FOUND
| NVML_ERROR_CORRUPTED_INFOROM
| NVML_ERROR_GPU_IS_LOST
| NVML_ERROR_RESET_REQUIRED
| NVML_ERROR_OPERATING_SYSTEM
| NVML_ERROR_LIB_RM_VERSION_MISMATCH
| NVML_ERROR_IN_USE
| NVML_ERROR_MEMORY
| NVML_ERROR_NO_DATA
| NVML_ERROR_VGPU_ECC_NOT_SUPPORTED
| NVML_ERROR_INSUFFICIENT_RESOURCES
| NVML_ERROR_FREQ_NOT_SUPPORTED
| NVML_ERROR_ARGUMENT_VERSION_MISMATCH
| NVML_ERROR_DEPRECATED
| NVML_ERROR_NOT_READY
| NVML_ERROR_GPU_NOT_FOUND
| NVML_ERROR_INVALID_STATE
| NVML_ERROR_UNKNOWN.

Definition UINT_MAX : Z := 4294967295.
Definition INT_MAX : Z := 2147483647.

(** Truncation to [unsigned int]. *)
Definition to_uint (z : Z) : Z := z mod 2 ^ 32.

(** Wrap-around of a 32-bit two's-complement [int]: the identity on
    [-2^31, 2^31), and [INT_MAX + 1] is [-2^31]. *)
Definition to_int (z : Z) : Z := (z + 2147483648) mod 2 ^ 32 - 2147483648.

(** ** Session state machine (nvml_init.c) *)

Module Session.

(** [g_nvml_ref_count++] under the mutex; always succeeds.  The counter is
    an [int]: below [INT_MAX] the increment is exact; at [INT_MAX] ISO C
    leaves it undefined, and on the two's-complement targets the library is
    built for it wraps to [-2^31], which is what [to_int] writes. *)
Definition nvmlInit_v2 (g : Z) : Z * nvmlReturn_t :=
  (to_int (g + 1), NVML_SUCCESS).

Definition nvmlInitWithFlags (g : Z) (flags : Z) : Z * nvmlReturn_t :=
  nvmlInit_v2 g.

Definition nvmlInit (g : Z) : Z * nvmlReturn_t :=
  nvmlInit_v2 g.

Definition nvmlShutdown (g : Z) : Z * nvmlReturn_t :=
  if g <=? 0 then (g, NVML_ERROR_UNINITIALIZED)
  else (g - 1, NVML_SUCCESS).

Definition nvml_is_initialized (g : Z) : bool := 0 <? g.

(** A client program, as far as the session is concerned. *)
Inductive lifecycle_call : Set := CallInit | CallShutdown.

Definition step (g : Z) (c : lifecycle_call) : Z * nvmlReturn_t :=
  match c with
  | CallInit => nvmlInit_v2 g
  | CallShutdown => nvmlShutdown g
  end.

(** Runs the calls in order from counter [g]; yields the final counter and
    the return code of every call. *)
Fixpoint run (g : Z) (calls : list lifecycle_call) : Z * list nvmlReturn_t :=
  match calls with
  | [] => (g, [])
  | c :: rest =>
      let '(g1, r) := step g c in
      let '(g2, rs) := run g1 rest in
      (g2, r :: rs)
  end.

Definition is_success (r : nvmlReturn_t) : bool :=
  match r with NVML_SUCCESS => true | _ => false end.

(** The number of init calls of a client program. *)
Fixpoint inits (calls : list lifecycle_call) : Z :=
  match calls with
  | [] => 0
  | CallInit :: cs => 1 + inits cs
  | CallShutdown :: cs => inits cs
  end.

(** Net number of outstanding inits of a finished run: the inits made, minus
    the shutdowns that reported success. *)
Fixpoint net_outstanding (calls : list lifecycle_call) (rets : list nvmlReturn_t) : Z :=
  match calls, rets with
  | CallInit :: cs, _ :: rs => 1 + net_outstanding cs rs
  | CallShutdown :: cs, r :: rs =>
      (if is_success r then -1 else 0) + net_outstanding cs rs
  | _, _ => 0
  end.

End Session.

Import Session.

(** ** Pointers, character arrays and C strings *)

Definition ptr (A : Type) : Type := option A.

Definition is_null {A} (p : ptr A) : bool :=
  match p with None => true | Some _ => false end.

(** [*p]: faults on NULL. *)
Definition load {A} (p : ptr A) : option A := p.

(** [*p = v]: faults on NULL. *)
Definition store {A} (p : ptr A) (v : A) : option (ptr A) :=
  match p with
  | None => None
  | Some _ => Some (Some v)
  end.

Definition NUL : ascii := Ascii.zero.

(** [strlen] of a C string. *)
Definition strlen (s : string) : Z := Z.of_nat (String.length s).

(** [strncpy(dst, src, n)]: exactly [n] bytes of [dst] are written, the
    characters of [src] cut at [n] or padded with NUL up to [n]; the bytes of
    [dst] from [n] on are kept.  Faults when [dst] has fewer than [n] bytes. *)
Definition strncpy (dst : list ascii) (src : string) (n : Z) : option (list ascii) :=
  let k := Z.to_nat n in
  if (length dst <? k)%nat then None
  else Some (take k (list_ascii_of_string src ++ replicate k NUL) ++ drop k dst).

(** [dst[i] = c]: faults outside the array. *)
Definition poke {A} (dst : list A) (i : Z) (c : A) : option (list A) :=
  if (i <? 0) || (Z.of_nat (length dst) <=? i) then None
  else Some (<[Z.to_nat i := c]> dst).

(** The statement pair [strncpy(dst, src, n); dst[n - 1] = 0;] that every
    string-returning operation ends with. *)
Definition strncpy_terminated (dst : list ascii) (src : string) (n : Z)
  : option (list ascii) :=
  d1 ← strncpy dst src n;
  poke d1 (n - 1) NUL.

(** The C string held by a character array: its bytes before the first NUL. *)
Fixpoint c_str (bytes : list ascii) : string :=
  match bytes with
  | [] => EmptyString
  | c :: rest => if Ascii.eqb c NUL then EmptyString else String c (c_str rest)
  end.

(** [strcmp(a, b) == 0] *)
Definition streq (a b : string) : bool := String.eqb a b.

(** [a[i]] for an array of the program's own data: faults outside it. *)
Definition array_get {A} (a : list A) (i : Z) : option A :=
  if (i <? 0) || (Z.of_nat (length a) <=? i) then None
  else a !! Z.to_nat i.

(** ** Sizes of the PCI bus-id arrays

    bridge/nvml_types.h defines the first two.  The third is defined only in
    include/nvml.h, which is not among the sources at hand: it is the size
    devices.h declares for the array that holds the 16-character long-form
    bus id, and the number of bytes the NVLink query copies into the
    16-byte [busIdLegacy]; 16, its value in the vendor header, is the one
    value with which the fixture compiles and that copy stays inside the
    array. *)

Definition NVML_DEVICE_PCI_BUS_ID_BUFFER_SIZE : Z := 32.
Definition NVML_DEVICE_PCI_BUS_ID_LEGACY_FMT_SIZE : Z := 16.
Definition NVML_DEVICE_PCI_BUS_ID_BUFFER_V2_SIZE : Z := 16.

(** ** Device fixture and handle codec (data/devices.h) *)

Record nvmlDevice_t : Set := { handle : Z }.

Definition NVML_BRAND_TESLA : Z := 2.

Record mock_device_info_t : Set := {
  uuid : string;
  name : string;
  pci_bus_id : string;
  pci_bus_id_legacy : string;
  serial : string;
  pci_domain : Z;
  pci_bus : Z;
  pci_device : Z;
  pci_device_id : Z;
  pci_subsystem_id : Z;
  pci_base_class : Z;
  pci_sub_class : Z;
  memory_total : Z;
  memory_free : Z;
  memory_used : Z;
  minor_number : Z;
  brand : Z;
  persistence_mode : Z;
  display_mode : Z;
  display_active : Z;
  temperature : Z;
  power_usage : Z;
  power_limit : Z;
  clock_graphics : Z;
  clock_sm : Z;
  clock_memory : Z;
  cuda_compute_capability_major : Z;
  cuda_compute_capability_minor : Z
}.

(** The fields the eight initialisers share; a field an initialiser does not
    name is zero-initialised, which is what [cc] carries for the compute
    capability. *)
Definition a100 (uuid0 bus_id legacy serial0 : string) (bus0 temp : Z) (cc : Z * Z)
  : mock_device_info_t :=
  {| uuid := uuid0;
     name := "NVIDIA A100-SXM4-40GB";
     pci_bus_id := bus_id;
     pci_bus_id_legacy := legacy;
     serial := serial0;
     pci_domain := 0;
     pci_bus := bus0;
     pci_device := 0;
     pci_device_id := 0x20B010DE;
     pci_subsystem_id := 0x134F10DE;
     pci_base_class := 0x03;
     pci_sub_class := 0x02;
     memory_total := 42949672960;
     memory_free := 42949672960;
     memory_used := 0;
     minor_number := bus0;
     brand := NVML_BRAND_TESLA;
     persistence_mode := 1;
     display_mode := 0;
     display_active := 0;
     temperature := temp;
     power_usage := 100000;
     power_limit := 400000;
     clock_graphics := 1410;
     clock_sm := 1410;
     clock_memory := 1593;
     cuda_compute_capability_major := fst cc;
     cuda_compute_capability_minor := snd cc |}.

Definition mock_devices : list mock_device_info_t := [
  a100 "GPU-4404041a-04cf-1ccf-9e70-f139a9b1e23c" "00000000:00:00.0" "0000:00:00.0"
       "1563221000001" 0 30 (0, 0);
  a100 "GPU-b8ea3855-276c-c9cb-b366-c6fa655957c5" "00000000:01:00.0" "0000:01:00.0"
       "1563221000002" 1 31 (8, 0);
  a100 "GPU-36da4373-4344-3b36-9951-6c7af0e8d7a0" "00000000:02:00.0" "0000:02:00.0"
       "1563221000003" 2 32 (8, 0);
  a100 "GPU-3dc6c589-3bea-2eb8-263e-d7a5b2b3b1ba" "00000000:03:00.0" "0000:03:00.0"
       "1563221000004" 3 33 (8, 0);
  a100 "GPU-7e8ad30b-b5d9-cd98-3fcf-9b3e4d2ba6a0" "00000000:04:00.0" "0000:04:00.0"
       "1563221000005" 4 34 (8, 0);
  a100 "GPU-e81b08cb-3aa9-4add-d834-1d3f537ea20f" "00000000:05:00.0" "0000:05:00.0"
       "1563221000006" 5 35 (8, 0);
  a100 "GPU-eca0e2dd-3d99-2271-10fd-1939fec48d42" "00000000:06:00.0" "0000:06:00.0"
       "1563221000007" 6 36 (8, 0);
  a100 "GPU-c9dea5de-06db-44ff-c80f-ce1d407e77ba" "00000000:07:00.0" "0000:07:00.0"
       "1563221000008" 7 37 (0, 0)
].

(** The bytes of a [char] array of [size] bytes initialised with a string
    literal: the characters of the literal, then NUL up to the size.  The
    terminator of the literal is stored only where there is room for it. *)
Definition char_array (size : Z) (init : string) : list ascii :=
  take (Z.to_nat size) (list_ascii_of_string init ++ replicate (Z.to_nat size) NUL).

(** What [strcmp] and [strncpy] read at [pci_bus_id].  The member is an
    array of [NVML_DEVICE_PCI_BUS_ID_BUFFER_V2_SIZE] bytes, which its
    16-character initialiser fills, so it holds no terminator; the member
    declared next, [pci_bus_id_legacy], follows it in the struct without
    padding (both are [char] arrays), and the read goes on into it, up to
    the NUL bytes that follow its 12 characters. *)
Definition pci_bus_id_str (d : mock_device_info_t) : string :=
  c_str (char_array NVML_DEVICE_PCI_BUS_ID_BUFFER_V2_SIZE (pci_bus_id d)
         ++ char_array NVML_DEVICE_PCI_BUS_ID_BUFFER_SIZE (pci_bus_id_legacy d)).

Definition is_valid_device_index (index : Z) : bool := index <? 8.

Definition is_valid_device_handle (device : nvmlDevice_t) : bool :=
  if handle device =? 0 then false
  else (1 <=? handle device) && (handle device <=? 8).

(** [(unsigned int)-1] for an invalid handle, else the handle minus one. *)
Definition device_handle_to_index (device : nvmlDevice_t) : Z :=
  if negb (is_valid_device_handle device) then to_uint (-1)
  else to_uint (handle device - 1).

(** [(struct nvmlDevice_st* )(uintptr_t)(i + 1)], the addition being one of
    [unsigned int]. *)
Definition index_to_handle (i : Z) : nvmlDevice_t :=
  {| handle := to_uint (i + 1) |}.

(** ** The vendor header

    [include/nvml.h] is not part of the sources at hand.  Its enumeration
    values and its struct-version tag are parameters of the development:
    everything below holds whatever values the header gives them. *)

(** One possible header, for the worked examples at the end: the values of
    the NVML 12 header (the v2 tag is the 40-byte struct size with 2 in the
    top byte). *)
Module ExampleHeader.
Definition nvmlMemory_v2 : Z := 33554472.
Definition NVML_FEATURE_DISABLED : Z := 0.
Definition NVML_FEATURE_ENABLED : Z := 1.
Definition NVML_TEMPERATURE_GPU : Z := 0.
Definition NVML_CLOCK_GRAPHICS : Z := 0.
Definition NVML_CLOCK_SM : Z := 1.
Definition NVML_CLOCK_MEM : Z := 2.
Definition NVML_TOPOLOGY_SYSTEM : Z := 50.
Definition NVML_P2P_STATUS_OK : Z := 0.
(** A system on which no process is known. *)
Definition no_process (pid : Z) : option string := None.
(** A zeroed character array. *)
Definition blank_bytes (n : nat) : list ascii := replicate n NUL.
End ExampleHeader.

Section WithHeader.

Set Default Proof Using "Type".

Variable nvmlMemory_v2 : Z.
Variables NVML_FEATURE_DISABLED NVML_FEATURE_ENABLED : Z.
Variable NVML_TEMPERATURE_GPU : Z.
Variables NVML_CLOCK_GRAPHICS NVML_CLOCK_SM NVML_CLOCK_MEM : Z.
Variable NVML_TOPOLOGY_SYSTEM : Z.
Variable NVML_P2P_STATUS_OK : Z.

(** The operating system, for the one operation that consults it: the target
    of [/proc/pid/exe] when [readlink] yields a positive length. *)
Variable readlink_exe : Z -> option string.

(** ** Device queries (nvml_device.c) *)

Record nvmlPciInfo_t : Set := {
  busIdLegacy : list ascii;
  domain : Z;
  bus : Z;
  device : Z;
  pciDeviceId : Z;
  pciSubSystemId : Z;
  busId : list ascii
}.

Record nvmlDeviceAttributes_t : Set := {
  multiprocessorCount : Z;
  sharedCopyEngineCount : Z;
  sharedDecoderCount : Z;
  sharedEncoderCount : Z;
  sharedJpegCount : Z;
  sharedOfaCount : Z;
  gpuInstanceSliceCount : Z;
  computeInstanceSliceCount : Z;
  memorySizeMB : Z
}.

Definition nvmlDeviceGetCount_v2 (g : Z) (deviceCount : ptr Z)
  : option (nvmlReturn_t * ptr Z) :=
  if negb (nvml_is_initialized g) then Some (NVML_ERROR_UNINITIALIZED, deviceCount)
  else if is_null deviceCount then Some (NVML_ERROR_INVALID_ARGUMENT, deviceCount)
  else
    c ← store deviceCount 8;
    Some (NVML_SUCCESS, c).

Definition nvmlDeviceGetHandleByIndex_v2 (g : Z) (index : Z) (device : ptr nvmlDevice_t)
  : option (nvmlReturn_t * ptr nvmlDevice_t) :=
  if negb (nvml_is_initialized g) then Some (NVML_ERROR_UNINITIALIZED, device)
  else if is_null device then Some (NVML_ERROR_INVALID_ARGUMENT, device)
  else if negb (is_valid_device_index index) then Some (NVML_ERROR_INVALID_ARGUMENT, device)
  else
    d ← store device (index_to_handle index);
    Some (NVML_SUCCESS, d).

(** The loop [for (i = 0; i < 8; i++) if (matches mock_devices[i]) ...]:
    the index of the first matching entry, counting from [i]. *)
Fixpoint first_match (matches : mock_device_info_t -> bool)
  (table : list mock_device_info_t) (i : Z) : option Z :=
  match table with
  | [] => None
  | d :: rest => if matches d then Some i else first_match matches rest (i + 1)
  end.

Definition nvmlDeviceGetHandleByUUID (g : Z) (uuid_arg : ptr string)
  (device : ptr nvmlDevice_t) : option (nvmlReturn_t * ptr nvmlDevice_t) :=
  if negb (nvml_is_initialized g) then Some (NVML_ERROR_UNINITIALIZED, device)
  else if is_null uuid_arg || is_null device then Some (NVML_ERROR_INVALID_ARGUMENT, device)
  else
    u ← load uuid_arg;
    match first_match (fun d => streq u (uuid d)) mock_devices 0 with
    | Some i =>
        d ← store device (index_to_handle i);
        Some (NVML_SUCCESS, d)
    | None => Some (NVML_ERROR_NOT_FOUND, device)
    end.

Definition nvmlDeviceGetHandleByPciBusId_v2 (g : Z) (pciBusId : ptr string)
  (device : ptr nvmlDevice_t) : option (nvmlReturn_t * ptr nvmlDevice_t) :=
  if negb (nvml_is_initialized g) then Some (NVML_ERROR_UNINITIALIZED, device)
  else if is_null pciBusId || is_null device then Some (NVML_ERROR_INVALID_ARGUMENT, device)
  else
    b ← load pciBusId;
    match first_match (fun d => streq b (pci_bus_id_str d)
                                || streq b (pci_bus_id_legacy d))
            mock_devices 0 with
    | Some i =>
        d ← store device (index_to_handle i);
        Some (NVML_SUCCESS, d)
    | None => Some (NVML_ERROR_NOT_FOUND, device)
    end.

(** The common body of the string getters of a device field: NULL or zero
    length, then the handle, then the capacity, then the copy. *)
Definition device_string_getter (field : mock_device_info_t -> string)
  (g : Z) (dev : nvmlDevice_t) (buf : ptr (list ascii)) (length : Z)
  : option (nvmlReturn_t * ptr (list ascii)) :=
  if negb (nvml_is_initialized g) then Some (NVML_ERROR_UNINITIALIZED, buf)
  else if is_null buf || (length =? 0) then Some (NVML_ERROR_INVALID_ARGUMENT, buf)
  else
    let index := device_handle_to_index dev in
    if index =? to_uint (-1) then Some (NVML_ERROR_INVALID_ARGUMENT, buf)
    else
      d ← array_get mock_devices index;
      let value := field d in
      if length <? strlen value + 1 then Some (NVML_ERROR_INSUFFICIENT_SIZE, buf)
      else
        old ← load buf;
        new ← strncpy_terminated old value length;
        Some (NVML_SUCCESS, Some new).

Definition nvmlDeviceGetName := device_string_getter name.
Definition nvmlDeviceGetUUID := device_string_getter uuid.
Definition nvmlDeviceGetSerial := device_string_getter serial.

(** The part number is a literal; the handle is checked but the table is not
    read. *)
Definition nvmlDeviceGetBoardPartNumber (g : Z) (dev : nvmlDevice_t)
  (partNumber : ptr (list ascii)) (length : Z)
  : option (nvmlReturn_t * ptr (list ascii)) :=
  if negb (nvml_is_initialized g) then Some (NVML_ERROR_UNINITIALIZED, partNumber)
  else if is_null partNumber || (length =? 0)
       then Some (NVML_ERROR_INVALID_ARGUMENT, partNumber)
  else
    let index := device_handle_to_index dev in
    if index =? to_uint (-1) then Some (NVML_ERROR_INVALID_ARGUMENT, partNumber)
    else
      let part := "699-21001-0000-000"%string in
      if length <? strlen part + 1 then Some (NVML_ERROR_INSUFFICIENT_SIZE, partNumber)
      else
        old ← load partNumber;
        new ← strncpy_terminated old part length;
        Some (NVML_SUCCESS, Some new).

Definition nvmlDeviceGetPciInfo_v3 (g : Z) (dev : nvmlDevice_t) (pci : ptr nvmlPciInfo_t)
  : option (nvmlReturn_t * ptr nvmlPciInfo_t) :=
  if negb (nvml_is_initialized g) then Some (NVML_ERROR_UNINITIALIZED, pci)
  else if is_null pci then Some (NVML_ERROR_INVALID_ARGUMENT, pci)
  else
    let index := device_handle_to_index dev in
    if index =? to_uint (-1) then Some (NVML_ERROR_INVALID_ARGUMENT, pci)
    else
      d ← array_get mock_devices index;
      p ← load pci;
      b ← strncpy_terminated (busId p) (pci_bus_id_legacy d) (Z.of_nat (length (busId p)));
      l ← strncpy_terminated (busIdLegacy p) (pci_bus_id_legacy d)
            (Z.of_nat (length (busIdLegacy p)));
      Some (NVML_SUCCESS,
            Some {| busIdLegacy := l;
                    domain := pci_domain d;
                    bus := pci_bus d;
                    device := pci_device d;
                    pciDeviceId := pci_device_id d;
                    pciSubSystemId := pci_subsystem_id d;
                    busId := b |}).

Definition nvmlDeviceGetPciInfo_v2 := nvmlDeviceGetPciInfo_v3.
Definition nvmlDeviceGetPciInfo := nvmlDeviceGetPciInfo_v3.

(** The common body of the getters that copy one integer field of the
    device's fixture entry. *)
Definition device_field_getter (field : Z -> mock_device_info_t -> Z)
  (g : Z) (dev : nvmlDevice_t) (out : ptr Z) : option (nvmlReturn_t * ptr Z) :=
  if negb (nvml_is_initialized g) then Some (NVML_ERROR_UNINITIALIZED, out)
  else if is_null out then Some (NVML_ERROR_INVALID_ARGUMENT, out)
  else
    let index := device_handle_to_index dev in
    if index =? to_uint (-1) then Some (NVML_ERROR_INVALID_ARGUMENT, out)
    else
      d ← array_get mock_devices index;
      o ← store out (field index d);
      Some (NVML_SUCCESS, o).

Definition nvmlDeviceGetMinorNumber := device_field_getter (fun _ => minor_number).
Definition nvmlDeviceGetBrand := device_field_getter (fun _ => brand).
Definition nvmlDeviceGetPersistenceMode := device_field_getter (fun _ => persistence_mode).
Definition nvmlDeviceGetDisplayMode := device_field_getter (fun _ => display_mode).
Definition nvmlDeviceGetDisplayActive := device_field_getter (fun _ => display_active).

(** The common body of the operations that check the session, one output
    pointer and the handle, and then write a value computed from the index
    alone (no read of the table). *)
Definition device_const_getter {A} (value : Z -> A) (code : nvmlReturn_t)
  (g : Z) (dev : nvmlDevice_t) (out : ptr A) : option (nvmlReturn_t * ptr A) :=
  if negb (nvml_is_initialized g) then Some (NVML_ERROR_UNINITIALIZED, out)
  else if is_null out then Some (NVML_ERROR_INVALID_ARGUMENT, out)
  else
    let index := device_handle_to_index dev in
    if index =? to_uint (-1) then Some (NVML_ERROR_INVALID_ARGUMENT, out)
    else
      o ← store out (value index);
      Some (code, o).

Definition nvmlDeviceGetIndex := device_const_getter (fun index => index) NVML_SUCCESS.

Definition nvmlDeviceGetAttributes_v2 :=
  device_const_getter
    (fun _ => {| multiprocessorCount := 108;
                 sharedCopyEngineCount := 5;
                 sharedDecoderCount := 0;
                 sharedEncoderCount := 0;
                 sharedJpegCount := 0;
                 sharedOfaCount := 0;
                 gpuInstanceSliceCount := 0;
                 computeInstanceSliceCount := 0;
                 memorySizeMB := 40960 |})
    NVML_SUCCESS.

(** Here the handle is tested before the two output pointers. *)
Definition nvmlDeviceGetCudaComputeCapability (g : Z) (dev : nvmlDevice_t)
  (major minor : ptr Z) : option (nvmlReturn_t * (ptr Z * ptr Z)) :=
  if negb (nvml_is_initialized g) then Some (NVML_ERROR_UNINITIALIZED, (major, minor))
  else if negb (is_valid_device_handle dev)
       then Some (NVML_ERROR_INVALID_ARGUMENT, (major, minor))
  else if is_null major || is_null minor
       then Some (NVML_ERROR_INVALID_ARGUMENT, (major, minor))
  else
    let idx := device_handle_to_index dev in
    d ← array_get mock_devices idx;
    ma ← store major (cuda_compute_capability_major d);
    mi ← store minor (cuda_compute_capability_minor d);
    Some (NVML_SUCCESS, (ma, mi)).

Definition nvmlDeviceGetCount := nvmlDeviceGetCount_v2.
Definition nvmlDeviceGetHandleByIndex := nvmlDeviceGetHandleByIndex_v2.
Definition nvmlDeviceGetHandleByPciBusId := nvmlDeviceGetHandleByPciBusId_v2.

(** ** Memory, thermal, power and clock queries (nvml_memory.c) *)

Record nvmlMemory_t : Set := {
  total : Z;
  free : Z;
  used : Z
}.

Record nvmlMemory_v2_t : Set := {
  version : Z;
  total_v2 : Z;
  reserved_v2 : Z;
  free_v2 : Z;
  used_v2 : Z
}.

Record nvmlBAR1Memory_t : Set := {
  bar1Total : Z;
  bar1Free : Z;
  bar1Used : Z
}.

Definition nvmlDeviceGetMemoryInfo (g : Z) (dev : nvmlDevice_t) (memory : ptr nvmlMemory_t)
  : option (nvmlReturn_t * ptr nvmlMemory_t) :=
  if negb (nvml_is_initialized g) then Some (NVML_ERROR_UNINITIALIZED, memory)
  else if is_null memory then Some (NVML_ERROR_INVALID_ARGUMENT, memory)
  else
    let index := device_handle_to_index dev in
    if index =? to_uint (-1) then Some (NVML_ERROR_INVALID_ARGUMENT, memory)
    else
      d ← array_get mock_devices index;
      m ← store memory {| total := memory_total d;
                          free := memory_free d;
                          used := memory_used d |};
      Some (NVML_SUCCESS, m).

(** The version tag is read from the caller's struct and tested before the
    handle is decoded. *)
Definition nvmlDeviceGetMemoryInfo_v2 (g : Z) (dev : nvmlDevice_t)
  (memory : ptr nvmlMemory_v2_t) : option (nvmlReturn_t * ptr nvmlMemory_v2_t) :=
  if negb (nvml_is_initialized g) then Some (NVML_ERROR_UNINITIALIZED, memory)
  else if is_null memory then Some (NVML_ERROR_INVALID_ARGUMENT, memory)
  else
    m0 ← load memory;
    if negb (version m0 =? nvmlMemory_v2) && negb (version m0 =? 0)
    then Some (NVML_ERROR_INVALID_ARGUMENT, memory)
    else
      let index := device_handle_to_index dev in
      if index =? to_uint (-1) then Some (NVML_ERROR_INVALID_ARGUMENT, memory)
      else
        d ← array_get mock_devices index;
        m ← store memory {| version := nvmlMemory_v2;
                            total_v2 := memory_total d;
                            reserved_v2 := 0;
                            free_v2 := memory_free d;
                            used_v2 := memory_used d |};
        Some (NVML_SUCCESS, m).

Definition nvmlDeviceGetBAR1MemoryInfo :=
  device_const_getter
    (fun _ => {| bar1Total := 68719476736;
                 bar1Free := 68719476736;
                 bar1Used := 0 |})
    NVML_SUCCESS.

Definition nvmlDeviceGetTemperature (g : Z) (dev : nvmlDevice_t) (sensorType : Z)
  (temp : ptr Z) : option (nvmlReturn_t * ptr Z) :=
  if negb (nvml_is_initialized g) then Some (NVML_ERROR_UNINITIALIZED, temp)
  else if is_null temp then Some (NVML_ERROR_INVALID_ARGUMENT, temp)
  else
    let index := device_handle_to_index dev in
    if index =? to_uint (-1) then Some (NVML_ERROR_INVALID_ARGUMENT, temp)
    else if negb (sensorType =? NVML_TEMPERATURE_GPU)
         then Some (NVML_ERROR_NOT_SUPPORTED, temp)
    else
      d ← array_get mock_devices index;
      t ← store temp (temperature d);
      Some (NVML_SUCCESS, t).

Definition nvmlDeviceGetPowerUsage := device_field_getter (fun _ => power_usage).
Definition nvmlDeviceGetEnforcedPowerLimit := device_field_getter (fun _ => power_limit).

(** [1000000ULL * (index + 1)], the sum being one of [unsigned int]. *)
Definition nvmlDeviceGetTotalEnergyConsumption :=
  device_const_getter (fun index => (1000000 * to_uint (index + 1)) mod 2 ^ 64)
    NVML_SUCCESS.

Definition nvmlDeviceGetClock (g : Z) (dev : nvmlDevice_t) (clockType clockId : Z)
  (clockMHz : ptr Z) : option (nvmlReturn_t * ptr Z) :=
  if negb (nvml_is_initialized g) then Some (NVML_ERROR_UNINITIALIZED, clockMHz)
  else if is_null clockMHz then Some (NVML_ERROR_INVALID_ARGUMENT, clockMHz)
  else
    let index := device_handle_to_index dev in
    if index =? to_uint (-1) then Some (NVML_ERROR_INVALID_ARGUMENT, clockMHz)
    else
      d ← array_get mock_devices index;
      if clockType =? NVML_CLOCK_GRAPHICS then
        c ← store clockMHz (clock_graphics d); Some (NVML_SUCCESS, c)
      else if clockType =? NVML_CLOCK_SM then
        c ← store clockMHz (clock_sm d); Some (NVML_SUCCESS, c)
      else if clockType =? NVML_CLOCK_MEM then
        c ← store clockMHz (clock_memory d); Some (NVML_SUCCESS, c)
      else Some (NVML_ERROR_NOT_SUPPORTED, clockMHz).

Definition nvmlDeviceGetMaxClockInfo (g : Z) (dev : nvmlDevice_t) (type : Z)
  (clock : ptr Z) : option (nvmlReturn_t * ptr Z) :=
  if negb (nvml_is_initialized g) then Some (NVML_ERROR_UNINITIALIZED, clock)
  else if is_null clock then Some (NVML_ERROR_INVALID_ARGUMENT, clock)
  else
    let index := device_handle_to_index dev in
    if index =? to_uint (-1) then Some (NVML_ERROR_INVALID_ARGUMENT, clock)
    else if (type =? NVML_CLOCK_GRAPHICS) || (type =? NVML_CLOCK_SM) then
      c ← store clock 1410; Some (NVML_SUCCESS, c)
    else if type =? NVML_CLOCK_MEM then
      c ← store clock 1593; Some (NVML_SUCCESS, c)
    else Some (NVML_ERROR_NOT_SUPPORTED, clock).

(** [NVML_CLOCK_ID_CURRENT] is passed on and never looked at. *)
Definition nvmlDeviceGetClockInfo (NVML_CLOCK_ID_CURRENT : Z) (g : Z) (dev : nvmlDevice_t)
  (type : Z) (clock : ptr Z) : option (nvmlReturn_t * ptr Z) :=
  nvmlDeviceGetClock g dev type NVML_CLOCK_ID_CURRENT clock.

(** ** MIG (nvml_mig.c) *)

Definition nvmlDeviceGetMigMode (g : Z) (dev : nvmlDevice_t)
  (currentMode pendingMode : ptr Z) : option (nvmlReturn_t * (ptr Z * ptr Z)) :=
  if negb (nvml_is_initialized g)
  then Some (NVML_ERROR_UNINITIALIZED, (currentMode, pendingMode))
  else if is_null currentMode || is_null pendingMode
       then Some (NVML_ERROR_INVALID_ARGUMENT, (currentMode, pendingMode))
  else
    let index := device_handle_to_index dev in
    if index =? to_uint (-1)
    then Some (NVML_ERROR_INVALID_ARGUMENT, (currentMode, pendingMode))
    else Some (NVML_ERROR_NOT_SUPPORTED, (currentMode, pendingMode)).

Definition nvmlDeviceGetMaxMigDeviceCount :=
  device_const_getter (fun _ => 0) NVML_SUCCESS.

(** [placements] is never dereferenced; [*count = 0] is written before
    the not-supported return. *)
Definition nvmlDeviceGetGpuInstancePossiblePlacements_v2 {A} (g : Z) (dev : nvmlDevice_t)
  (profileId : Z) (placements : ptr A) (count : ptr Z)
  : option (nvmlReturn_t * ptr Z) :=
  device_const_getter (fun _ => 0) NVML_ERROR_NOT_SUPPORTED g dev count.

Definition nvmlDeviceGetGpuInstances {A} (g : Z) (dev : nvmlDevice_t)
  (profileId : Z) (instances : ptr A) (count : ptr Z)
  : option (nvmlReturn_t * ptr Z) :=
  device_const_getter (fun _ => 0) NVML_ERROR_NOT_SUPPORTED g dev count.

(** [gpuInstance] is neither tested nor written. *)
Definition nvmlDeviceCreateGpuInstance {A} (g : Z) (dev : nvmlDevice_t)
  (profileId : Z) (gpuInstance : ptr A) : option (nvmlReturn_t * ptr A) :=
  if negb (nvml_is_initialized g) then Some (NVML_ERROR_UNINITIALIZED, gpuInstance)
  else
    let index := device_handle_to_index dev in
    if index =? to_uint (-1) then Some (NVML_ERROR_INVALID_ARGUMENT, gpuInstance)
    else Some (NVML_ERROR_NOT_SUPPORTED, gpuInstance).

Definition nvmlGpuInstanceDestroy (g : Z) (gpuInstance : Z) : option nvmlReturn_t :=
  if negb (nvml_is_initialized g) then Some NVML_ERROR_UNINITIALIZED
  else Some NVML_ERROR_NOT_SUPPORTED.

(** [info] is neither tested nor written. *)
Definition nvmlComputeInstanceGetInfo_v2 {A} (g : Z) (computeInstance : Z)
  (info : ptr A) : option (nvmlReturn_t * ptr A) :=
  if negb (nvml_is_initialized g) then Some (NVML_ERROR_UNINITIALIZED, info)
  else Some (NVML_ERROR_NOT_SUPPORTED, info).

Definition nvmlDeviceGetGpuInstancePossiblePlacements {A} :=
  @nvmlDeviceGetGpuInstancePossiblePlacements_v2 A.
Definition nvmlComputeInstanceGetInfo {A} := @nvmlComputeInstanceGetInfo_v2 A.

(** ** System queries (nvml_system.c) *)

Definition MOCK_DRIVER_VERSION : string := "550.54.15".
Definition MOCK_NVML_VERSION : string := "12.550.54".
Definition MOCK_CUDA_DRIVER_VERSION : Z := 12040.

(** The common body of the string getters of a fixed system string. *)
Definition system_string_getter (value : string) (g : Z) (buf : ptr (list ascii))
  (length : Z) : option (nvmlReturn_t * ptr (list ascii)) :=
  if negb (nvml_is_initialized g) then Some (NVML_ERROR_UNINITIALIZED, buf)
  else if is_null buf || (length =? 0) then Some (NVML_ERROR_INVALID_ARGUMENT, buf)
  else if length <? strlen value + 1 then Some (NVML_ERROR_INSUFFICIENT_SIZE, buf)
  else
    old ← load buf;
    new ← strncpy_terminated old value length;
    Some (NVML_SUCCESS, Some new).

Definition nvmlSystemGetDriverVersion := system_string_getter MOCK_DRIVER_VERSION.
Definition nvmlSystemGetNVMLVersion := system_string_getter MOCK_NVML_VERSION.

(** [branchInfo] is written as a character array. *)
Definition nvmlSystemGetDriverBranch := system_string_getter "r550_00".

Definition nvmlSystemGetCudaDriverVersion (g : Z) (cudaDriverVersion : ptr Z)
  : option (nvmlReturn_t * ptr Z) :=
  if negb (nvml_is_initialized g) then Some (NVML_ERROR_UNINITIALIZED, cudaDriverVersion)
  else if is_null cudaDriverVersion
       then Some (NVML_ERROR_INVALID_ARGUMENT, cudaDriverVersion)
  else
    v ← store cudaDriverVersion MOCK_CUDA_DRIVER_VERSION;
    Some (NVML_SUCCESS, v).

Definition nvmlSystemGetCudaDriverVersion_v2 := nvmlSystemGetCudaDriverVersion.

(** What follows the last slash of a path, if it has one ([strrchr]). *)
Fixpoint after_last_slash (path : string) : option string :=
  match path with
  | EmptyString => None
  | String c rest =>
      match after_last_slash rest with
      | Some tail => Some tail
      | None => if Ascii.eqb c "/" then Some rest else None
      end
  end.

Definition basename_of (path : string) : string :=
  match after_last_slash path with
  | Some tail => tail
  | None => path
  end.

Definition nvmlSystemGetProcessName (g : Z) (pid : Z) (buf : ptr (list ascii)) (length : Z)
  : option (nvmlReturn_t * ptr (list ascii)) :=
  if negb (nvml_is_initialized g) then Some (NVML_ERROR_UNINITIALIZED, buf)
  else if is_null buf || (length =? 0) then Some (NVML_ERROR_INVALID_ARGUMENT, buf)
  else
    match readlink_exe pid with
    | Some exe_path =>
        let basename := basename_of exe_path in
        if length <=? strlen basename then Some (NVML_ERROR_INSUFFICIENT_SIZE, buf)
        else
          old ← load buf;
          new ← strncpy_terminated old basename length;
          Some (NVML_SUCCESS, Some new)
    | None => Some (NVML_ERROR_NOT_FOUND, buf)
    end.

Definition nvmlSystemGetHicVersion {A} (g : Z) (hwbcCount : ptr Z) (hwbcEntries : ptr A)
  : option (nvmlReturn_t * ptr Z) :=
  if negb (nvml_is_initialized g) then Some (NVML_ERROR_UNINITIALIZED, hwbcCount)
  else if is_null hwbcCount then Some (NVML_ERROR_INVALID_ARGUMENT, hwbcCount)
  else
    c ← store hwbcCount 0;
    Some (NVML_SUCCESS, c).

(** A [for] loop over the given indices, threading the loop state. *)
Fixpoint for_each {S} (body : Z -> S -> option S) (indices : list Z) (st : S) : option S :=
  match indices with
  | [] => Some st
  | i :: rest => st1 ← body i st; for_each body rest st1
  end.

Definition nvmlSystemGetTopologyGpuSet (g : Z) (cpuNumber : Z) (count : ptr Z)
  (deviceArray : ptr (list nvmlDevice_t))
  : option (nvmlReturn_t * (ptr Z * ptr (list nvmlDevice_t))) :=
  if negb (nvml_is_initialized g) then Some (NVML_ERROR_UNINITIALIZED, (count, deviceArray))
  else if is_null count then Some (NVML_ERROR_INVALID_ARGUMENT, (count, deviceArray))
  else if is_null deviceArray then
    c ← store count 8;
    Some (NVML_SUCCESS, (c, deviceArray))
  else
    n ← load count;
    if n <? 8 then
      c ← store count 8;
      Some (NVML_ERROR_INSUFFICIENT_SIZE, (c, deviceArray))
    else
      arr ← load deviceArray;
      arr1 ← for_each (fun i a => poke a i (index_to_handle i)) (seqZ 0 8) arr;
      c ← store count 8;
      Some (NVML_SUCCESS, (c, Some arr1)).

(** ** Processes, units, events, mutators, NVLink and topology (nvml_stubs.c) *)

Record nvmlEventSet_t : Set := { set_handle : Z }.

(** [infos] is never dereferenced. *)
Definition nvmlDeviceGetComputeRunningProcesses_v3 {A} (g : Z) (dev : nvmlDevice_t)
  (infoCount : ptr Z) (infos : ptr A) : option (nvmlReturn_t * ptr Z) :=
  device_const_getter (fun _ => 0) NVML_SUCCESS g dev infoCount.

Definition nvmlDeviceGetGraphicsRunningProcesses_v3 {A} (g : Z) (dev : nvmlDevice_t)
  (infoCount : ptr Z) (infos : ptr A) : option (nvmlReturn_t * ptr Z) :=
  device_const_getter (fun _ => 0) NVML_SUCCESS g dev infoCount.

Definition nvmlDeviceGetMPSComputeRunningProcesses_v3 {A} (g : Z) (dev : nvmlDevice_t)
  (infoCount : ptr Z) (infos : ptr A) : option (nvmlReturn_t * ptr Z) :=
  device_const_getter (fun _ => 0) NVML_SUCCESS g dev infoCount.

Definition nvmlDeviceGetComputeRunningProcesses {A} (g : Z) (dev : nvmlDevice_t)
  (infoCount : ptr Z) (infos : ptr A) : option (nvmlReturn_t * ptr Z) :=
  device_const_getter (fun _ => 0) NVML_SUCCESS g dev infoCount.

Definition nvmlDeviceGetComputeRunningProcesses_v2 {A} (g : Z) (dev : nvmlDevice_t)
  (infoCount : ptr Z) (infos : ptr A) : option (nvmlReturn_t * ptr Z) :=
  device_const_getter (fun _ => 0) NVML_SUCCESS g dev infoCount.

Definition nvmlUnitGetCount (g : Z) (unitCount : ptr Z) : option (nvmlReturn_t * ptr Z) :=
  if negb (nvml_is_initialized g) then Some (NVML_ERROR_UNINITIALIZED, unitCount)
  else if is_null unitCount then Some (NVML_ERROR_INVALID_ARGUMENT, unitCount)
  else
    c ← store unitCount 0;
    Some (NVML_SUCCESS, c).

Definition nvmlUnitGetHandleByIndex {A} (g : Z) (index : Z) (unit : ptr A)
  : option (nvmlReturn_t * ptr A) :=
  if negb (nvml_is_initialized g) then Some (NVML_ERROR_UNINITIALIZED, unit)
  else Some (NVML_ERROR_INVALID_ARGUMENT, unit).

(** Here the handle is tested before the output pointer. *)
Definition nvmlDeviceGetSupportedEventTypes (g : Z) (dev : nvmlDevice_t)
  (eventTypes : ptr Z) : option (nvmlReturn_t * ptr Z) :=
  if negb (nvml_is_initialized g) then Some (NVML_ERROR_UNINITIALIZED, eventTypes)
  else if negb (is_valid_device_handle dev)
       then Some (NVML_ERROR_INVALID_ARGUMENT, eventTypes)
  else if is_null eventTypes then Some (NVML_ERROR_INVALID_ARGUMENT, eventTypes)
  else
    e ← store eventTypes 0;
    Some (NVML_SUCCESS, e).

Definition nvmlDeviceRegisterEvents (g : Z) (dev : nvmlDevice_t) (eventTypes : Z)
  (set : nvmlEventSet_t) : option nvmlReturn_t :=
  if negb (nvml_is_initialized g) then Some NVML_ERROR_UNINITIALIZED
  else if negb (is_valid_device_handle dev) then Some NVML_ERROR_INVALID_ARGUMENT
  else if negb (eventTypes =? 0) then Some NVML_ERROR_NOT_SUPPORTED
  else Some NVML_SUCCESS.

Definition nvmlEventSetCreate (g : Z) (set : ptr nvmlEventSet_t)
  : option (nvmlReturn_t * ptr nvmlEventSet_t) :=
  if negb (nvml_is_initialized g) then Some (NVML_ERROR_UNINITIALIZED, set)
  else if is_null set then Some (NVML_ERROR_INVALID_ARGUMENT, set)
  else
    s ← store set {| set_handle := 0xDEADBEEF |};
    Some (NVML_SUCCESS, s).

Definition nvmlEventSetWait_v2 {A} (g : Z) (set : nvmlEventSet_t) (data : ptr A)
  (timeoutms : Z) : option (nvmlReturn_t * ptr A) :=
  if negb (nvml_is_initialized g) then Some (NVML_ERROR_UNINITIALIZED, data)
  else if is_null data then Some (NVML_ERROR_INVALID_ARGUMENT, data)
  else Some (NVML_ERROR_TIMEOUT, data).

Definition nvmlEventSetWait {A} := @nvmlEventSetWait_v2 A.

Definition nvmlEventSetFree (g : Z) (set : nvmlEventSet_t) : option nvmlReturn_t :=
  if negb (nvml_is_initialized g) then Some NVML_ERROR_UNINITIALIZED
  else Some NVML_SUCCESS.

Definition nvmlDeviceSetPersistenceMode (g : Z) (dev : nvmlDevice_t) (mode : Z)
  : option nvmlReturn_t :=
  if negb (nvml_is_initialized g) then Some NVML_ERROR_UNINITIALIZED
  else
    let index := device_handle_to_index dev in
    if index =? to_uint (-1) then Some NVML_ERROR_INVALID_ARGUMENT
    else if negb (mode =? NVML_FEATURE_DISABLED) && negb (mode =? NVML_FEATURE_ENABLED)
         then Some NVML_ERROR_INVALID_ARGUMENT
    else Some NVML_SUCCESS.

Definition nvmlDeviceSetComputeMode (g : Z) (dev : nvmlDevice_t) (mode : Z)
  : option nvmlReturn_t :=
  if negb (nvml_is_initialized g) then Some NVML_ERROR_UNINITIALIZED
  else
    let index := device_handle_to_index dev in
    if index =? to_uint (-1) then Some NVML_ERROR_INVALID_ARGUMENT
    else Some NVML_SUCCESS.

(** Here the handle is tested before the output pointer, and the link
    number last. *)
Definition nvmlDeviceGetNvLinkState (g : Z) (dev : nvmlDevice_t) (link : Z)
  (isActive : ptr Z) : option (nvmlReturn_t * ptr Z) :=
  if negb (nvml_is_initialized g) then Some (NVML_ERROR_UNINITIALIZED, isActive)
  else if negb (is_valid_device_handle dev)
       then Some (NVML_ERROR_INVALID_ARGUMENT, isActive)
  else if is_null isActive then Some (NVML_ERROR_INVALID_ARGUMENT, isActive)
  else if 12 <=? link then Some (NVML_ERROR_INVALID_ARGUMENT, isActive)
  else
    a ← store isActive NVML_FEATURE_ENABLED;
    Some (NVML_SUCCESS, a).

(** [(idx + link / 2 + 1) % 8] in [unsigned int] arithmetic. *)
Definition nvlink_remote_index (idx link : Z) : Z :=
  to_uint (idx + link / 2 + 1) mod 8.

Definition nvmlDeviceGetNvLinkRemotePciInfo_v2 (g : Z) (dev : nvmlDevice_t) (link : Z)
  (pci : ptr nvmlPciInfo_t) : option (nvmlReturn_t * ptr nvmlPciInfo_t) :=
  if negb (nvml_is_initialized g) then Some (NVML_ERROR_UNINITIALIZED, pci)
  else if negb (is_valid_device_handle dev) then Some (NVML_ERROR_INVALID_ARGUMENT, pci)
  else if is_null pci then Some (NVML_ERROR_INVALID_ARGUMENT, pci)
  else if 12 <=? link then Some (NVML_ERROR_INVALID_ARGUMENT, pci)
  else
    let idx := device_handle_to_index dev in
    let remote_idx := nvlink_remote_index idx link in
    remote_device ← array_get mock_devices remote_idx;
    p ← load pci;
    l ← strncpy_terminated (busIdLegacy p) (pci_bus_id_legacy remote_device)
          NVML_DEVICE_PCI_BUS_ID_BUFFER_V2_SIZE;
    b ← strncpy_terminated (busId p) (pci_bus_id_str remote_device)
          NVML_DEVICE_PCI_BUS_ID_BUFFER_SIZE;
    Some (NVML_SUCCESS,
          Some {| busIdLegacy := l;
                  domain := pci_domain remote_device;
                  bus := pci_bus remote_device;
                  device := pci_device remote_device;
                  pciDeviceId := pci_device_id remote_device;
                  pciSubSystemId := pci_subsystem_id remote_device;
                  busId := b |}).

Definition nvmlDeviceGetNvLinkRemotePciInfo := nvmlDeviceGetNvLinkRemotePciInfo_v2.

(** The common body of the two-device queries: both handles are decoded,
    then either being invalid is an invalid argument. *)
Definition device_pair_getter (value : Z) (g : Z) (device1 device2 : nvmlDevice_t)
  (out : ptr Z) : option (nvmlReturn_t * ptr Z) :=
  if negb (nvml_is_initialized g) then Some (NVML_ERROR_UNINITIALIZED, out)
  else if is_null out then Some (NVML_ERROR_INVALID_ARGUMENT, out)
  else
    let index1 := device_handle_to_index device1 in
    let index2 := device_handle_to_index device2 in
    if (index1 =? to_uint (-1)) || (index2 =? to_uint (-1))
    then Some (NVML_ERROR_INVALID_ARGUMENT, out)
    else
      o ← store out value;
      Some (NVML_SUCCESS, o).

Definition nvmlDeviceGetTopologyCommonAncestor := device_pair_getter NVML_TOPOLOGY_SYSTEM.

Definition nvmlDeviceGetP2PStatus (g : Z) (device1 device2 : nvmlDevice_t) (p2pIndex : Z)
  (p2pStatus : ptr Z) : option (nvmlReturn_t * ptr Z) :=
  device_pair_getter NVML_P2P_STATUS_OK g device1 device2 p2pStatus.

Definition nvmlDeviceGetTopologyNearestGpus (g : Z) (dev : nvmlDevice_t) (level : Z)
  (count : ptr Z) (deviceArray : ptr (list nvmlDevice_t))
  : option (nvmlReturn_t * (ptr Z * ptr (list nvmlDevice_t))) :=
  if negb (nvml_is_initialized g) then Some (NVML_ERROR_UNINITIALIZED, (count, deviceArray))
  else if is_null count then Some (NVML_ERROR_INVALID_ARGUMENT, (count, deviceArray))
  else
    let index := device_handle_to_index dev in
    if index =? to_uint (-1) then Some (NVML_ERROR_INVALID_ARGUMENT, (count, deviceArray))
    else if is_null deviceArray then
      c ← store count 7;
      Some (NVML_SUCCESS, (c, deviceArray))
    else
      n ← load count;
      if n <? 7 then
        c ← store count 7;
        Some (NVML_ERROR_INSUFFICIENT_SIZE, (c, deviceArray))
      else
        arr ← load deviceArray;
        '(arr1, _) ← for_each
          (fun i '(a, j) =>
             if negb (i =? index) then
               a1 ← poke a j (index_to_handle i); Some (a1, j + 1)
             else Some (a, j))
          (seqZ 0 8) (arr, 0);
        c ← store count 7;
        Some (NVML_SUCCESS, (c, Some arr1)).

(** ** The query facade as a whole

    One constructor per gated entry point, with the arguments of the C
    function.  (The legacy and versioned aliases above are the same functions
    and have no constructor of their own.)  A pointer the function never
    dereferences points to [unit]. *)

Inductive request : Type :=
| DeviceGetCount_v2 (deviceCount : ptr Z)
| DeviceGetHandleByIndex_v2 (index : Z) (dev_out : ptr nvmlDevice_t)
| DeviceGetHandleByUUID (uuid_arg : ptr string) (dev_out : ptr nvmlDevice_t)
| DeviceGetHandleByPciBusId_v2 (pciBusId : ptr string) (dev_out : ptr nvmlDevice_t)
| DeviceGetName (dev : nvmlDevice_t) (buf : ptr (list ascii)) (length : Z)
| DeviceGetUUID (dev : nvmlDevice_t) (buf : ptr (list ascii)) (length : Z)
| DeviceGetSerial (dev : nvmlDevice_t) (buf : ptr (list ascii)) (length : Z)
| DeviceGetBoardPartNumber (dev : nvmlDevice_t) (buf : ptr (list ascii)) (length : Z)
| DeviceGetPciInfo_v3 (dev : nvmlDevice_t) (pci : ptr nvmlPciInfo_t)
| DeviceGetMinorNumber (dev : nvmlDevice_t) (out : ptr Z)
| DeviceGetBrand (dev : nvmlDevice_t) (out : ptr Z)
| DeviceGetPersistenceMode (dev : nvmlDevice_t) (out : ptr Z)
| DeviceGetDisplayMode (dev : nvmlDevice_t) (out : ptr Z)
| DeviceGetDisplayActive (dev : nvmlDevice_t) (out : ptr Z)
| DeviceGetIndex (dev : nvmlDevice_t) (out : ptr Z)
| DeviceGetAttributes_v2 (dev : nvmlDevice_t) (attributes : ptr nvmlDeviceAttributes_t)
| DeviceGetCudaComputeCapability (dev : nvmlDevice_t) (major minor : ptr Z)
| DeviceGetMemoryInfo (dev : nvmlDevice_t) (memory : ptr nvmlMemory_t)
| DeviceGetMemoryInfo_v2 (dev : nvmlDevice_t) (memory : ptr nvmlMemory_v2_t)
| DeviceGetBAR1MemoryInfo (dev : nvmlDevice_t) (bar1Memory : ptr nvmlBAR1Memory_t)
| DeviceGetTemperature (dev : nvmlDevice_t) (sensorType : Z) (out : ptr Z)
| DeviceGetPowerUsage (dev : nvmlDevice_t) (out : ptr Z)
| DeviceGetEnforcedPowerLimit (dev : nvmlDevice_t) (out : ptr Z)
| DeviceGetTotalEnergyConsumption (dev : nvmlDevice_t) (out : ptr Z)
| DeviceGetClock (dev : nvmlDevice_t) (clockType clockId : Z) (out : ptr Z)
| DeviceGetMaxClockInfo (dev : nvmlDevice_t) (type : Z) (out : ptr Z)
| DeviceGetMigMode (dev : nvmlDevice_t) (currentMode pendingMode : ptr Z)
| DeviceGetMaxMigDeviceCount (dev : nvmlDevice_t) (count : ptr Z)
| DeviceGetGpuInstancePossiblePlacements_v2 (dev : nvmlDevice_t) (profileId : Z)
    (placements : ptr unit) (count : ptr Z)
| DeviceGetGpuInstances (dev : nvmlDevice_t) (profileId : Z)
    (instances : ptr unit) (count : ptr Z)
| DeviceCreateGpuInstance (dev : nvmlDevice_t) (profileId : Z) (gpuInstance : ptr unit)
| GpuInstanceDestroy (gpuInstance : Z)
| ComputeInstanceGetInfo_v2 (computeInstance : Z) (info : ptr unit)
| SystemGetDriverVersion (buf : ptr (list ascii)) (length : Z)
| SystemGetNVMLVersion (buf : ptr (list ascii)) (length : Z)
| SystemGetDriverBranch (buf : ptr (list ascii)) (length : Z)
| SystemGetCudaDriverVersion (out : ptr Z)
| SystemGetProcessName (pid : Z) (buf : ptr (list ascii)) (length : Z)
| SystemGetHicVersion (hwbcCount : ptr Z) (hwbcEntries : ptr unit)
| SystemGetTopologyGpuSet (cpuNumber : Z) (count : ptr Z)
    (deviceArray : ptr (list nvmlDevice_t))
| DeviceGetComputeRunningProcesses_v3 (dev : nvmlDevice_t) (infoCount : ptr Z)
    (infos : ptr unit)
| DeviceGetGraphicsRunningProcesses_v3 (dev : nvmlDevice_t) (infoCount : ptr Z)
    (infos : ptr unit)
| DeviceGetMPSComputeRunningProcesses_v3 (dev : nvmlDevice_t) (infoCount : ptr Z)
    (infos : ptr unit)
| DeviceGetComputeRunningProcesses (dev : nvmlDevice_t) (infoCount : ptr Z)
    (infos : ptr unit)
| DeviceGetComputeRunningProcesses_v2 (dev : nvmlDevice_t) (infoCount : ptr Z)
    (infos : ptr unit)
| UnitGetCount (unitCount : ptr Z)
| UnitGetHandleByIndex (index : Z) (unit_out : ptr unit)
| DeviceGetSupportedEventTypes (dev : nvmlDevice_t) (eventTypes : ptr Z)
| DeviceRegisterEvents (dev : nvmlDevice_t) (eventTypes : Z) (set : nvmlEventSet_t)
| EventSetCreate (set_out : ptr nvmlEventSet_t)
| EventSetWait_v2 (set : nvmlEventSet_t) (data : ptr unit) (timeoutms : Z)
| EventSetFree (set : nvmlEventSet_t)
| DeviceSetPersistenceMode (dev : nvmlDevice_t) (mode : Z)
| DeviceSetComputeMode (dev : nvmlDevice_t) (mode : Z)
| DeviceGetNvLinkState (dev : nvmlDevice_t) (link : Z) (isActive : ptr Z)
| DeviceGetNvLinkRemotePciInfo_v2 (dev : nvmlDevice_t) (link : Z) (pci : ptr nvmlPciInfo_t)
| DeviceGetTopologyCommonAncestor (device1 device2 : nvmlDevice_t) (pathInfo : ptr Z)
| DeviceGetTopologyNearestGpus (dev : nvmlDevice_t) (level : Z) (count : ptr Z)
    (deviceArray : ptr (list nvmlDevice_t))
| DeviceGetP2PStatus (device1 device2 : nvmlDevice_t) (p2pIndex : Z) (p2pStatus : ptr Z).

(** The return code of a call; [None] when the call faults. *)
Definition dispatch (g : Z) (req : request) : option nvmlReturn_t :=
  match req with
  | DeviceGetCount_v2 c => fst <$> nvmlDeviceGetCount_v2 g c
  | DeviceGetHandleByIndex_v2 i d => fst <$> nvmlDeviceGetHandleByIndex_v2 g i d
  | DeviceGetHandleByUUID u d => fst <$> nvmlDeviceGetHandleByUUID g u d
  | DeviceGetHandleByPciBusId_v2 b d => fst <$> nvmlDeviceGetHandleByPciBusId_v2 g b d
  | DeviceGetName d b n => fst <$> nvmlDeviceGetName g d b n
  | DeviceGetUUID d b n => fst <$> nvmlDeviceGetUUID g d b n
  | DeviceGetSerial d b n => fst <$> nvmlDeviceGetSerial g d b n
  | DeviceGetBoardPartNumber d b n => fst <$> nvmlDeviceGetBoardPartNumber g d b n
  | DeviceGetPciInfo_v3 d p => fst <$> nvmlDeviceGetPciInfo_v3 g d p
  | DeviceGetMinorNumber d o => fst <$> nvmlDeviceGetMinorNumber g d o
  | DeviceGetBrand d o => fst <$> nvmlDeviceGetBrand g d o
  | DeviceGetPersistenceMode d o => fst <$> nvmlDeviceGetPersistenceMode g d o
  | DeviceGetDisplayMode d o => fst <$> nvmlDeviceGetDisplayMode g d o
  | DeviceGetDisplayActive d o => fst <$> nvmlDeviceGetDisplayActive g d o
  | DeviceGetIndex d o => fst <$> nvmlDeviceGetIndex g d o
  | DeviceGetAttributes_v2 d a => fst <$> nvmlDeviceGetAttributes_v2 g d a
  | DeviceGetCudaComputeCapability d ma mi =>
      fst <$> nvmlDeviceGetCudaComputeCapability g d ma mi
  | DeviceGetMemoryInfo d m => fst <$> nvmlDeviceGetMemoryInfo g d m
  | DeviceGetMemoryInfo_v2 d m => fst <$> nvmlDeviceGetMemoryInfo_v2 g d m
  | DeviceGetBAR1MemoryInfo d m => fst <$> nvmlDeviceGetBAR1MemoryInfo g d m
  | DeviceGetTemperature d t o => fst <$> nvmlDeviceGetTemperature g d t o
  | DeviceGetPowerUsage d o => fst <$> nvmlDeviceGetPowerUsage g d o
  | DeviceGetEnforcedPowerLimit d o => fst <$> nvmlDeviceGetEnforcedPowerLimit g d o
  | DeviceGetTotalEnergyConsumption d o =>
      fst <$> nvmlDeviceGetTotalEnergyConsumption g d o
  | DeviceGetClock d t i o => fst <$> nvmlDeviceGetClock g d t i o
  | DeviceGetMaxClockInfo d t o => fst <$> nvmlDeviceGetMaxClockInfo g d t o
  | DeviceGetMigMode d c p => fst <$> nvmlDeviceGetMigMode g d c p
  | DeviceGetMaxMigDeviceCount d c => fst <$> nvmlDeviceGetMaxMigDeviceCount g d c
  | DeviceGetGpuInstancePossiblePlacements_v2 d i p c =>
      fst <$> nvmlDeviceGetGpuInstancePossiblePlacements_v2 g d i p c
  | DeviceGetGpuInstances d i p c => fst <$> nvmlDeviceGetGpuInstances g d i p c
  | DeviceCreateGpuInstance d i p => fst <$> nvmlDeviceCreateGpuInstance g d i p
  | GpuInstanceDestroy i => nvmlGpuInstanceDestroy g i
  | ComputeInstanceGetInfo_v2 i p => fst <$> nvmlComputeInstanceGetInfo_v2 g i p
  | SystemGetDriverVersion b n => fst <$> nvmlSystemGetDriverVersion g b n
  | SystemGetNVMLVersion b n => fst <$> nvmlSystemGetNVMLVersion g b n
  | SystemGetDriverBranch b n => fst <$> nvmlSystemGetDriverBranch g b n
  | SystemGetCudaDriverVersion o => fst <$> nvmlSystemGetCudaDriverVersion g o
  | SystemGetProcessName pid b n => fst <$> nvmlSystemGetProcessName g pid b n
  | SystemGetHicVersion c e => fst <$> nvmlSystemGetHicVersion g c e
  | SystemGetTopologyGpuSet cpu c a => fst <$> nvmlSystemGetTopologyGpuSet g cpu c a
  | DeviceGetComputeRunningProcesses_v3 d c i =>
      fst <$> nvmlDeviceGetComputeRunningProcesses_v3 g d c i
  | DeviceGetGraphicsRunningProcesses_v3 d c i =>
      fst <$> nvmlDeviceGetGraphicsRunningProcesses_v3 g d c i
  | DeviceGetMPSComputeRunningProcesses_v3 d c i =>
      fst <$> nvmlDeviceGetMPSComputeRunningProcesses_v3 g d c i
  | DeviceGetComputeRunningProcesses d c i =>
      fst <$> nvmlDeviceGetComputeRunningProcesses g d c i
  | DeviceGetComputeRunningProcesses_v2 d c i =>
      fst <$> nvmlDeviceGetComputeRunningProcesses_v2 g d c i
  | UnitGetCount c => fst <$> nvmlUnitGetCount g c
  | UnitGetHandleByIndex i u => fst <$> nvmlUnitGetHandleByIndex g i u
  | DeviceGetSupportedEventTypes d e => fst <$> nvmlDeviceGetSupportedEventTypes g d e
  | DeviceRegisterEvents d e s => nvmlDeviceRegisterEvents g d e s
  | EventSetCreate s => fst <$> nvmlEventSetCreate g s
  | EventSetWait_v2 s d t => fst <$> nvmlEventSetWait_v2 g s d t
  | EventSetFree s => nvmlEventSetFree g s
  | DeviceSetPersistenceMode d m => nvmlDeviceSetPersistenceMode g d m
  | DeviceSetComputeMode d m => nvmlDeviceSetComputeMode g d m
  | DeviceGetNvLinkState d l a => fst <$> nvmlDeviceGetNvLinkState g d l a
  | DeviceGetNvLinkRemotePciInfo_v2 d l p =>
      fst <$> nvmlDeviceGetNvLinkRemotePciInfo_v2 g d l p
  | DeviceGetTopologyCommonAncestor d1 d2 p =>
      fst <$> nvmlDeviceGetTopologyCommonAncestor g d1 d2 p
  | DeviceGetTopologyNearestGpus d l c a =>
      fst <$> nvmlDeviceGetTopologyNearestGpus g d l c a
  | DeviceGetP2PStatus d1 d2 i p => fst <$> nvmlDeviceGetP2PStatus g d1 d2 i p
  end.

(** ** The validation order of the specification

    The specification fixes one order for every entry point: (1) the session
    is active, (2) the required pointers are non-null, (3) the handles decode
    to a device index, (4) the numeric and version arguments are in their
    domain, (5) the caller's buffer is large enough.  [validation] records
    what each step finds for a call, and [validate_in_spec_order] runs the
    steps in that order; neither looks at how the C functions order their
    tests.

    Step 2 is recorded twice.  [all_pointers_ok] follows the words of the
    specification: every pointer an entry point takes is required, the
    device array of the two topology list queries excepted, which the
    specification itself lets the caller pass as a null buffer to learn the
    count.  [validation_of] leaves out, in addition, the outputs the mock
    never fills in ([unfilled_outputs_ok]): the placement, instance, process
    and HIC-entry lists, the created GPU instance and the compute-instance
    record. *)

Record validation : Set := {
  pointers_ok : bool;
  handles_ok : bool;
  argument_error : option nvmlReturn_t;
  size_ok : bool;
  outcome : nvmlReturn_t
}.

Definition validate_in_spec_order (g : Z) (v : validation) : nvmlReturn_t :=
  if negb (nvml_is_initialized g) then NVML_ERROR_UNINITIALIZED
  else if negb (pointers_ok v) then NVML_ERROR_INVALID_ARGUMENT
  else if negb (handles_ok v) then NVML_ERROR_INVALID_ARGUMENT
  else match argument_error v with
       | Some e => e
       | None => if negb (size_ok v) then NVML_ERROR_INSUFFICIENT_SIZE else outcome v
       end.

(** Every step passes. *)
Definition passes (g : Z) (v : validation) : bool :=
  nvml_is_initialized g && pointers_ok v && handles_ok v &&
  match argument_error v with Some _ => false | None => true end && size_ok v.

Definition non_null {A} (p : ptr A) : bool := negb (is_null p).

(** An error [e] for an argument that fails the test [ok]. *)
Definition require (ok : bool) (e : nvmlReturn_t) : option nvmlReturn_t :=
  if ok then None else Some e.

(** A call with pointers only. *)
Definition check_pointers (ptrs : bool) : validation :=
  {| pointers_ok := ptrs; handles_ok := true; argument_error := None;
     size_ok := true; outcome := NVML_SUCCESS |}.

(** A call on a device: pointers, handle, an argument test, and the code
    reported once they pass. *)
Definition check_device (ptrs : bool) (dev : nvmlDevice_t)
  (arg : option nvmlReturn_t) (result : nvmlReturn_t) : validation :=
  {| pointers_ok := ptrs; handles_ok := is_valid_device_handle dev;
     argument_error := arg; size_ok := true; outcome := result |}.

(** A string query: the capacity must be positive, and hold the value and
    its terminator. *)
Definition check_string (buf : ptr (list ascii)) (handle_ok : bool)
  (value : option string) (length : Z) : validation :=
  {| pointers_ok := non_null buf; handles_ok := handle_ok;
     argument_error := require (negb (length =? 0)) NVML_ERROR_INVALID_ARGUMENT;
     size_ok := match value with
                | Some s => strlen s + 1 <=? length
                | None => true
                end;
     outcome := NVML_SUCCESS |}.

Definition device_value (field : mock_device_info_t -> string) (dev : nvmlDevice_t)
  : option string :=
  field <$> array_get mock_devices (handle dev - 1).

Definition found (hit : option Z) : nvmlReturn_t :=
  match hit with Some _ => NVML_SUCCESS | None => NVML_ERROR_NOT_FOUND end.

Definition validation_of (req : request) : validation :=
  match req with
  | DeviceGetCount_v2 c => check_pointers (non_null c)
  | DeviceGetHandleByIndex_v2 i d =>
      {| pointers_ok := non_null d; handles_ok := true;
         argument_error := require (is_valid_device_index i) NVML_ERROR_INVALID_ARGUMENT;
         size_ok := true; outcome := NVML_SUCCESS |}
  | DeviceGetHandleByUUID u d =>
      {| pointers_ok := non_null u && non_null d; handles_ok := true;
         argument_error := None; size_ok := true;
         outcome := match u with
                    | Some s => found (first_match (fun d => streq s (uuid d)) mock_devices 0)
                    | None => NVML_SUCCESS
                    end |}
  | DeviceGetHandleByPciBusId_v2 b d =>
      {| pointers_ok := non_null b && non_null d; handles_ok := true;
         argument_error := None; size_ok := true;
         outcome := match b with
                    | Some s =>
                        found (first_match
                                 (fun d => streq s (pci_bus_id_str d)
                                           || streq s (pci_bus_id_legacy d))
                                 mock_devices 0)
                    | None => NVML_SUCCESS
                    end |}
  | DeviceGetName d b n =>
      check_string b (is_valid_device_handle d) (device_value name d) n
  | DeviceGetUUID d b n =>
      check_string b (is_valid_device_handle d) (device_value uuid d) n
  | DeviceGetSerial d b n =>
      check_string b (is_valid_device_handle d) (device_value serial d) n
  | DeviceGetBoardPartNumber d b n =>
      check_string b (is_valid_device_handle d) (Some "699-21001-0000-000"%string) n
  | DeviceGetPciInfo_v3 d p => check_device (non_null p) d None NVML_SUCCESS
  | DeviceGetMinorNumber d o
  | DeviceGetBrand d o
  | DeviceGetPersistenceMode d o
  | DeviceGetDisplayMode d o
  | DeviceGetDisplayActive d o
  | DeviceGetIndex d o
  | DeviceGetPowerUsage d o
  | DeviceGetEnforcedPowerLimit d o
  | DeviceGetTotalEnergyConsumption d o
  | DeviceGetMaxMigDeviceCount d o
  | DeviceGetSupportedEventTypes d o => check_device (non_null o) d None NVML_SUCCESS
  | DeviceGetAttributes_v2 d a => check_device (non_null a) d None NVML_SUCCESS
  | DeviceGetCudaComputeCapability d ma mi =>
      check_device (non_null ma && non_null mi) d None NVML_SUCCESS
  | DeviceGetMemoryInfo d m => check_device (non_null m) d None NVML_SUCCESS
  | DeviceGetMemoryInfo_v2 d m =>
      check_device (non_null m) d
        (match m with
         | Some m0 =>
             require ((version m0 =? nvmlMemory_v2) || (version m0 =? 0))
               NVML_ERROR_INVALID_ARGUMENT
         | None => None
         end)
        NVML_SUCCESS
  | DeviceGetBAR1MemoryInfo d m => check_device (non_null m) d None NVML_SUCCESS
  | DeviceGetTemperature d t o =>
      check_device (non_null o) d
        (require (t =? NVML_TEMPERATURE_GPU) NVML_ERROR_NOT_SUPPORTED) NVML_SUCCESS
  | DeviceGetClock d t _ o
  | DeviceGetMaxClockInfo d t o =>
      check_device (non_null o) d
        (require ((t =? NVML_CLOCK_GRAPHICS) || (t =? NVML_CLOCK_SM)
                  || (t =? NVML_CLOCK_MEM)) NVML_ERROR_NOT_SUPPORTED)
        NVML_SUCCESS
  | DeviceGetMigMode d c p =>
      check_device (non_null c && non_null p) d None NVML_ERROR_NOT_SUPPORTED
  | DeviceGetGpuInstancePossiblePlacements_v2 d _ _ c
  | DeviceGetGpuInstances d _ _ c =>
      check_device (non_null c) d None NVML_ERROR_NOT_SUPPORTED
  | DeviceCreateGpuInstance d _ _ => check_device true d None NVML_ERROR_NOT_SUPPORTED
  | GpuInstanceDestroy _
  | ComputeInstanceGetInfo_v2 _ _ =>
      {| pointers_ok := true; handles_ok := true; argument_error := None;
         size_ok := true; outcome := NVML_ERROR_NOT_SUPPORTED |}
  | SystemGetDriverVersion b n => check_string b true (Some MOCK_DRIVER_VERSION) n
  | SystemGetNVMLVersion b n => check_string b true (Some MOCK_NVML_VERSION) n
  | SystemGetDriverBranch b n => check_string b true (Some "r550_00"%string) n
  | SystemGetCudaDriverVersion o => check_pointers (non_null o)
  | SystemGetProcessName pid b n =>
      {| pointers_ok := non_null b; handles_ok := true;
         argument_error :=
           if n =? 0 then Some NVML_ERROR_INVALID_ARGUMENT
           else require (bool_decide (is_Some (readlink_exe pid))) NVML_ERROR_NOT_FOUND;
         size_ok := match readlink_exe pid with
                    | Some path => strlen (basename_of path) + 1 <=? n
                    | None => true
                    end;
         outcome := NVML_SUCCESS |}
  | SystemGetHicVersion c _ => check_pointers (non_null c)
  | SystemGetTopologyGpuSet _ c a =>
      {| pointers_ok := non_null c; handles_ok := true; argument_error := None;
         size_ok := match c, a with
                    | Some n, Some _ => 8 <=? n
                    | _, _ => true
                    end;
         outcome := NVML_SUCCESS |}
  | DeviceGetComputeRunningProcesses_v3 d c _
  | DeviceGetGraphicsRunningProcesses_v3 d c _
  | DeviceGetMPSComputeRunningProcesses_v3 d c _
  | DeviceGetComputeRunningProcesses d c _
  | DeviceGetComputeRunningProcesses_v2 d c _ =>
      check_device (non_null c) d None NVML_SUCCESS
  | UnitGetCount c => check_pointers (non_null c)
  | UnitGetHandleByIndex _ u =>
      {| pointers_ok := non_null u; handles_ok := true;
         argument_error := Some NVML_ERROR_INVALID_ARGUMENT;
         size_ok := true; outcome := NVML_SUCCESS |}
  | DeviceRegisterEvents d e _ =>
      check_device true d (require (e =? 0) NVML_ERROR_NOT_SUPPORTED) NVML_SUCCESS
  | EventSetCreate s => check_pointers (non_null s)
  | EventSetWait_v2 _ d _ =>
      {| pointers_ok := non_null d; handles_ok := true; argument_error := None;
         size_ok := true; outcome := NVML_ERROR_TIMEOUT |}
  | EventSetFree _ => check_pointers true
  | DeviceSetPersistenceMode d m =>
      check_device true d
        (require ((m =? NVML_FEATURE_DISABLED) || (m =? NVML_FEATURE_ENABLED))
           NVML_ERROR_INVALID_ARGUMENT)
        NVML_SUCCESS
  | DeviceSetComputeMode d _ => check_device true d None NVML_SUCCESS
  | DeviceGetNvLinkState d l a =>
      check_device (non_null a) d (require (l <? 12) NVML_ERROR_INVALID_ARGUMENT)
        NVML_SUCCESS
  | DeviceGetNvLinkRemotePciInfo_v2 d l p =>
      check_device (non_null p) d (require (l <? 12) NVML_ERROR_INVALID_ARGUMENT)
        NVML_SUCCESS
  | DeviceGetTopologyCommonAncestor d1 d2 p
  | DeviceGetP2PStatus d1 d2 _ p =>
      {| pointers_ok := non_null p;
         handles_ok := is_valid_device_handle d1 && is_valid_device_handle d2;
         argument_error := None; size_ok := true; outcome := NVML_SUCCESS |}
  | DeviceGetTopologyNearestGpus d _ c a =>
      {| pointers_ok := non_null c; handles_ok := is_valid_device_handle d;
         argument_error := None;
         size_ok := match c, a with
                    | Some n, Some _ => 7 <=? n
                    | _, _ => true
                    end;
         outcome := NVML_SUCCESS |}
  end.

(** The outputs the mock never fills in are non-null. *)
Definition unfilled_outputs_ok (req : request) : bool :=
  match req with
  | DeviceGetGpuInstancePossiblePlacements_v2 _ _ placements _ => non_null placements
  | DeviceGetGpuInstances _ _ instances _ => non_null instances
  | DeviceCreateGpuInstance _ _ gpuInstance => non_null gpuInstance
  | ComputeInstanceGetInfo_v2 _ info => non_null info
  | SystemGetHicVersion _ hwbcEntries => non_null hwbcEntries
  | DeviceGetComputeRunningProcesses_v3 _ _ infos
  | DeviceGetGraphicsRunningProcesses_v3 _ _ infos
  | DeviceGetMPSComputeRunningProcesses_v3 _ _ infos
  | DeviceGetComputeRunningProcesses _ _ infos
  | DeviceGetComputeRunningProcesses_v2 _ _ infos => non_null infos
  | _ => true
  end.

(** The same call with NULL for the outputs the mock never fills in. *)
Definition without_unfilled_outputs (req : request) : request :=
  match req with
  | DeviceGetGpuInstancePossiblePlacements_v2 d i _ c =>
      DeviceGetGpuInstancePossiblePlacements_v2 d i None c
  | DeviceGetGpuInstances d i _ c => DeviceGetGpuInstances d i None c
  | DeviceCreateGpuInstance d i _ => DeviceCreateGpuInstance d i None
  | ComputeInstanceGetInfo_v2 i _ => ComputeInstanceGetInfo_v2 i None
  | SystemGetHicVersion c _ => SystemGetHicVersion c None
  | DeviceGetComputeRunningProcesses_v3 d c _ => DeviceGetComputeRunningProcesses_v3 d c None
  | DeviceGetGraphicsRunningProcesses_v3 d c _ =>
      DeviceGetGraphicsRunningProcesses_v3 d c None
  | DeviceGetMPSComputeRunningProcesses_v3 d c _ =>
      DeviceGetMPSComputeRunningProcesses_v3 d c None
  | DeviceGetComputeRunningProcesses d c _ => DeviceGetComputeRunningProcesses d c None
  | DeviceGetComputeRunningProcesses_v2 d c _ =>
      DeviceGetComputeRunningProcesses_v2 d c None
  | _ => req
  end.

(** Step 2 in the words of the specification: every pointer of the call is
    non-null, the device array of the two topology list queries excepted. *)
Definition all_pointers_ok (req : request) : bool :=
  match req with
  | DeviceGetCount_v2 p | SystemGetCudaDriverVersion p | UnitGetCount p => non_null p
  | DeviceGetHandleByIndex_v2 _ d => non_null d
  | DeviceGetHandleByUUID s d | DeviceGetHandleByPciBusId_v2 s d => non_null s && non_null d
  | DeviceGetName _ b _ | DeviceGetUUID _ b _ | DeviceGetSerial _ b _
  | DeviceGetBoardPartNumber _ b _ => non_null b
  | SystemGetDriverVersion b _ | SystemGetNVMLVersion b _ | SystemGetDriverBranch b _
  | SystemGetProcessName _ b _ => non_null b
  | DeviceGetPciInfo_v3 _ p | DeviceGetNvLinkRemotePciInfo_v2 _ _ p => non_null p
  | DeviceGetMinorNumber _ o | DeviceGetBrand _ o | DeviceGetPersistenceMode _ o
  | DeviceGetDisplayMode _ o | DeviceGetDisplayActive _ o | DeviceGetIndex _ o
  | DeviceGetPowerUsage _ o | DeviceGetEnforcedPowerLimit _ o
  | DeviceGetTotalEnergyConsumption _ o | DeviceGetMaxMigDeviceCount _ o
  | DeviceGetSupportedEventTypes _ o | DeviceGetTemperature _ _ o
  | DeviceGetClock _ _ _ o | DeviceGetMaxClockInfo _ _ o
  | DeviceGetNvLinkState _ _ o | DeviceGetTopologyCommonAncestor _ _ o
  | DeviceGetP2PStatus _ _ _ o => non_null o
  | DeviceGetAttributes_v2 _ a => non_null a
  | DeviceGetCudaComputeCapability _ ma mi => non_null ma && non_null mi
  | DeviceGetMemoryInfo _ m => non_null m
  | DeviceGetMemoryInfo_v2 _ m => non_null m
  | DeviceGetBAR1MemoryInfo _ m => non_null m
  | DeviceGetMigMode _ c p => non_null c && non_null p
  | DeviceGetGpuInstancePossiblePlacements_v2 _ _ l c
  | DeviceGetGpuInstances _ _ l c => non_null l && non_null c
  | DeviceCreateGpuInstance _ _ p => non_null p
  | ComputeInstanceGetInfo_v2 _ p => non_null p
  | SystemGetHicVersion c l => non_null c && non_null l
  | SystemGetTopologyGpuSet _ c _ | DeviceGetTopologyNearestGpus _ _ c _ => non_null c
  | DeviceGetComputeRunningProcesses_v3 _ c l
  | DeviceGetGraphicsRunningProcesses_v3 _ c l
  | DeviceGetMPSComputeRunningProcesses_v3 _ c l
  | DeviceGetComputeRunningProcesses _ c l
  | DeviceGetComputeRunningProcesses_v2 _ c l => non_null c && non_null l
  | UnitGetHandleByIndex _ u => non_null u
  | EventSetCreate s => non_null s
  | EventSetWait_v2 _ d _ => non_null d
  | GpuInstanceDestroy _ | DeviceRegisterEvents _ _ _ | EventSetFree _
  | DeviceSetPersistenceMode _ _ | DeviceSetComputeMode _ _ => true
  end.

(** ** The string-returning entry points, and what they are to return *)

Inductive string_query : Set :=
| QueryName (dev : nvmlDevice_t)
| QueryUUID (dev : nvmlDevice_t)
| QuerySerial (dev : nvmlDevice_t)
| QueryBoardPartNumber (dev : nvmlDevice_t)
| QueryDriverVersion
| QueryNVMLVersion
| QueryDriverBranch
| QueryProcessName (pid : Z).

Definition run_string_query (g : Z) (q : string_query) (buf : ptr (list ascii))
  (length : Z) : option (nvmlReturn_t * ptr (list ascii)) :=
  match q with
  | QueryName d => nvmlDeviceGetName g d buf length
  | QueryUUID d => nvmlDeviceGetUUID g d buf length
  | QuerySerial d => nvmlDeviceGetSerial g d buf length
  | QueryBoardPartNumber d => nvmlDeviceGetBoardPartNumber g d buf length
  | QueryDriverVersion => nvmlSystemGetDriverVersion g buf length
  | QueryNVMLVersion => nvmlSystemGetNVMLVersion g buf length
  | QueryDriverBranch => nvmlSystemGetDriverBranch g buf length
  | QueryProcessName pid => nvmlSystemGetProcessName g pid buf length
  end.

(** The value asked for: the field of the device the handle stands for, the
    fixed string, or the basename of what the operating system reports.
    [None] when the handle stands for no device or the process is unknown. *)
Definition string_query_value (q : string_query) : option string :=
  match q with
  | QueryName d => device_value name d
  | QueryUUID d => device_value uuid d
  | QuerySerial d => device_value serial d
  | QueryBoardPartNumber d =>
      if is_valid_device_handle d then Some "699-21001-0000-000"%string else None
  | QueryDriverVersion => Some MOCK_DRIVER_VERSION
  | QueryNVMLVersion => Some MOCK_NVML_VERSION
  | QueryDriverBranch => Some "r550_00"%string
  | QueryProcessName pid => basename_of <$> readlink_exe pid
  end.

(** A C string has no NUL inside. *)
Definition no_nul (s : string) : bool :=
  forallb (fun c => negb (Ascii.eqb c NUL)) (list_ascii_of_string s).

(** What a PCI record says about a device: the two bus ids as C strings and
    the five numbers. *)
Definition pci_identity (p : nvmlPciInfo_t) : string * Z * Z * Z * Z * Z * string :=
  (c_str (busIdLegacy p), domain p, bus p, device p, pciDeviceId p, pciSubSystemId p,
   c_str (busId p)).

(** A caller's PCI record has the two character arrays of the sizes
    bridge/nvml_types.h declares for them. *)
Definition pci_well_formed (p : nvmlPciInfo_t) : bool :=
  (Z.of_nat (length (busIdLegacy p)) =? NVML_DEVICE_PCI_BUS_ID_LEGACY_FMT_SIZE) &&
  (Z.of_nat (length (busId p)) =? NVML_DEVICE_PCI_BUS_ID_BUFFER_SIZE).

(** The PCI identity of a fixture entry: the two bus ids and the five
    numbers its initialiser gives. *)
Definition fixture_pci_identity (r : mock_device_info_t)
  : string * Z * Z * Z * Z * Z * string :=
  (pci_bus_id_legacy r,
   pci_domain r, pci_bus r, pci_device r, pci_device_id r, pci_subsystem_id r,
   pci_bus_id r).

(** ** Error strings (nvml_init.c) *)

(** The integer a return code stands for (bridge/nvml_types.h). *)
Definition nvmlReturn_value (r : nvmlReturn_t) : Z :=
  match r with
  | NVML_SUCCESS => 0
  | NVML_ERROR_UNINITIALIZED => 1
  | NVML_ERROR_INVALID_ARGUMENT => 2
  | NVML_ERROR_NOT_SUPPORTED => 3
  | NVML_ERROR_NO_PERMISSION => 4
  | NVML_ERROR_ALREADY_INITIALIZED => 5
  | NVML_ERROR_NOT_FOUND => 6
  | NVML_ERROR_INSUFFICIENT_SIZE => 7
  | NVML_ERROR_INSUFFICIENT_POWER => 8
  | NVML_ERROR_DRIVER_NOT_LOADED => 9
  | NVML_ERROR_TIMEOUT => 10
  | NVML_ERROR_IRQ_ISSUE => 11
  | NVML_ERROR_LIBRARY_NOT_FOUND => 12
  | NVML_ERROR_FUNCTION_NOT_FOUND => 13
  | NVML_ERROR_CORRUPTED_INFOROM => 14
  | NVML_ERROR_GPU_IS_LOST => 15
  | NVML_ERROR_RESET_REQUIRED => 16
  | NVML_ERROR_OPERATING_SYSTEM => 17
  | NVML_ERROR_LIB_RM_VERSION_MISMATCH => 18
  | NVML_ERROR_IN_USE => 19
  | NVML_ERROR_MEMORY => 20
  | NVML_ERROR_NO_DATA => 21
  | NVML_ERROR_VGPU_ECC_NOT_SUPPORTED => 22
  | NVML_ERROR_INSUFFICIENT_RESOURCES => 23
  | NVML_ERROR_FREQ_NOT_SUPPORTED => 24
  | NVML_ERROR_ARGUMENT_VERSION_MISMATCH => 25
  | NVML_ERROR_DEPRECATED => 26
  | NVML_ERROR_NOT_READY => 27
  | NVML_ERROR_GPU_NOT_FOUND => 28
  | NVML_ERROR_INVALID_STATE => 29
  | NVML_ERROR_UNKNOWN => 999
  end.

(** The [case] labels of the switch that return a string of their own, in
    the order of the source.  [NVML_ERROR_UNKNOWN] shares the [default]. *)
Definition error_string_cases : list (nvmlReturn_t * string) := [
  (NVML_SUCCESS, "Success");
  (NVML_ERROR_UNINITIALIZED, "NVML was not first initialized with nvmlInit()");
  (NVML_ERROR_INVALID_ARGUMENT, "A supplied argument is invalid");
  (NVML_ERROR_NOT_SUPPORTED, "The requested operation is not available on target device");
  (NVML_ERROR_NO_PERMISSION, "The current user does not have permission");
  (NVML_ERROR_ALREADY_INITIALIZED, "Multiple initializations are now allowed");
  (NVML_ERROR_NOT_FOUND, "A query to find an object was unsuccessful");
  (NVML_ERROR_INSUFFICIENT_SIZE, "An input argument is not large enough");
  (NVML_ERROR_INSUFFICIENT_POWER,
   "A device's external power cables are not properly attached");
  (NVML_ERROR_DRIVER_NOT_LOADED, "NVIDIA driver is not loaded");
  (NVML_ERROR_TIMEOUT, "User provided timeout passed");
  (NVML_ERROR_IRQ_ISSUE, "NVIDIA Kernel detected an interrupt issue with a GPU");
  (NVML_ERROR_LIBRARY_NOT_FOUND, "NVML Shared Library couldn't be found or loaded");
  (NVML_ERROR_FUNCTION_NOT_FOUND, "Local version of NVML doesn't implement this function");
  (NVML_ERROR_CORRUPTED_INFOROM, "infoROM is corrupted");
  (NVML_ERROR_GPU_IS_LOST,
   "The GPU has fallen off the bus or has otherwise become inaccessible");
  (NVML_ERROR_RESET_REQUIRED, "The GPU requires a reset before it can be used again");
  (NVML_ERROR_OPERATING_SYSTEM,
   "The GPU control device has been blocked by the operating system/cgroups");
  (NVML_ERROR_LIB_RM_VERSION_MISMATCH, "RM detects a driver/library version mismatch");
  (NVML_ERROR_IN_USE,
   "An operation cannot be performed because the GPU is currently in use");
  (NVML_ERROR_MEMORY, "Insufficient memory");
  (NVML_ERROR_NO_DATA, "No data");
  (NVML_ERROR_VGPU_ECC_NOT_SUPPORTED,
   "The requested vgpu operation is not available on target device");
  (NVML_ERROR_INSUFFICIENT_RESOURCES, "Ran out of critical resources, other than memory")
]%string.

(** [switch (result)] over an [int]-valued enumeration: the string of the
    label whose value [result] has, else the [default]. *)
Fixpoint switch_string (cases : list (nvmlReturn_t * string)) (result : Z)
  (default : string) : string :=
  match cases with
  | [] => default
  | (label, s) :: rest =>
      if result =? nvmlReturn_value label then s else switch_string rest result default
  end.

Definition nvmlErrorString (result : Z) : string :=
  switch_string error_string_cases result "Unknown error".

(** ** Handle lists *)

(** The handles of all devices, and of all devices but the one at [index],
    in table order. *)
Definition all_handles : list nvmlDevice_t :=
  index_to_handle <$> seqZ 0 8.

Definition other_handles (index : Z) : list nvmlDevice_t :=
  index_to_handle <$> filter (fun i => i <> index) (seqZ 0 8).

(** A path component has no slash. *)
Definition no_slash (s : string) : bool :=
  forallb (fun c => negb (Ascii.eqb c "/")) (list_ascii_of_string s).

#[local] Instance nvmlDevice_eq_dec : EqDecision nvmlDevice_t.
Proof. solve_decision. Defined.

(** ** Theorems *)


Lemma run_app g pre post :
  run g (pre ++ post) =
  let '(g1, rs1) := run g pre in
  let '(g2, rs2) := run g1 post in
  (g2, rs1 ++ rs2).
Proof.
  revert g; induction pre as [|c pre IH]; intros g; simpl.
  - destruct (run g post); reflexivity.
  - destruct (step g c) as [g1 r].
    rewrite IH. destruct (run g1 pre) as [g2 rs1].
    destruct (run g2 post); reflexivity.
Qed.

Lemma to_int_small z : - 2147483648 <= z <= INT_MAX -> to_int z = z.
Proof.
  unfold to_int, INT_MAX. intros Hz. rewrite Z.mod_small by lia. lia.
Qed.

Lemma inits_nonneg calls : 0 <= inits calls.
Proof. induction calls as [|[] calls IH]; simpl; lia. Qed.

Lemma inits_app pre post : inits (pre ++ post) = inits pre + inits post.
Proof. induction pre as [|[] pre IH]; simpl; lia. Qed.

Lemma inits_replicate n : inits (replicate n CallInit) = Z.of_nat n.
Proof. induction n as [|n IH]; [reflexivity|]. cbn [replicate inits]. lia. Qed.

Lemma init_below_max g : 0 <= g < INT_MAX -> step g CallInit = (g + 1, NVML_SUCCESS).
Proof.
  intros Hg. cbn [step]. unfold nvmlInit_v2. rewrite to_int_small by lia. reflexivity.
Qed.

Lemma run_invariant calls :
  forall g, 0 <= g -> g + inits calls <= INT_MAX ->
    let '(g', rets) := run g calls in
    0 <= g' <= g + inits calls /\
    g' = g + net_outstanding calls rets.
Proof.
  induction calls as [|c calls IH]; intros g Hg Hmax.
  - simpl. lia.
  - pose proof (inits_nonneg calls) as Hn. cbn [run]. destruct c; cbn [inits] in *.
    + rewrite init_below_max by lia.
      specialize (IH (g + 1) ltac:(lia) ltac:(lia)).
      destruct (run (g + 1) calls) as [g2 rs]. cbn [net_outstanding]. lia.
    + cbn [step]. unfold nvmlShutdown. destruct (Z.leb_spec g 0).
      * specialize (IH g Hg ltac:(lia)). destruct (run g calls) as [g2 rs].
        cbn [net_outstanding is_success]. lia.
      * specialize (IH (g - 1) ltac:(lia) ltac:(lia)).
        destruct (run (g - 1) calls) as [g2 rs]. cbn [net_outstanding is_success]. lia.
Qed.

(** C2, amended.  Take any sequence [pre ++ post] of init and shutdown calls
    with at most [INT_MAX] = 2^31 - 1 inits, run from counter 0, and look at
    it after the prefix [pre].  The counter [g] reached there is never
    negative (and at most the number of inits made), it equals the net
    number of outstanding inits, and the gate [nvml_is_initialized] passes
    exactly when that net number is positive.  The next call of the sequence
    behaves as follows: an init returns success with the counter
    incremented; a shutdown at counter 0 returns Uninitialized and leaves the
    counter alone, and at any other counter returns success with the counter
    decremented.  The run of the whole sequence continues from there. *)
Theorem refcount_all_sequences (pre post : list lifecycle_call) :
  inits (pre ++ post) <= INT_MAX ->
  let '(g, rets) := run 0 pre in
  (0 <= g <= inits pre) /\
  g = net_outstanding pre rets /\
  (nvml_is_initialized g = true <-> 0 < net_outstanding pre rets) /\
  match post with
  | [] => True
  | CallInit :: _ => step g CallInit = (g + 1, NVML_SUCCESS)
  | CallShutdown :: _ =>
      step g CallShutdown =
      if g =? 0 then (g, NVML_ERROR_UNINITIALIZED) else (g - 1, NVML_SUCCESS)
  end /\
  run 0 (pre ++ post) = (fst (run g post), rets ++ snd (run g post)).
Proof.
  intros Hmax. rewrite inits_app in Hmax.
  pose proof (inits_nonneg pre) as Hpre. pose proof (inits_nonneg post) as Hpost.
  pose proof (run_invariant pre 0 ltac:(lia) ltac:(lia)) as H.
  pose proof (run_app 0 pre post) as Happ.
  destruct (run 0 pre) as [g rets]. destruct H as [Hr Hn].
  assert (Hg : 0 <= g) by lia.
  repeat split; try lia.
  - unfold nvml_is_initialized. intros H%Z.ltb_lt. lia.
  - unfold nvml_is_initialized. intros H. apply Z.ltb_lt. lia.
  - destruct post as [|[] post']; [exact I| |].
    + apply init_below_max. cbn [inits] in Hmax.
      pose proof (inits_nonneg post'). lia.
    + simpl. unfold nvmlShutdown.
      destruct (Z.leb_spec g 0), (Z.eqb_spec g 0); first [reflexivity | lia].
  - rewrite Happ. destruct (run g post); reflexivity.
Qed.

(** *** Handle codec *)

Lemma valid_handle_range d :
  is_valid_device_handle d = true <-> 1 <= handle d <= 8.
Proof.
  unfold is_valid_device_handle.
  destruct (Z.eqb_spec (handle d) 0), (Z.leb_spec 1 (handle d)),
    (Z.leb_spec (handle d) 8); simpl; split; intros; first [lia | congruence].
Qed.

Lemma decode_valid d :
  is_valid_device_handle d = true -> device_handle_to_index d = handle d - 1.
Proof.
  intros Hv. unfold device_handle_to_index, to_uint. rewrite Hv. simpl.
  apply valid_handle_range in Hv. apply Z.mod_small. lia.
Qed.

Lemma decode_invalid d :
  is_valid_device_handle d = false -> device_handle_to_index d = UINT_MAX.
Proof. intros Hv. unfold device_handle_to_index. rewrite Hv. reflexivity. Qed.

Lemma sentinel_test d :
  (device_handle_to_index d =? to_uint (-1)) = negb (is_valid_device_handle d).
Proof.
  destruct (is_valid_device_handle d) eqn:Hv.
  - rewrite (decode_valid _ Hv). apply valid_handle_range in Hv.
    apply Z.eqb_neq. change (to_uint (-1)) with 4294967295. lia.
  - rewrite (decode_invalid _ Hv). reflexivity.
Qed.

(** The eight handles, one by one. *)
Lemma valid_handle_cases d :
  is_valid_device_handle d = true ->
  Exists (fun h => d = {| handle := h |}) [1; 2; 3; 4; 5; 6; 7; 8].
Proof.
  intros Hv%valid_handle_range. destruct d as [h]. simpl in Hv.
  assert (h = 1 \/ h = 2 \/ h = 3 \/ h = 4 \/ h = 5 \/ h = 6 \/ h = 7 \/ h = 8)
    as Hc by lia.
  repeat rewrite Exists_cons.
  repeat (destruct Hc as [-> | Hc]; [auto 10 |]). rewrite Hc. auto 10.
Qed.

Ltac each_handle d Hv :=
  let H := fresh in
  pose proof (valid_handle_cases d Hv) as H;
  repeat (apply Exists_cons in H; destruct H as [-> | H]);
  [.. | apply Exists_nil in H; destruct H].

Lemma lookup_valid d :
  is_valid_device_handle d = true ->
  exists r, array_get mock_devices (device_handle_to_index d) = Some r.
Proof. intros Hv. each_handle d Hv; eexists; reflexivity. Qed.

Lemma lookup_sentinel : array_get mock_devices UINT_MAX = None.
Proof. reflexivity. Qed.

Ltac with_device d Hv :=
  let r := fresh "r" in
  let Hr := fresh "Hr" in
  destruct (lookup_valid d Hv) as [r Hr]; rewrite ?Hr.

Ltac gate :=
  unfold validate_in_spec_order, passes; simpl;
  match goal with
  | |- context [nvml_is_initialized ?g] => destruct (nvml_is_initialized g); simpl
  end.

Lemma device_const_getter_code {A} (value : Z -> A) code g d (out : ptr A) :
  fst <$> device_const_getter value code g d out =
  Some (validate_in_spec_order g (check_device (non_null out) d None code)).
Proof.
  unfold device_const_getter. gate; [|reflexivity].
  destruct out; simpl; [|reflexivity].
  rewrite sentinel_test. destruct (is_valid_device_handle d); reflexivity.
Qed.

Lemma device_field_getter_code field g d (out : ptr Z) :
  fst <$> device_field_getter field g d out =
  Some (validate_in_spec_order g (check_device (non_null out) d None NVML_SUCCESS)).
Proof.
  unfold device_field_getter. gate; [|reflexivity].
  destruct out; simpl; [|reflexivity].
  rewrite sentinel_test. destruct (is_valid_device_handle d) eqn:Hv; simpl; [|reflexivity].
  with_device d Hv. reflexivity.
Qed.

Lemma device_pair_getter_code value g d1 d2 (out : ptr Z) :
  fst <$> device_pair_getter value g d1 d2 out =
  Some (validate_in_spec_order g
          {| pointers_ok := non_null out;
             handles_ok := is_valid_device_handle d1 && is_valid_device_handle d2;
             argument_error := None; size_ok := true; outcome := NVML_SUCCESS |}).
Proof.
  unfold device_pair_getter. gate; [|reflexivity].
  destruct out; simpl; [|reflexivity].
  rewrite !sentinel_test.
  destruct (is_valid_device_handle d1), (is_valid_device_handle d2); reflexivity.
Qed.

Lemma device_string_getter_code field g d buf n :
  let v := check_string buf (is_valid_device_handle d) (device_value field d) n in
  fst <$> device_string_getter field g d buf n = Some (validate_in_spec_order g v) \/
  (passes g v = true /\ fst <$> device_string_getter field g d buf n = None).
Proof.
  unfold device_string_getter. gate; [|left; reflexivity].
  destruct buf as [old|]; simpl; [|left; reflexivity].
  destruct (Z.eqb_spec n 0); simpl.
  { destruct (is_valid_device_handle d); left; reflexivity. }
  rewrite sentinel_test. destruct (is_valid_device_handle d) eqn:Hv; simpl; [|left; reflexivity].
  unfold device_value. rewrite <- (decode_valid _ Hv).
  with_device d Hv. simpl.
  destruct (Z.ltb_spec n (strlen (field r) + 1)), (Z.leb_spec (strlen (field r) + 1) n);
    try lia; simpl; [left; reflexivity|].
  destruct (strncpy_terminated old (field r) n); simpl; [left; reflexivity|right; auto].
Qed.

Lemma system_string_getter_code value g buf n :
  let v := check_string buf true (Some value) n in
  fst <$> system_string_getter value g buf n = Some (validate_in_spec_order g v) \/
  (passes g v = true /\ fst <$> system_string_getter value g buf n = None).
Proof.
  unfold system_string_getter. gate; [|left; reflexivity].
  destruct buf as [old|]; simpl; [|left; reflexivity].
  destruct (Z.eqb_spec n 0); simpl; [left; reflexivity|].
  destruct (Z.ltb_spec n (strlen value + 1)), (Z.leb_spec (strlen value + 1) n);
    try lia; simpl; [left; reflexivity|].
  destruct (strncpy_terminated old value n); simpl; [left; reflexivity|right; auto].
Qed.

Create HintDb nvml discriminated.
#[local] Hint Unfold nvmlDeviceGetCount_v2 nvmlDeviceGetHandleByIndex_v2
  nvmlDeviceGetHandleByUUID nvmlDeviceGetHandleByPciBusId_v2
  nvmlDeviceGetBoardPartNumber nvmlDeviceGetPciInfo_v3
  nvmlDeviceGetCudaComputeCapability nvmlDeviceGetMemoryInfo
  nvmlDeviceGetMemoryInfo_v2 nvmlDeviceGetTemperature nvmlDeviceGetClock
  nvmlDeviceGetMaxClockInfo nvmlDeviceGetMigMode nvmlDeviceCreateGpuInstance
  nvmlGpuInstanceDestroy nvmlComputeInstanceGetInfo_v2
  nvmlSystemGetCudaDriverVersion nvmlSystemGetProcessName
  nvmlSystemGetHicVersion nvmlSystemGetTopologyGpuSet nvmlUnitGetCount
  nvmlUnitGetHandleByIndex nvmlDeviceGetSupportedEventTypes
  nvmlDeviceRegisterEvents nvmlEventSetCreate nvmlEventSetWait_v2
  nvmlEventSetFree nvmlDeviceSetPersistenceMode nvmlDeviceSetComputeMode
  nvmlDeviceGetNvLinkState nvmlDeviceGetNvLinkRemotePciInfo_v2
  nvmlDeviceGetTopologyNearestGpus require non_null check_device
  check_pointers check_string found : nvml.

#[local] Arguments first_match : simpl never.
#[local] Arguments for_each : simpl never.
#[local] Arguments array_get : simpl never.
#[local] Arguments strncpy_terminated : simpl never.
#[local] Arguments strlen : simpl never.

Lemma lookup_in_range i :
  0 <= i < 8 -> exists r, array_get mock_devices i = Some r.
Proof.
  intros Hi.
  assert (i = 0 \/ i = 1 \/ i = 2 \/ i = 3 \/ i = 4 \/ i = 5 \/ i = 6 \/ i = 7)
    as Hc by lia.
  repeat (destruct Hc as [-> | Hc]; [eexists; reflexivity |]).
  subst. eexists; reflexivity.
Qed.

Lemma remote_in_range idx link : 0 <= nvlink_remote_index idx link < 8.
Proof. unfold nvlink_remote_index. apply Z.mod_pos_bound. lia. Qed.

Ltac split_tests :=
  rewrite ?sentinel_test;
  repeat (match goal with
    | |- context [is_valid_device_handle ?d] =>
        let Hv := fresh "Hv" in
        destruct (is_valid_device_handle d) eqn:Hv; [try with_device d Hv|]
    | |- context [is_valid_device_index ?i] => destruct (is_valid_device_index i)
    | |- context [is_null ?p] => is_var p; destruct p
    | |- context [match ?p with Some _ => _ | None => _ end] => is_var p; destruct p
    | |- context [?a =? ?b] => destruct (a =? b)
    | |- context [?a <? ?b] => destruct (Z.ltb_spec a b)
    | |- context [?a <=? ?b] => destruct (Z.leb_spec a b)
    | |- context [readlink_exe ?pid] => destruct (readlink_exe pid)
    | |- context [first_match ?f ?l ?i] => destruct (first_match f l i)
    | |- context [array_get mock_devices (nvlink_remote_index ?i ?l)] =>
        destruct (lookup_in_range _ (remote_in_range i l)) as [? ->]
    | |- context [strncpy_terminated ?a ?b ?c] => destruct (strncpy_terminated a b c)
    | |- context [for_each ?a ?b ?c] => destruct (for_each a b c) as [[]|]
    end; simpl).

Ltac finish :=
  first [ left; reflexivity | right; split; reflexivity
        | exfalso; lia | exfalso; congruence ].

Lemma dispatch_spec_order g req :
  dispatch g req = Some (validate_in_spec_order g (validation_of req)) \/
  (passes g (validation_of req) = true /\ dispatch g req = None).
Proof.
  destruct req; cbn [dispatch validation_of];
    try (left; first [apply device_const_getter_code | apply device_field_getter_code
                     | apply device_pair_getter_code]);
    try apply device_string_getter_code;
    try apply system_string_getter_code.
  all: autounfold with nvml.
  all: gate; split_tests; finish.
Qed.

Lemma required_pointers req :
  all_pointers_ok req = pointers_ok (validation_of req) && unfilled_outputs_ok req.
Proof.
  destruct req; cbn [all_pointers_ok validation_of unfilled_outputs_ok pointers_ok
                     check_pointers check_device check_string];
    rewrite ?andb_true_r; try reflexivity; apply andb_comm.
Qed.

Lemma unfilled_outputs_untested g req :
  dispatch g (without_unfilled_outputs req) = dispatch g req.
Proof.
  destruct req; try reflexivity; cbn [dispatch without_unfilled_outputs];
    autounfold with nvml;
    repeat (match goal with
            | |- context [if ?b then _ else _] => destruct b
            end; simpl);
    reflexivity.
Qed.

(** C1, amended.  For every entry point and every argument list, the return
    code is the one obtained by testing, in this order and stopping at the
    first failure: the session, the required pointers, the handles, the
    numeric and version arguments, the buffer size.  (A call that passes all
    five and then copies beyond the end of the caller's array has no return
    code.)  In particular, on an active session a NULL required pointer
    yields the invalid-argument error whatever the handle is.  The required
    pointers are all the pointers of the call except the outputs the mock
    never fills in (and the device array of the two topology list queries);
    those are not tested: the call returns what it returns with NULL in
    their place. *)
Theorem validation_order (g : Z) (req : request) :
  (dispatch g req = Some (validate_in_spec_order g (validation_of req)) \/
   (passes g (validation_of req) = true /\ dispatch g req = None)) /\
  (0 < g -> pointers_ok (validation_of req) = false ->
   dispatch g req = Some NVML_ERROR_INVALID_ARGUMENT) /\
  all_pointers_ok req = pointers_ok (validation_of req) && unfilled_outputs_ok req /\
  dispatch g (without_unfilled_outputs req) = dispatch g req.
Proof.
  pose proof (dispatch_spec_order g req) as H. split; [exact H|].
  split; [|split; [apply required_pointers | apply unfilled_outputs_untested]].
  intros Hg Hp.
  assert (Hi : nvml_is_initialized g = true) by (apply Z.ltb_lt; exact Hg).
  unfold validate_in_spec_order, passes in H. rewrite Hi, Hp in H. simpl in H.
  destruct H as [H | [H _]]; [exact H | discriminate].
Qed.

Lemma initialized_pos g : 0 < g -> nvml_is_initialized g = true.
Proof. intros Hg. apply Z.ltb_lt. exact Hg. Qed.

Lemma handle_of_index i : 0 <= i < 8 -> index_to_handle i = {| handle := i + 1 |}.
Proof.
  intros Hi. unfold index_to_handle, to_uint. f_equal. apply Z.mod_small. lia.
Qed.

(** C3. Handle round trip.  With the eight devices of the fixture, the handle
    made for index [i] in [0, 8) has the value [i + 1], which is not 0;
    decoding it gives back [i], through the helper and through the index
    query.  Decoding any handle [h] outside [1, 8] gives the sentinel, the
    largest [unsigned int].  The fixture table has no entry at the sentinel,
    and no entry point reads it there: a call whose handle does not decode
    returns the invalid-argument error on an active session. *)
Theorem handle_round_trip (g i h : Z) (slot : nvmlDevice_t) (count out : Z)
  (req : request) :
  0 < g -> 0 <= i < 8 -> ~ (1 <= h <= 8) ->
  handles_ok (validation_of req) = false ->
  nvmlDeviceGetCount_v2 g (Some count) = Some (NVML_SUCCESS, Some 8) /\
  length mock_devices = 8%nat /\
  nvmlDeviceGetHandleByIndex_v2 g i (Some slot) =
    Some (NVML_SUCCESS, Some {| handle := i + 1 |}) /\
  i + 1 <> 0 /\
  device_handle_to_index {| handle := i + 1 |} = i /\
  nvmlDeviceGetIndex g {| handle := i + 1 |} (Some out) = Some (NVML_SUCCESS, Some i) /\
  device_handle_to_index {| handle := h |} = UINT_MAX /\
  UINT_MAX = 2 ^ 32 - 1 /\
  array_get mock_devices UINT_MAX = None /\
  dispatch g req = Some NVML_ERROR_INVALID_ARGUMENT.
Proof.
  intros Hg Hi Hh Hreq. pose proof (initialized_pos g Hg) as Hinit.
  assert (Hv : is_valid_device_handle {| handle := i + 1 |} = true)
    by (apply valid_handle_range; simpl; lia).
  assert (Hd : device_handle_to_index {| handle := i + 1 |} = i)
    by (rewrite (decode_valid _ Hv); simpl; lia).
  repeat split.
  - unfold nvmlDeviceGetCount_v2. rewrite Hinit. reflexivity.
  - unfold nvmlDeviceGetHandleByIndex_v2, is_valid_device_index.
    rewrite Hinit. simpl. destruct (Z.ltb_spec i 8); [|lia]. simpl.
    rewrite handle_of_index by lia. reflexivity.
  - lia.
  - exact Hd.
  - unfold nvmlDeviceGetIndex, device_const_getter. rewrite Hinit. simpl.
    rewrite sentinel_test, Hv, Hd. reflexivity.
  - apply decode_invalid.
    destruct (is_valid_device_handle {| handle := h |}) eqn:E; [|reflexivity].
    apply valid_handle_range in E. simpl in E. contradiction.
  - destruct (dispatch_spec_order g req) as [H | [H _]].
    + rewrite H. unfold validate_in_spec_order. rewrite Hinit, Hreq. simpl.
      destruct (pointers_ok (validation_of req)); reflexivity.
    + unfold passes in H. rewrite Hreq in H.
      rewrite andb_false_r in H. discriminate.
Qed.

(** *** Memory *)

Lemma fixture_memory :
  Forall (fun d => memory_total d = memory_free d + memory_used d /\
                   memory_used d = 0 /\ memory_free d = memory_total d)
    mock_devices.
Proof. repeat constructor. Qed.

Lemma lookup_in_fixture i r : array_get mock_devices i = Some r -> r ∈ mock_devices.
Proof.
  unfold array_get. destruct (_ || _); [discriminate|].
  intros H. eapply list_elem_of_lookup_2. exact H.
Qed.

(** C4. Memory invariant.  For each of the eight devices, the v1 query and
    the v2 query (called with an accepted version tag) succeed, and the
    record each returns has total = free + used, with used = 0 and
    free = total; the v2 record has reserved = 0. *)
Theorem memory_invariant (g : Z) (dev : nvmlDevice_t) (m1 : nvmlMemory_t)
  (m2 : nvmlMemory_v2_t) :
  0 < g -> is_valid_device_handle dev = true ->
  version m2 = nvmlMemory_v2 \/ version m2 = 0 ->
  length mock_devices = 8%nat /\
  exists r1 r2,
    nvmlDeviceGetMemoryInfo g dev (Some m1) = Some (NVML_SUCCESS, Some r1) /\
    total r1 = free r1 + used r1 /\ used r1 = 0 /\ free r1 = total r1 /\
    nvmlDeviceGetMemoryInfo_v2 g dev (Some m2) = Some (NVML_SUCCESS, Some r2) /\
    total_v2 r2 = free_v2 r2 + used_v2 r2 /\ used_v2 r2 = 0 /\
    free_v2 r2 = total_v2 r2 /\ reserved_v2 r2 = 0.
Proof.
  intros Hg Hv Hver. pose proof (initialized_pos g Hg) as Hinit.
  split; [reflexivity|].
  destruct (lookup_valid dev Hv) as [r Hr].
  pose proof (proj1 (Forall_forall _ _) fixture_memory r (lookup_in_fixture _ _ Hr))
    as (Ht & Hu & Hf).
  exists {| total := memory_total r; free := memory_free r; used := memory_used r |},
    {| version := nvmlMemory_v2; total_v2 := memory_total r; reserved_v2 := 0;
       free_v2 := memory_free r; used_v2 := memory_used r |}.
  unfold nvmlDeviceGetMemoryInfo, nvmlDeviceGetMemoryInfo_v2.
  rewrite Hinit, sentinel_test, Hv, Hr. simpl.
  assert ((negb (version m2 =? nvmlMemory_v2) && negb (version m2 =? 0)) = false) as ->.
  { destruct Hver as [-> | ->]; rewrite Z.eqb_refl; simpl;
      [reflexivity | apply andb_false_r]. }
  repeat split; assumption.
Qed.

(** C5 as amended.  On an active session with a non-null struct, a version
    tag that is neither the v2 tag nor zero makes the v2 memory query return
    the invalid-argument error, whatever the handle.  When the handle decodes
    as well, the query returns that error only for such a tag.  Whenever the
    query succeeds, the version field of the struct is the v2 tag
    afterwards. *)
Theorem memory_v2_version_check (g : Z) (dev any_dev : nvmlDevice_t)
  (m : nvmlMemory_v2_t) :
  0 < g -> is_valid_device_handle dev = true ->
  (version m <> nvmlMemory_v2 /\ version m <> 0 ->
   nvmlDeviceGetMemoryInfo_v2 g any_dev (Some m) =
     Some (NVML_ERROR_INVALID_ARGUMENT, Some m)) /\
  (fst <$> nvmlDeviceGetMemoryInfo_v2 g dev (Some m) = Some NVML_ERROR_INVALID_ARGUMENT
   <-> version m <> nvmlMemory_v2 /\ version m <> 0) /\
  (forall r,
     nvmlDeviceGetMemoryInfo_v2 g any_dev (Some m) = Some (NVML_SUCCESS, r) ->
     version <$> r = Some nvmlMemory_v2).
Proof.
  intros Hg Hv. pose proof (initialized_pos g Hg) as Hinit.
  unfold nvmlDeviceGetMemoryInfo_v2. rewrite Hinit. simpl.
  split; [|split].
  - intros [H1 H2].
    destruct (Z.eqb_spec (version m) nvmlMemory_v2), (Z.eqb_spec (version m) 0);
      first [contradiction | reflexivity].
  - rewrite sentinel_test, Hv. destruct (lookup_valid dev Hv) as [r ->]. simpl.
    destruct (Z.eqb_spec (version m) nvmlMemory_v2), (Z.eqb_spec (version m) 0);
      simpl; split;
      first [intros [? ?]; contradiction | discriminate
            | intros _; split; assumption | intros _; reflexivity].
  - intros r.
    destruct (negb (version m =? nvmlMemory_v2) && negb (version m =? 0));
      [discriminate|].
    rewrite sentinel_test.
    destruct (is_valid_device_handle any_dev) eqn:Ha; simpl; [|discriminate].
    destruct (lookup_valid any_dev Ha) as [d ->]. simpl.
    intros [= <-]. reflexivity.
Qed.

(** *** MIG *)

(** C7. MIG.  On an active session, with a handle that decodes and non-null
    output pointers, the MIG mode query, the placement query, the instance
    query, instance creation, instance destruction and the compute-instance
    info query all return the not-supported error, whereas the query for the
    maximal number of MIG devices returns success and writes the count 0. *)
Theorem mig_asymmetry (g : Z) (dev : nvmlDevice_t) (cur pend count profileId inst : Z)
  (placements instances gpuInstance info : unit) :
  0 < g -> is_valid_device_handle dev = true ->
  fst <$> nvmlDeviceGetMigMode g dev (Some cur) (Some pend)
    = Some NVML_ERROR_NOT_SUPPORTED /\
  fst <$> nvmlDeviceGetGpuInstancePossiblePlacements_v2 g dev profileId
            (Some placements) (Some count) = Some NVML_ERROR_NOT_SUPPORTED /\
  fst <$> nvmlDeviceGetGpuInstances g dev profileId (Some instances) (Some count)
    = Some NVML_ERROR_NOT_SUPPORTED /\
  fst <$> nvmlDeviceCreateGpuInstance g dev profileId (Some gpuInstance)
    = Some NVML_ERROR_NOT_SUPPORTED /\
  nvmlGpuInstanceDestroy g inst = Some NVML_ERROR_NOT_SUPPORTED /\
  fst <$> nvmlComputeInstanceGetInfo_v2 g inst (Some info)
    = Some NVML_ERROR_NOT_SUPPORTED /\
  nvmlDeviceGetMaxMigDeviceCount g dev (Some count) = Some (NVML_SUCCESS, Some 0).
Proof.
  intros Hg Hv. pose proof (initialized_pos g Hg) as Hinit.
  unfold nvmlDeviceGetMigMode, nvmlDeviceGetGpuInstancePossiblePlacements_v2,
    nvmlDeviceGetGpuInstances, nvmlDeviceCreateGpuInstance, nvmlGpuInstanceDestroy,
    nvmlComputeInstanceGetInfo_v2, nvmlDeviceGetMaxMigDeviceCount, device_const_getter.
  rewrite Hinit, sentinel_test, Hv. simpl. repeat split; reflexivity.
Qed.

(** *** Compute capability *)

(** C9. Compute capability.  On an active session with non-null outputs, the
    query returns major 8, minor 0 for the devices at indices 1 to 6, and
    major 0, minor 0 for the devices at indices 0 and 7, whose initialisers
    name no compute capability; all eight devices have the same name. *)
Theorem compute_capability_by_index (g i ma mi : Z) :
  0 < g -> 0 <= i < 8 ->
  nvmlDeviceGetCudaComputeCapability g {| handle := i + 1 |} (Some ma) (Some mi) =
    Some (NVML_SUCCESS,
          if (1 <=? i) && (i <=? 6) then (Some 8, Some 0) else (Some 0, Some 0)) /\
  Forall (fun d => name d = "NVIDIA A100-SXM4-40GB"%string) mock_devices.
Proof.
  intros Hg Hi. pose proof (initialized_pos g Hg) as Hinit.
  split; [|repeat constructor].
  unfold nvmlDeviceGetCudaComputeCapability. rewrite Hinit. simpl.
  assert (i = 0 \/ i = 1 \/ i = 2 \/ i = 3 \/ i = 4 \/ i = 5 \/ i = 6 \/ i = 7)
    as Hc by lia.
  repeat (destruct Hc as [-> | Hc]; [reflexivity |]). subst. reflexivity.
Qed.

(** *** Event sets *)

(** C10. Event sets.  On an active session every creation with a non-null
    output writes the handle 0xDEADBEEF, so two created sets are equal; and
    freeing succeeds for every handle value. *)
Theorem event_set_constant_handle (g1 g2 : Z) (slot1 slot2 any : nvmlEventSet_t) :
  0 < g1 -> 0 < g2 ->
  nvmlEventSetCreate g1 (Some slot1) =
    Some (NVML_SUCCESS, Some {| set_handle := 3735928559 |}) /\
  3735928559 = 0xDEADBEEF /\
  snd <$> nvmlEventSetCreate g1 (Some slot1) = snd <$> nvmlEventSetCreate g2 (Some slot2) /\
  nvmlEventSetFree g1 any = Some NVML_SUCCESS.
Proof.
  intros H1 H2. unfold nvmlEventSetCreate, nvmlEventSetFree.
  rewrite (initialized_pos g1 H1), (initialized_pos g2 H2). repeat split.
Qed.

(** *** C strings and character arrays *)

Lemma insert_last_of_take {A} (L : list A) (k : nat) (x : A) (rest : list A) :
  (1 <= k <= length L)%nat ->
  <[(k - 1)%nat := x]> (take k L ++ rest) = take (k - 1) L ++ x :: rest.
Proof.
  intros Hk. destruct k as [|j]; [lia|].
  replace (S j - 1)%nat with j by lia.
  destruct (lookup_lt_is_Some_2 L j ltac:(lia)) as [y Hy].
  rewrite (take_S_r _ _ _ Hy), <- app_assoc. simpl.
  rewrite insert_app_r_alt by (rewrite length_take_le; lia).
  rewrite length_take_le by lia. rewrite Nat.sub_diag. reflexivity.
Qed.

Lemma strncpy_terminated_result (dst : list ascii) (s : string) (n : Z) :
  1 <= n -> n <= Z.of_nat (length dst) ->
  strncpy_terminated dst s n =
  Some (take (Z.to_nat n - 1) (list_ascii_of_string s ++ replicate (Z.to_nat n) NUL)
        ++ NUL :: drop (Z.to_nat n) dst).
Proof.
  intros Hn Hd. unfold strncpy_terminated, strncpy.
  set (k := Z.to_nat n). set (L := list_ascii_of_string s ++ replicate k NUL).
  assert (Hk : (1 <= k <= length dst)%nat) by lia.
  destruct (Nat.ltb_spec (length dst) k); [lia|]. simpl.
  assert (HL : (k <= length L)%nat).
  { unfold L. rewrite length_app, length_replicate. lia. }
  unfold poke.
  destruct (Z.ltb_spec (n - 1) 0); [lia|].
  destruct (Z.leb_spec (Z.of_nat (length (take k L ++ drop k dst))) (n - 1)) as [Hb|_].
  { rewrite length_app, length_take_le, length_drop in Hb by exact HL. lia. }
  simpl. f_equal.
  replace (Z.to_nat (n - 1)) with (k - 1)%nat by lia.
  apply insert_last_of_take. lia.
Qed.

Lemma c_str_padding m k rest : c_str (take m (replicate k NUL) ++ NUL :: rest) = EmptyString.
Proof. destruct m, k; reflexivity. Qed.

Lemma c_str_take_pad (s : string) : forall m k rest,
  no_nul s = true ->
  c_str (take m (list_ascii_of_string s ++ replicate k NUL) ++ NUL :: rest) =
  substring 0 m s.
Proof.
  induction s as [|c s IH]; intros m k rest Hs.
  - simpl. rewrite c_str_padding. destruct m; reflexivity.
  - unfold no_nul in Hs. simpl in Hs. apply andb_prop in Hs as [Hc Hs].
    destruct m as [|m]; [reflexivity|]. simpl.
    apply negb_true_iff in Hc. rewrite Hc. f_equal. apply IH. exact Hs.
Qed.

Lemma substring_all (s : string) : forall m,
  (String.length s <= m)%nat -> substring 0 m s = s.
Proof.
  induction s as [|c s IH]; intros m Hm.
  - destruct m; reflexivity.
  - destruct m as [|m]; [simpl in Hm; lia|]. simpl. f_equal. apply IH. simpl in Hm. lia.
Qed.

Lemma length_list_ascii (s : string) : length (list_ascii_of_string s) = String.length s.
Proof. induction s; simpl; congruence. Qed.

(** The copy into a buffer of exactly the length of the value plus one. *)
Lemma strncpy_terminated_exact (dst : list ascii) (s : string) (n : Z) :
  n = strlen s + 1 -> n <= Z.of_nat (length dst) ->
  strncpy_terminated dst s n =
  Some (list_ascii_of_string s ++ NUL :: drop (Z.to_nat n) dst).
Proof.
  intros Hn Hd. unfold strlen in Hn.
  rewrite strncpy_terminated_result by lia.
  rewrite take_app_length' by (rewrite length_list_ascii; lia). reflexivity.
Qed.

Lemma c_str_terminated (s : string) rest :
  no_nul s = true -> c_str (list_ascii_of_string s ++ NUL :: rest) = s.
Proof.
  intros Hs.
  rewrite <- (take_app_length (list_ascii_of_string s) (replicate 0 NUL)) at 1.
  rewrite c_str_take_pad by exact Hs.
  apply substring_all. rewrite length_list_ascii. lia.
Qed.

(** *** Buffer contract *)

Lemma device_value_inv field d v :
  device_value field d = Some v ->
  is_valid_device_handle d = true /\
  exists r, array_get mock_devices (device_handle_to_index d) = Some r /\ field r = v.
Proof.
  unfold device_value. intros H.
  destruct (array_get mock_devices (handle d - 1)) as [r|] eqn:Hr; [|discriminate].
  injection H as <-.
  assert (Hv : is_valid_device_handle d = true).
  { apply valid_handle_range. unfold array_get in Hr.
    change (Z.of_nat (length mock_devices)) with 8 in Hr.
    destruct (Z.ltb_spec (handle d - 1) 0), (Z.leb_spec 8 (handle d - 1));
      simpl in Hr; try discriminate. lia. }
  split; [exact Hv|]. exists r. rewrite (decode_valid _ Hv). auto.
Qed.

Lemma contract_of_body (value : string) (old : list ascii) (cap : Z)
  (res : option (nvmlReturn_t * ptr (list ascii))) :
  res = (if cap =? 0 then Some (NVML_ERROR_INVALID_ARGUMENT, Some old)
         else if cap <? strlen value + 1 then Some (NVML_ERROR_INSUFFICIENT_SIZE, Some old)
         else new ← strncpy_terminated old value cap; Some (NVML_SUCCESS, Some new)) ->
  no_nul value = true ->
  (cap = 0 -> res = Some (NVML_ERROR_INVALID_ARGUMENT, Some old)) /\
  (0 < cap < strlen value + 1 -> res = Some (NVML_ERROR_INSUFFICIENT_SIZE, Some old)) /\
  (cap = strlen value + 1 -> cap <= Z.of_nat (length old) ->
   res = Some (NVML_SUCCESS,
               Some (list_ascii_of_string value ++ NUL :: drop (Z.to_nat cap) old)) /\
   c_str (list_ascii_of_string value ++ NUL :: drop (Z.to_nat cap) old) = value).
Proof.
  intros -> Hs. repeat split.
  - intros ->. reflexivity.
  - intros Hc. destruct (Z.eqb_spec cap 0); [lia|].
    destruct (Z.ltb_spec cap (strlen value + 1)); [reflexivity|lia].
  - pose proof (Nat2Z.is_nonneg (String.length value)). unfold strlen in *.
    destruct (Z.eqb_spec cap 0); [lia|].
    destruct (Z.ltb_spec cap (Z.of_nat (String.length value) + 1)); [lia|].
    rewrite strncpy_terminated_exact by assumption. reflexivity.
  - apply c_str_terminated. exact Hs.
Qed.

(** C8 as amended.  For every string-returning entry point, on an active
    session, with a handle that decodes where there is one and a process the
    system knows where one is asked for, and a non-null buffer: capacity 0 is
    an invalid argument; a capacity of at least 1 and less than the length of
    the value plus one is the insufficient-size error; in both cases the
    buffer is left as it was.  A capacity of exactly the length plus one
    succeeds, and the buffer then starts with the whole value followed by
    NUL. *)
Theorem string_buffer_contract (g : Z) (q : string_query) (value : string)
  (old : list ascii) (cap : Z) :
  0 < g -> string_query_value q = Some value -> no_nul value = true ->
  (cap = 0 ->
   run_string_query g q (Some old) cap = Some (NVML_ERROR_INVALID_ARGUMENT, Some old)) /\
  (0 < cap < strlen value + 1 ->
   run_string_query g q (Some old) cap = Some (NVML_ERROR_INSUFFICIENT_SIZE, Some old)) /\
  (cap = strlen value + 1 -> cap <= Z.of_nat (length old) ->
   run_string_query g q (Some old) cap =
     Some (NVML_SUCCESS,
           Some (list_ascii_of_string value ++ NUL :: drop (Z.to_nat cap) old)) /\
   c_str (list_ascii_of_string value ++ NUL :: drop (Z.to_nat cap) old) = value).
Proof.
  intros Hg Hq Hs. pose proof (initialized_pos g Hg) as Hinit.
  apply contract_of_body; [|exact Hs].
  destruct q; simpl in Hq |- *;
    try (apply device_value_inv in Hq as (Hv & r & Hr & <-);
         unfold nvmlDeviceGetName, nvmlDeviceGetUUID, nvmlDeviceGetSerial,
           device_string_getter;
         rewrite Hinit, sentinel_test, Hv, Hr; reflexivity);
    try (injection Hq as <-;
         unfold nvmlSystemGetDriverVersion, nvmlSystemGetNVMLVersion,
           nvmlSystemGetDriverBranch, system_string_getter;
         rewrite Hinit; reflexivity).
  - destruct (is_valid_device_handle dev) eqn:Hv; [|discriminate].
    injection Hq as <-. unfold nvmlDeviceGetBoardPartNumber.
    rewrite Hinit, sentinel_test, Hv. reflexivity.
  - destruct (readlink_exe pid) as [path|] eqn:Hp; [|discriminate].
    injection Hq as <-. unfold nvmlSystemGetProcessName. rewrite Hinit, Hp. simpl.
    replace (cap <=? strlen (basename_of path))
      with (cap <? strlen (basename_of path) + 1); [reflexivity|].
    destruct (Z.ltb_spec cap (strlen (basename_of path) + 1)),
      (Z.leb_spec cap (strlen (basename_of path))); first [reflexivity | lia].
Qed.

(** *** NVLink topology *)

Lemma fixture_strings :
  Forall (fun d => no_nul (pci_bus_id d) = true /\ no_nul (pci_bus_id_legacy d) = true /\
                   no_nul (name d) = true /\ no_nul (uuid d) = true /\
                   no_nul (serial d) = true)
    mock_devices.
Proof. repeat constructor. Qed.

Lemma remote_index_formula idx link :
  0 <= idx < 8 -> 0 <= link < 12 ->
  nvlink_remote_index idx link = (idx + link / 2 + 1) mod 8.
Proof.
  intros Hi Hl. unfold nvlink_remote_index, to_uint.
  assert (0 <= link / 2 < 6) by (split; [apply Z.div_pos | apply Z.div_lt_upper_bound]; lia).
  rewrite (Z.mod_small (idx + link / 2 + 1)) by lia. reflexivity.
Qed.

Lemma fixture_bus_is_index (i : Z) (r : mock_device_info_t) :
  array_get mock_devices i = Some r -> pci_bus r = i.
Proof.
  unfold array_get. change (Z.of_nat (length mock_devices)) with 8.
  destruct (Z.ltb_spec i 0), (Z.leb_spec 8 i); simpl; try discriminate.
  assert (i = 0 \/ i = 1 \/ i = 2 \/ i = 3 \/ i = 4 \/ i = 5 \/ i = 6 \/ i = 7)
    as Hc by lia.
  repeat (destruct Hc as [-> | Hc]; [intros [= <-]; reflexivity |]).
  rewrite Hc. intros [= <-]. reflexivity.
Qed.

(** What is read at [pci_bus_id]: the long-form id run on into the
    short-form one. *)
Lemma fixture_bus_ids :
  Forall (fun d => pci_bus_id_str d = (pci_bus_id d ++ pci_bus_id_legacy d)%string /\
                   no_nul (pci_bus_id_str d) = true /\
                   String.length (pci_bus_id_str d) = 28%nat /\
                   String.length (pci_bus_id_legacy d) = 12%nat /\
                   pci_bus_id_str d <> pci_bus_id d)
    mock_devices.
Proof. repeat constructor; discriminate. Qed.

(** A copy with room for the whole value: the array then holds the value as
    a C string. *)
Lemma strncpy_terminated_whole (dst : list ascii) (s : string) (n : Z) :
  strlen s < n -> n <= Z.of_nat (length dst) -> no_nul s = true ->
  exists new, strncpy_terminated dst s n = Some new /\ c_str new = s.
Proof.
  intros Hs Hn Hnn. unfold strlen in Hs.
  rewrite strncpy_terminated_result by lia.
  eexists. split; [reflexivity|].
  rewrite c_str_take_pad by assumption. apply substring_all. lia.
Qed.

Lemma remote_pci_result g dev link p :
  0 < g -> is_valid_device_handle dev = true -> link < 12 ->
  pci_well_formed p = true ->
  exists r out,
    array_get mock_devices (nvlink_remote_index (device_handle_to_index dev) link) = Some r /\
    nvmlDeviceGetNvLinkRemotePciInfo_v2 g dev link (Some p) = Some (NVML_SUCCESS, Some out) /\
    pci_identity out =
      (pci_bus_id_legacy r, pci_domain r, pci_bus r, pci_device r, pci_device_id r,
       pci_subsystem_id r, pci_bus_id_str r).
Proof.
  intros Hg Hv Hl Hp. pose proof (initialized_pos g Hg) as Hinit.
  unfold pci_well_formed in Hp.
  apply andb_prop in Hp as [H2 H4]. apply Z.eqb_eq in H2, H4.
  unfold NVML_DEVICE_PCI_BUS_ID_LEGACY_FMT_SIZE in H2.
  unfold NVML_DEVICE_PCI_BUS_ID_BUFFER_SIZE in H4.
  destruct (lookup_in_range _
              (remote_in_range (device_handle_to_index dev) link)) as [r Hr].
  pose proof (lookup_in_fixture _ _ Hr) as Hin.
  pose proof (proj1 (Forall_forall _ _) fixture_strings r Hin) as (_ & Hleg & _).
  pose proof (proj1 (Forall_forall _ _) fixture_bus_ids r Hin)
    as (_ & Hnn & Hlen & Hlenleg & _).
  destruct (strncpy_terminated_whole (busIdLegacy p) (pci_bus_id_legacy r)
              NVML_DEVICE_PCI_BUS_ID_BUFFER_V2_SIZE) as (l & Hl' & Hcl);
    [unfold strlen; rewrite Hlenleg; reflexivity
    | unfold NVML_DEVICE_PCI_BUS_ID_BUFFER_V2_SIZE; lia | exact Hleg |].
  destruct (strncpy_terminated_whole (busId p) (pci_bus_id_str r)
              NVML_DEVICE_PCI_BUS_ID_BUFFER_SIZE) as (b & Hb' & Hcb);
    [unfold strlen; rewrite Hlen; reflexivity
    | unfold NVML_DEVICE_PCI_BUS_ID_BUFFER_SIZE; lia | exact Hnn |].
  exists r. eexists. split; [exact Hr|].
  unfold nvmlDeviceGetNvLinkRemotePciInfo_v2.
  rewrite Hinit, Hv. simpl.
  destruct (Z.leb_spec 12 link); [lia|]. rewrite Hr. simpl.
  rewrite Hl', Hb'. simpl. split; [reflexivity|].
  unfold pci_identity. simpl. rewrite Hcl, Hcb. reflexivity.
Qed.

(** C6.  NVLink ring.  On an active session, for the device at index [idx]
    (handle [idx + 1]) and a link below 12, the state query reports the link
    enabled, and the remote-PCI query fills the record from the fixture
    entry at index (idx + link / 2 + 1) mod 8, the division being the
    integer one: [busIdLegacy] and the five numbers are those of that entry,
    and the bus number is that index.  [busId] is not the bus id of that
    entry: the array [pci_bus_id] it is copied from holds no terminator, so
    the copy runs on, and [busId] holds the long-form id followed by the
    short-form one; the record is therefore not the PCI identity of the
    entry.  The answer depends on the pair (idx, link) alone: a second call,
    on any active session and into any record, gives the same record
    contents.  For a link of 12 or more both queries return the
    invalid-argument error and leave their output alone. *)
Theorem nvlink_ring (g g' idx link active : Z) (p p' : nvmlPciInfo_t) :
  0 < g -> 0 < g' -> 0 <= idx < 8 -> 0 <= link ->
  pci_well_formed p = true -> pci_well_formed p' = true ->
  if link <? 12 then
    nvmlDeviceGetNvLinkState g {| handle := idx + 1 |} link (Some active) =
      Some (NVML_SUCCESS, Some NVML_FEATURE_ENABLED) /\
    exists r out out',
      array_get mock_devices ((idx + link / 2 + 1) mod 8) = Some r /\
      nvmlDeviceGetNvLinkRemotePciInfo_v2 g {| handle := idx + 1 |} link (Some p) =
        Some (NVML_SUCCESS, Some out) /\
      c_str (busIdLegacy out) = pci_bus_id_legacy r /\
      (domain out, bus out, device out, pciDeviceId out, pciSubSystemId out) =
        (pci_domain r, pci_bus r, pci_device r, pci_device_id r, pci_subsystem_id r) /\
      bus out = (idx + link / 2 + 1) mod 8 /\
      c_str (busId out) = (pci_bus_id r ++ pci_bus_id_legacy r)%string /\
      pci_identity out <> fixture_pci_identity r /\
      nvmlDeviceGetNvLinkRemotePciInfo_v2 g' {| handle := idx + 1 |} link (Some p') =
        Some (NVML_SUCCESS, Some out') /\
      pci_identity out' = pci_identity out
  else
    nvmlDeviceGetNvLinkState g {| handle := idx + 1 |} link (Some active) =
      Some (NVML_ERROR_INVALID_ARGUMENT, Some active) /\
    nvmlDeviceGetNvLinkRemotePciInfo_v2 g {| handle := idx + 1 |} link (Some p) =
      Some (NVML_ERROR_INVALID_ARGUMENT, Some p).
Proof.
  intros Hg Hg' Hi Hl Hp Hp'. pose proof (initialized_pos g Hg) as Hinit.
  assert (Hv : is_valid_device_handle {| handle := idx + 1 |} = true)
    by (apply valid_handle_range; simpl; lia).
  assert (Hd : device_handle_to_index {| handle := idx + 1 |} = idx)
    by (rewrite (decode_valid _ Hv); simpl; lia).
  destruct (Z.ltb_spec link 12) as [Hlt|Hge].
  - split.
    + unfold nvmlDeviceGetNvLinkState. rewrite Hinit, Hv. simpl.
      destruct (Z.leb_spec 12 link); [lia|reflexivity].
    + destruct (remote_pci_result g _ link p Hg Hv Hlt Hp) as (r & out & Hr & Ho & Hid).
      destruct (remote_pci_result g' _ link p' Hg' Hv Hlt Hp') as (r' & out' & Hr' & Ho' & Hid').
      rewrite Hr in Hr'. injection Hr' as <-.
      rewrite Hd, remote_index_formula in Hr by lia.
      pose proof (proj1 (Forall_forall _ _) fixture_bus_ids r (lookup_in_fixture _ _ Hr))
        as (Hrun & _ & _ & _ & Hne).
      pose proof (fixture_bus_is_index _ _ Hr) as Hbus.
      pose proof Hid as Hsame. rewrite <- Hid' in Hsame.
      unfold pci_identity in Hid. injection Hid as Hleg Hdom Hb Hdev Hdid Hsub Hbid.
      exists r, out, out'. repeat split; try assumption.
      * rewrite Hdom, Hb, Hdev, Hdid, Hsub. reflexivity.
      * rewrite Hb. exact Hbus.
      * rewrite Hbid. exact Hrun.
      * unfold pci_identity, fixture_pci_identity. intros Heq.
        injection Heq as _ _ _ _ _ _ Heq. rewrite Hbid in Heq. exact (Hne Heq).
      * symmetry. exact Hsame.
  - unfold nvmlDeviceGetNvLinkState, nvmlDeviceGetNvLinkRemotePciInfo_v2.
    rewrite Hinit, Hv. simpl.
    destruct (Z.leb_spec 12 link); [split; reflexivity|lia].
Qed.

(** ** Further properties of the code *)

(** *** Lookup by UUID *)

Lemma first_match_some matches table : forall i0 i,
  first_match matches table i0 = Some i ->
  i0 <= i < i0 + Z.of_nat (length table) /\
  exists d, table !! Z.to_nat (i - i0) = Some d /\ matches d = true /\
            Forall (fun e => matches e = false) (take (Z.to_nat (i - i0)) table).
Proof.
  induction table as [|d table IH]; intros i0 i H; [discriminate|].
  unfold first_match in H; fold first_match in H.
  destruct (matches d) eqn:Hd.
  - injection H as <-. simpl length. split; [lia|].
    exists d. rewrite Z.sub_diag. simpl. auto.
  - destruct (IH _ _ H) as (Hr & e & He & Hm & Hb). simpl length. split; [lia|].
    exists e. replace (Z.to_nat (i - i0)) with (S (Z.to_nat (i - (i0 + 1)))) by lia.
    simpl. auto.
Qed.

Lemma first_match_none matches table : forall i0,
  first_match matches table i0 = None -> Forall (fun e => matches e = false) table.
Proof.
  induction table as [|d table IH]; intros i0 H; [constructor|].
  unfold first_match in H; fold first_match in H.
  destruct (matches d) eqn:Hd; [discriminate|]. constructor; eauto.
Qed.

(** X1. Lookup by UUID is sound and complete.  On an active session, for
    any string and a non-null slot, the lookup either succeeds and writes a
    handle that decodes to an entry of the fixture whose UUID is that string,
    or reports not-found and leaves the slot alone, and then no entry of
    the fixture has that UUID. *)
Theorem lookup_by_uuid_sound_complete (g : Z) (u : string) (slot : nvmlDevice_t) :
  0 < g ->
  (exists h r,
      nvmlDeviceGetHandleByUUID g (Some u) (Some slot) = Some (NVML_SUCCESS, Some h) /\
      is_valid_device_handle h = true /\
      array_get mock_devices (device_handle_to_index h) = Some r /\ uuid r = u) \/
  (nvmlDeviceGetHandleByUUID g (Some u) (Some slot) = Some (NVML_ERROR_NOT_FOUND, Some slot) /\
   forall r, r ∈ mock_devices -> uuid r <> u).
Proof.
  intros Hg. unfold nvmlDeviceGetHandleByUUID.
  rewrite (initialized_pos g Hg). simpl.
  destruct (first_match (fun d => streq u (uuid d)) mock_devices 0) as [i|] eqn:Hm.
  - left. apply first_match_some in Hm as (Hi & d & Hd & Hu & _).
    change (Z.of_nat (length mock_devices)) with 8 in Hi.
    rewrite Z.sub_0_r in Hd.
    assert (Hv : is_valid_device_handle {| handle := i + 1 |} = true)
      by (apply valid_handle_range; simpl; lia).
    exists {| handle := i + 1 |}, d. simpl.
    rewrite handle_of_index by lia. repeat split; try assumption.
    + rewrite (decode_valid _ Hv). simpl. replace (i + 1 - 1) with i by lia.
      unfold array_get. change (Z.of_nat (length mock_devices)) with 8.
      destruct (Z.ltb_spec i 0), (Z.leb_spec 8 i); try lia. exact Hd.
    + symmetry. apply String.eqb_eq. exact Hu.
  - right. split; [reflexivity|].
    apply first_match_none in Hm. intros r Hr Heq.
    pose proof (proj1 (Forall_forall _ _) Hm r Hr) as Hf. simpl in Hf.
    unfold streq in Hf. rewrite <- Heq, String.eqb_refl in Hf. discriminate.
Qed.

(** *** String queries with room to spare *)

Lemma strncpy_terminated_padded (dst : list ascii) (s : string) (n : Z) :
  strlen s + 1 <= n -> n <= Z.of_nat (length dst) ->
  strncpy_terminated dst s n =
  Some (list_ascii_of_string s
        ++ replicate (Z.to_nat n - String.length s) NUL ++ drop (Z.to_nat n) dst).
Proof.
  intros Hn Hd. unfold strlen in Hn.
  rewrite strncpy_terminated_result by lia. f_equal.
  set (k := Z.to_nat n). set (l := list_ascii_of_string s).
  assert (Hl : length l = String.length s) by apply length_list_ascii.
  rewrite take_app_ge by lia. rewrite take_replicate.
  rewrite <- app_assoc. f_equal.
  replace (k - String.length s)%nat with (S (k - 1 - String.length s)) by lia.
  rewrite Hl. replace ((k - 1 - String.length s) `min` k)%nat
    with (k - 1 - String.length s)%nat by lia.
  rewrite replicate_S_end, <- app_assoc. reflexivity.
Qed.

Lemma c_str_padded (s : string) (m : nat) rest :
  no_nul s = true -> (1 <= m)%nat ->
  c_str (list_ascii_of_string s ++ replicate m NUL ++ rest) = s.
Proof.
  intros Hs Hm. destruct m as [|m]; [lia|]. simpl. apply c_str_terminated. exact Hs.
Qed.

Lemma device_string_getter_body field (g : Z) (h : nvmlDevice_t)
  (r : mock_device_info_t) (old : list ascii) (cap : Z) :
  0 < g -> is_valid_device_handle h = true ->
  array_get mock_devices (device_handle_to_index h) = Some r ->
  device_string_getter field g h (Some old) cap =
  if cap =? 0 then Some (NVML_ERROR_INVALID_ARGUMENT, Some old)
  else if cap <? strlen (field r) + 1 then Some (NVML_ERROR_INSUFFICIENT_SIZE, Some old)
  else new ← strncpy_terminated old (field r) cap; Some (NVML_SUCCESS, Some new).
Proof.
  intros Hg Hv Hr. unfold device_string_getter.
  rewrite (initialized_pos g Hg), sentinel_test, Hv, Hr. reflexivity.
Qed.

Lemma string_query_body (g : Z) (q : string_query) (value : string)
  (old : list ascii) (cap : Z) :
  0 < g -> string_query_value q = Some value ->
  run_string_query g q (Some old) cap =
  if cap =? 0 then Some (NVML_ERROR_INVALID_ARGUMENT, Some old)
  else if cap <? strlen value + 1 then Some (NVML_ERROR_INSUFFICIENT_SIZE, Some old)
  else new ← strncpy_terminated old value cap; Some (NVML_SUCCESS, Some new).
Proof.
  intros Hg Hq. pose proof (initialized_pos g Hg) as Hinit.
  destruct q; simpl in Hq |- *.
  - apply device_value_inv in Hq as (Hv & r & Hr & <-).
    unfold nvmlDeviceGetName, device_string_getter.
    rewrite Hinit, sentinel_test, Hv, Hr. reflexivity.
  - apply device_value_inv in Hq as (Hv & r & Hr & <-).
    unfold nvmlDeviceGetUUID, device_string_getter.
    rewrite Hinit, sentinel_test, Hv, Hr. reflexivity.
  - apply device_value_inv in Hq as (Hv & r & Hr & <-).
    unfold nvmlDeviceGetSerial, device_string_getter.
    rewrite Hinit, sentinel_test, Hv, Hr. reflexivity.
  - destruct (is_valid_device_handle dev) eqn:Hv; [|discriminate].
    injection Hq as <-. unfold nvmlDeviceGetBoardPartNumber.
    rewrite Hinit, sentinel_test, Hv. reflexivity.
  - injection Hq as <-. unfold nvmlSystemGetDriverVersion, system_string_getter.
    rewrite Hinit. reflexivity.
  - injection Hq as <-. unfold nvmlSystemGetNVMLVersion, system_string_getter.
    rewrite Hinit. reflexivity.
  - injection Hq as <-. unfold nvmlSystemGetDriverBranch, system_string_getter.
    rewrite Hinit. reflexivity.
  - destruct (readlink_exe pid) as [path|] eqn:Hp; [|discriminate].
    injection Hq as <-. unfold nvmlSystemGetProcessName. rewrite Hinit, Hp. simpl.
    replace (cap <=? strlen (basename_of path))
      with (cap <? strlen (basename_of path) + 1); [reflexivity|].
    destruct (Z.ltb_spec cap (strlen (basename_of path) + 1)),
      (Z.leb_spec cap (strlen (basename_of path))); first [reflexivity | lia].
Qed.

(** X2. A string query never truncates, and overwrites exactly the capacity
    it is given.  On an active session, when the capacity is at least the
    length of the value plus one (and the array really has that many bytes),
    every string query succeeds; the array then holds the whole value,
    followed by NUL bytes up to the capacity, followed by the bytes it held
    beyond the capacity; its length is unchanged, and read as a C string it
    is the value. *)
Theorem string_query_roomy (g : Z) (q : string_query) (value : string)
  (old : list ascii) (cap : Z) :
  0 < g -> string_query_value q = Some value -> no_nul value = true ->
  strlen value + 1 <= cap -> cap <= Z.of_nat (length old) ->
  exists new,
    run_string_query g q (Some old) cap = Some (NVML_SUCCESS, Some new) /\
    new = list_ascii_of_string value
          ++ replicate (Z.to_nat cap - String.length value) NUL
          ++ drop (Z.to_nat cap) old /\
    length new = length old /\
    c_str new = value.
Proof.
  intros Hg Hq Hs Hc Hl. eexists. split; [|split; [reflexivity|]].
  - rewrite (string_query_body g q value old cap Hg Hq).
    unfold strlen in *.
    destruct (Z.eqb_spec cap 0); [lia|].
    destruct (Z.ltb_spec cap (Z.of_nat (String.length value) + 1)); [lia|].
    rewrite strncpy_terminated_padded by (unfold strlen; lia). reflexivity.
  - unfold strlen in *. split.
    + rewrite !length_app, length_replicate, length_drop, length_list_ascii. lia.
    + apply c_str_padded; [exact Hs | lia].
Qed.

(** *** Round trips through the identity queries *)

Lemma fixture_lengths :
  Forall (fun d => strlen (uuid d) = 40 /\ strlen (pci_bus_id_legacy d) = 12 /\
                   strlen (name d) = 21 /\ strlen (serial d) = 13)
    mock_devices.
Proof. repeat constructor. Qed.

Lemma uuid_lookup_of_device (g : Z) (h slot : nvmlDevice_t) (r : mock_device_info_t) :
  0 < g -> is_valid_device_handle h = true ->
  array_get mock_devices (device_handle_to_index h) = Some r ->
  nvmlDeviceGetHandleByUUID g (Some (uuid r)) (Some slot) = Some (NVML_SUCCESS, Some h).
Proof.
  intros Hg Hv Hr. unfold nvmlDeviceGetHandleByUUID.
  rewrite (initialized_pos g Hg).
  each_handle h Hv; vm_compute in Hr; injection Hr as <-; reflexivity.
Qed.

(** X3. UUID round trip.  On an active session, for every handle that
    decodes, reading the UUID into a buffer of at least 41 bytes and looking
    that string up gives the same handle back: the eight UUIDs tell the
    devices apart. *)
Theorem uuid_round_trip (g : Z) (h slot : nvmlDevice_t) (old : list ascii) (cap : Z) :
  0 < g -> is_valid_device_handle h = true ->
  41 <= cap -> cap <= Z.of_nat (length old) ->
  exists new,
    nvmlDeviceGetUUID g h (Some old) cap = Some (NVML_SUCCESS, Some new) /\
    nvmlDeviceGetHandleByUUID g (Some (c_str new)) (Some slot) =
      Some (NVML_SUCCESS, Some h).
Proof.
  intros Hg Hv Hc Hl.
  destruct (lookup_valid h Hv) as [r Hr].
  pose proof (lookup_in_fixture _ _ Hr) as Hin.
  pose proof (proj1 (Forall_forall _ _) fixture_lengths r Hin) as (Hlen & _).
  pose proof (proj1 (Forall_forall _ _) fixture_strings r Hin) as (_ & _ & _ & Hnn & _).
  unfold nvmlDeviceGetUUID.
  rewrite (device_string_getter_body uuid g h r old cap Hg Hv Hr).
  destruct (Z.eqb_spec cap 0); [lia|].
  destruct (Z.ltb_spec cap (strlen (uuid r) + 1)); [lia|].
  rewrite strncpy_terminated_padded by lia. simpl.
  eexists. split; [reflexivity|].
  rewrite c_str_padded by (try assumption; unfold strlen in Hlen; lia).
  apply uuid_lookup_of_device; assumption.
Qed.

Lemma pci_lookup_of_device (g : Z) (h slot : nvmlDevice_t) (r : mock_device_info_t) :
  0 < g -> is_valid_device_handle h = true ->
  array_get mock_devices (device_handle_to_index h) = Some r ->
  nvmlDeviceGetHandleByPciBusId_v2 g (Some (pci_bus_id_legacy r)) (Some slot) =
    Some (NVML_SUCCESS, Some h).
Proof.
  intros Hg Hv Hr. unfold nvmlDeviceGetHandleByPciBusId_v2.
  rewrite (initialized_pos g Hg).
  each_handle h Hv; vm_compute in Hr; injection Hr as <-; reflexivity.
Qed.

(** X4. PCI round trip.  On an active session, for every handle that decodes
    and a record whose two arrays have at least 13 bytes, the PCI query
    succeeds; it writes the short-form bus id of the device into both
    [busId] and [busIdLegacy], the bus number equals the device index, and
    looking the written [busId] up gives the same handle back. *)
Theorem pci_round_trip (g : Z) (h slot : nvmlDevice_t) (p : nvmlPciInfo_t) :
  0 < g -> is_valid_device_handle h = true ->
  13 <= Z.of_nat (length (busId p)) -> 13 <= Z.of_nat (length (busIdLegacy p)) ->
  exists out,
    nvmlDeviceGetPciInfo_v3 g h (Some p) = Some (NVML_SUCCESS, Some out) /\
    c_str (busId out) = c_str (busIdLegacy out) /\
    String.length (c_str (busId out)) = 12%nat /\
    bus out = handle h - 1 /\ domain out = 0 /\ device out = 0 /\
    length (busId out) = length (busId p) /\
    length (busIdLegacy out) = length (busIdLegacy p) /\
    nvmlDeviceGetHandleByPciBusId_v2 g (Some (c_str (busId out))) (Some slot) =
      Some (NVML_SUCCESS, Some h).
Proof.
  intros Hg Hv Hb Hl.
  destruct (lookup_valid h Hv) as [r Hr].
  pose proof (lookup_in_fixture _ _ Hr) as Hin.
  pose proof (proj1 (Forall_forall _ _) fixture_lengths r Hin) as (_ & Hlen & _).
  pose proof (proj1 (Forall_forall _ _) fixture_strings r Hin) as (_ & Hnn & _).
  assert (Hnum : pci_bus r = handle h - 1 /\ pci_domain r = 0 /\ pci_device r = 0).
  { clear Hlen Hnn Hin.
    each_handle h Hv; vm_compute in Hr; injection Hr as <-; repeat split. }
  destruct Hnum as (Hbus & Hdom & Hdev).
  unfold nvmlDeviceGetPciInfo_v3.
  rewrite (initialized_pos g Hg), sentinel_test, Hv, Hr. simpl.
  rewrite !strncpy_terminated_padded by lia. simpl.
  eexists. split; [reflexivity|]. simpl.
  unfold strlen in Hlen.
  rewrite !c_str_padded by (try assumption; lia).
  repeat split; try assumption.
  - lia.
  - rewrite !length_app, length_replicate, length_drop, length_list_ascii. lia.
  - rewrite !length_app, length_replicate, length_drop, length_list_ascii. lia.
  - apply pci_lookup_of_device; assumption.
Qed.

(** *** Device lists *)

Lemma poke_in_range {A} (dst : list A) (i : Z) (c : A) :
  0 <= i < Z.of_nat (length dst) -> poke dst i c = Some (<[Z.to_nat i := c]> dst).
Proof.
  intros Hi. unfold poke.
  destruct (Z.ltb_spec i 0), (Z.leb_spec (Z.of_nat (length dst)) i); try lia.
  reflexivity.
Qed.

Ltac compute_index :=
  repeat match goal with
    | |- context [device_handle_to_index ?d] =>
        let v := eval vm_compute in (device_handle_to_index d) in
        change (device_handle_to_index d) with v
    end.

Lemma for_each_cons {S} (body : Z -> S -> option S) i rest st :
  for_each body (i :: rest) st = st1 ← body i st; for_each body rest st1.
Proof. reflexivity. Qed.

Lemma for_each_nil {S} (body : Z -> S -> option S) st : for_each body [] st = Some st.
Proof. reflexivity. Qed.

Ltac run_loop :=
  change (seqZ 0 8) with [0; 1; 2; 3; 4; 5; 6; 7];
  repeat (first [rewrite for_each_cons | rewrite for_each_nil];
          cbn beta iota delta [negb Z.eqb Pos.eqb];
          rewrite ?poke_in_range by (rewrite ?length_insert; simpl length; lia);
          cbn [mbind option_bind]).

Lemma other_handles_facts (dev : nvmlDevice_t) :
  is_valid_device_handle dev = true ->
  length (other_handles (handle dev - 1)) = 7%nat /\
  Forall (fun d => is_valid_device_handle d = true) (other_handles (handle dev - 1)) /\
  (dev ∉ other_handles (handle dev - 1)) /\
  NoDup (other_handles (handle dev - 1)) /\
  (forall d, is_valid_device_handle d = true -> d <> dev ->
             d ∈ other_handles (handle dev - 1)).
Proof.
  intros Hv.
  each_handle dev Hv;
    match goal with
    | |- context [other_handles ?i] =>
        let v := eval vm_compute in (other_handles i) in
        change (other_handles i) with v
    end.
  all: split; [reflexivity|].
  all: split; [repeat (apply Forall_cons_2; [reflexivity|]); apply Forall_nil_2|].
  all: split; [apply (bool_decide_unpack _); vm_compute; exact I|].
  all: split; [apply (bool_decide_unpack _); vm_compute; exact I|].
  all: intros d Hd Hne; each_handle d Hd;
    first [congruence | apply (bool_decide_unpack _); vm_compute; exact I].
Qed.

(** X5. Nearest GPUs: the size-then-fill protocol.  On an active session and
    for a handle that decodes, whatever the level: with a NULL array the
    query stores the count 7 and succeeds; with an array and a count below 7
    it stores 7, reports insufficient size and leaves the array alone; with a
    count of at least 7 (and an array that long) it succeeds, stores 7, and
    overwrites the first seven slots with the handles of the other devices
    in table order, the rest of the array being kept.  Those seven handles
    all decode, are pairwise different, never include the device itself, and
    include every other device. *)
Theorem nearest_gpus_protocol (g : Z) (dev : nvmlDevice_t) (level n : Z)
  (arr : list nvmlDevice_t) :
  0 < g -> is_valid_device_handle dev = true ->
  nvmlDeviceGetTopologyNearestGpus g dev level (Some n) None =
    Some (NVML_SUCCESS, (Some 7, None)) /\
  (n < 7 ->
   nvmlDeviceGetTopologyNearestGpus g dev level (Some n) (Some arr) =
     Some (NVML_ERROR_INSUFFICIENT_SIZE, (Some 7, Some arr))) /\
  (7 <= n -> 7 <= Z.of_nat (length arr) ->
   nvmlDeviceGetTopologyNearestGpus g dev level (Some n) (Some arr) =
     Some (NVML_SUCCESS, (Some 7, Some (other_handles (handle dev - 1) ++ drop 7 arr)))) /\
  length (other_handles (handle dev - 1)) = 7%nat /\
  Forall (fun d => is_valid_device_handle d = true) (other_handles (handle dev - 1)) /\
  (dev ∉ other_handles (handle dev - 1)) /\
  NoDup (other_handles (handle dev - 1)) /\
  (forall d, is_valid_device_handle d = true -> d <> dev ->
             d ∈ other_handles (handle dev - 1)).
Proof.
  intros Hg Hv. pose proof (initialized_pos g Hg) as Hinit.
  split; [|split; [|split; [|apply other_handles_facts; exact Hv]]].
  - unfold nvmlDeviceGetTopologyNearestGpus.
    rewrite Hinit, sentinel_test, Hv. reflexivity.
  - intros Hn. unfold nvmlDeviceGetTopologyNearestGpus.
    rewrite Hinit, sentinel_test, Hv. simpl.
    destruct (Z.ltb_spec n 7); [reflexivity | lia].
  - intros Hn Hlen. unfold nvmlDeviceGetTopologyNearestGpus.
    rewrite Hinit, sentinel_test, Hv. simpl.
    destruct (Z.ltb_spec n 7); [lia|].
    destruct arr as [|a0 [|a1 [|a2 [|a3 [|a4 [|a5 [|a6 rest]]]]]]];
      simpl in Hlen; try lia.
    each_handle dev Hv; compute_index; run_loop; reflexivity.
Qed.

(** X6. GPU set of a CPU: the size-then-fill protocol.  On an active
    session, whatever the CPU number: with a NULL array the query stores the
    count 8 and succeeds; with an array and a count below 8 it stores 8,
    reports insufficient size and leaves the array alone; with a count of at
    least 8 (and an array that long) it succeeds, stores 8, and overwrites
    the first eight slots with the handles 1 to 8 in order, the rest of the
    array being kept.  Each of the eight decodes to its position. *)
Theorem topology_gpu_set_protocol (g cpuNumber n : Z) (arr : list nvmlDevice_t) :
  0 < g ->
  nvmlSystemGetTopologyGpuSet g cpuNumber (Some n) None =
    Some (NVML_SUCCESS, (Some 8, None)) /\
  (n < 8 ->
   nvmlSystemGetTopologyGpuSet g cpuNumber (Some n) (Some arr) =
     Some (NVML_ERROR_INSUFFICIENT_SIZE, (Some 8, Some arr))) /\
  (8 <= n -> 8 <= Z.of_nat (length arr) ->
   nvmlSystemGetTopologyGpuSet g cpuNumber (Some n) (Some arr) =
     Some (NVML_SUCCESS, (Some 8, Some (all_handles ++ drop 8 arr)))) /\
  (forall i d, all_handles !! i = Some d ->
     is_valid_device_handle d = true /\ device_handle_to_index d = Z.of_nat i).
Proof.
  intros Hg. pose proof (initialized_pos g Hg) as Hinit.
  unfold nvmlSystemGetTopologyGpuSet. rewrite Hinit. simpl.
  split; [reflexivity|]. split; [|split].
  - intros Hn. destruct (Z.ltb_spec n 8); [reflexivity | lia].
  - intros Hn Hlen. destruct (Z.ltb_spec n 8); [lia|].
    destruct arr as [|a0 [|a1 [|a2 [|a3 [|a4 [|a5 [|a6 [|a7 rest]]]]]]]];
      simpl in Hlen; try lia.
    run_loop. reflexivity.
  - intros i d Hd.
    do 8 (destruct i as [|i]; [injection Hd as <-; split; reflexivity|]).
    discriminate Hd.
Qed.

(** *** Peer-to-peer and common ancestor *)

(** X7. Pairwise topology queries.  On an active session with a non-null
    output, the peer-to-peer status query and the common-ancestor query
    succeed exactly when both handles decode, and otherwise report an invalid
    argument and leave the output alone; on success they always write the
    OK status, respectively the whole-system level, also for a device paired
    with itself and whatever the capability index; and swapping the two
    handles never changes the answer. *)
Theorem pairwise_topology (g : Z) (d1 d2 : nvmlDevice_t) (p2pIndex out : Z) :
  0 < g ->
  nvmlDeviceGetP2PStatus g d1 d2 p2pIndex (Some out) =
    (if is_valid_device_handle d1 && is_valid_device_handle d2
     then Some (NVML_SUCCESS, Some NVML_P2P_STATUS_OK)
     else Some (NVML_ERROR_INVALID_ARGUMENT, Some out)) /\
  nvmlDeviceGetTopologyCommonAncestor g d1 d2 (Some out) =
    (if is_valid_device_handle d1 && is_valid_device_handle d2
     then Some (NVML_SUCCESS, Some NVML_TOPOLOGY_SYSTEM)
     else Some (NVML_ERROR_INVALID_ARGUMENT, Some out)) /\
  nvmlDeviceGetP2PStatus g d1 d2 p2pIndex (Some out) =
    nvmlDeviceGetP2PStatus g d2 d1 p2pIndex (Some out) /\
  nvmlDeviceGetTopologyCommonAncestor g d1 d2 (Some out) =
    nvmlDeviceGetTopologyCommonAncestor g d2 d1 (Some out).
Proof.
  intros Hg. pose proof (initialized_pos g Hg) as Hinit.
  unfold nvmlDeviceGetP2PStatus, nvmlDeviceGetTopologyCommonAncestor, device_pair_getter.
  rewrite Hinit, !sentinel_test. simpl.
  destruct (is_valid_device_handle d1), (is_valid_device_handle d2);
    repeat split; reflexivity.
Qed.

(** *** Error strings *)

Lemma error_string_table :
  forallb (fun a =>
             negb (String.eqb (nvmlErrorString a) "Unknown error") &&
             forallb (fun b => implb (String.eqb (nvmlErrorString a) (nvmlErrorString b))
                                 (a =? b))
               (seqZ 0 24))
    (seqZ 0 24) = true.
Proof. vm_compute. reflexivity. Qed.

Lemma switch_string_default cases result default :
  Forall (fun c => nvmlReturn_value (fst c) <> result) cases ->
  switch_string cases result default = default.
Proof.
  induction 1 as [|[label s] rest Hne _ IH]; [reflexivity|].
  simpl in *. destruct (Z.eqb_spec result (nvmlReturn_value label)); [congruence|].
  exact IH.
Qed.

(** X8. Error strings.  The mapping from return codes to strings is total
    over all integers.  It returns the fallback "Unknown error" exactly for
    the values outside 0..23, which includes the six defined codes 24 to 29
    and the code 999; and on 0..23 it is injective: different codes have
    different strings. *)
Theorem error_string_mapping (a b : Z) :
  (nvmlErrorString a = "Unknown error"%string <-> ~ (0 <= a <= 23)) /\
  (0 <= a <= 23 -> 0 <= b <= 23 -> nvmlErrorString a = nvmlErrorString b -> a = b) /\
  Forall (fun r => nvmlErrorString (nvmlReturn_value r) = "Unknown error"%string)
    [NVML_ERROR_FREQ_NOT_SUPPORTED; NVML_ERROR_ARGUMENT_VERSION_MISMATCH;
     NVML_ERROR_DEPRECATED; NVML_ERROR_NOT_READY; NVML_ERROR_GPU_NOT_FOUND;
     NVML_ERROR_INVALID_STATE; NVML_ERROR_UNKNOWN].
Proof.
  pose proof error_string_table as Ht. rewrite forallb_forall in Ht.
  assert (Hin : forall v, 0 <= v <= 23 -> In v (seqZ 0 24)).
  { intros v Hv. apply list_elem_of_In, elem_of_seqZ. lia. }
  split; [split|split].
  - intros Hu Ha. specialize (Ht a (Hin a Ha)).
    apply andb_prop in Ht as [Ht _]. rewrite Hu in Ht. discriminate.
  - intros Ha. apply switch_string_default.
    repeat (apply Forall_cons_2; [simpl; lia|]). apply Forall_nil_2.
  - intros Ha Hb Heq. specialize (Ht a (Hin a Ha)).
    apply andb_prop in Ht as [_ Ht]. rewrite forallb_forall in Ht.
    specialize (Ht b (Hin b Hb)). rewrite Heq, String.eqb_refl in Ht.
    simpl in Ht. apply Z.eqb_eq. exact Ht.
  - repeat (apply Forall_cons_2; [reflexivity|]). apply Forall_nil_2.
Qed.

(** *** The session and the facade together *)

Lemma never_uninitialized (g : Z) (req : request) :
  nvml_is_initialized g = true ->
  validate_in_spec_order g (validation_of req) <> NVML_ERROR_UNINITIALIZED.
Proof.
  intros Hi. unfold validate_in_spec_order. rewrite Hi.
  destruct req; cbn [validation_of]; autounfold with nvml; simpl;
    repeat (match goal with
            | |- context [if ?b then _ else _] => destruct b
            | |- context [readlink_exe ?p] => destruct (readlink_exe p)
            | |- context [first_match ?f ?l ?i] => destruct (first_match f l i)
            | |- context [match ?x with Some _ => _ | None => _ end] =>
                is_var x; destruct x
            end; simpl);
    discriminate.
Qed.

(** X9. The gate follows the reference count.  Run any sequence of init and
    shutdown calls with at most [INT_MAX] = 2^31 - 1 inits from a fresh
    process and then make any call of the facade, with any arguments: the
    call returns the uninitialized error if and only if the inits made so
    far are all matched by successful shutdowns. *)
Theorem gate_follows_refcount (calls : list lifecycle_call) (req : request) :
  inits calls <= INT_MAX ->
  let '(g, rets) := run 0 calls in
  dispatch g req = Some NVML_ERROR_UNINITIALIZED <-> net_outstanding calls rets = 0.
Proof.
  intros Hmax.
  pose proof (run_invariant calls 0 ltac:(lia) ltac:(lia)) as H.
  destruct (run 0 calls) as [g rets]. destruct H as [Hr Hn].
  destruct (nvml_is_initialized g) eqn:Hi.
  - assert (0 < g) by (apply Z.ltb_lt; exact Hi). split; [|lia].
    intros Hd. destruct (dispatch_spec_order g req) as [Hs | [_ Hs]];
      rewrite Hs in Hd; [|discriminate].
    injection Hd as Hd. apply never_uninitialized in Hd; [contradiction | exact Hi].
  - assert (g = 0).
    { unfold nvml_is_initialized in Hi. apply Z.ltb_ge in Hi. lia. }
    split; [lia|]. intros _.
    destruct (dispatch_spec_order g req) as [Hs | [Hp _]].
    + rewrite Hs. unfold validate_in_spec_order. rewrite Hi. reflexivity.
    + unfold passes in Hp. rewrite Hi in Hp. discriminate.
Qed.

Lemma run_inits (n : nat) : forall g,
  0 <= g -> g + Z.of_nat n <= INT_MAX ->
  run g (replicate n CallInit) = (g + Z.of_nat n, replicate n NVML_SUCCESS).
Proof.
  induction n as [|n IH]; intros g Hg Hmax.
  - simpl. f_equal. lia.
  - cbn [replicate run]. rewrite init_below_max by lia.
    rewrite IH by lia. f_equal. lia.
Qed.

Lemma run_shutdowns (m : nat) : forall g, 0 <= g ->
  run g (replicate m CallShutdown) =
  (Z.max 0 (g - Z.of_nat m),
   replicate (Z.to_nat g `min` m) NVML_SUCCESS
   ++ replicate (m - Z.to_nat g) NVML_ERROR_UNINITIALIZED).
Proof.
  induction m as [|m IH]; intros g Hg.
  - simpl. rewrite Nat.min_0_r. simpl. f_equal. lia.
  - cbn [replicate run step]. unfold nvmlShutdown.
    destruct (Z.leb_spec g 0).
    + assert (g = 0) by lia. subst g. rewrite IH by lia. simpl.
      rewrite Nat.sub_0_r. f_equal. lia.
    + rewrite IH by lia.
      replace (Z.to_nat g `min` S m)%nat with (S (Z.to_nat (g - 1) `min` m)) by lia.
      replace (S m - Z.to_nat g)%nat with (m - Z.to_nat (g - 1))%nat by lia.
      simpl. f_equal. lia.
Qed.

(** X10. N inits, then M shutdowns.  From a fresh process, N inits, N being
    at most [INT_MAX] = 2^31 - 1, followed by M shutdowns leave the counter
    at N - M, or at 0 when M exceeds N; all inits and the first min(N, M)
    shutdowns succeed, and each of the M - N shutdowns in excess returns the
    uninitialized error.  The session is active afterwards exactly when N
    exceeds M. *)
Theorem inits_then_shutdowns (n m : nat) :
  Z.of_nat n <= INT_MAX ->
  run 0 (replicate n CallInit ++ replicate m CallShutdown) =
    (Z.max 0 (Z.of_nat n - Z.of_nat m),
     replicate (n + n `min` m) NVML_SUCCESS
     ++ replicate (m - n) NVML_ERROR_UNINITIALIZED) /\
  (nvml_is_initialized (fst (run 0 (replicate n CallInit ++ replicate m CallShutdown)))
   = true <-> (m < n)%nat).
Proof.
  intros Hmax.
  assert (Hrun : run 0 (replicate n CallInit ++ replicate m CallShutdown) =
    (Z.max 0 (Z.of_nat n - Z.of_nat m),
     replicate (n + n `min` m) NVML_SUCCESS
     ++ replicate (m - n) NVML_ERROR_UNINITIALIZED)).
  { rewrite run_app, run_inits, run_shutdowns by lia.
    replace (Z.to_nat (0 + Z.of_nat n)) with n by lia.
    rewrite replicate_add, <- app_assoc. f_equal. }
  split; [exact Hrun|]. rewrite Hrun. simpl. unfold nvml_is_initialized.
  split; [intros H%Z.ltb_lt | intros H; apply Z.ltb_lt]; lia.
Qed.

(** *** From a handle back to its index *)

(** X11. Decode, then encode.  On an active session, for every handle that
    decodes, the index query and the minor-number query write the same
    number, the handle minus one, and asking for the handle at that index
    gives the handle back. *)
Theorem index_minor_handle (g out : Z) (h slot : nvmlDevice_t) :
  0 < g -> is_valid_device_handle h = true ->
  nvmlDeviceGetIndex g h (Some out) = Some (NVML_SUCCESS, Some (handle h - 1)) /\
  nvmlDeviceGetMinorNumber g h (Some out) = Some (NVML_SUCCESS, Some (handle h - 1)) /\
  nvmlDeviceGetHandleByIndex_v2 g (handle h - 1) (Some slot) = Some (NVML_SUCCESS, Some h).
Proof.
  intros Hg Hv. pose proof (initialized_pos g Hg) as Hinit.
  unfold nvmlDeviceGetIndex, nvmlDeviceGetMinorNumber, nvmlDeviceGetHandleByIndex_v2,
    device_const_getter, device_field_getter.
  rewrite Hinit. each_handle h Hv; repeat split; reflexivity.
Qed.

(** *** Clocks *)

(** X12. Current clocks are the maximal clocks.  On an active session, for
    every handle that decodes and every clock type, the current-clock query
    and the max-clock query give the same answer, value and return code
    alike; the clock id is ignored; and a type that is none of graphics, SM
    and memory is not supported and leaves the output alone. *)
Theorem clocks_at_max (g t id id' out : Z) (h : nvmlDevice_t) :
  0 < g -> is_valid_device_handle h = true ->
  nvmlDeviceGetClock g h t id (Some out) = nvmlDeviceGetMaxClockInfo g h t (Some out) /\
  nvmlDeviceGetClock g h t id (Some out) = nvmlDeviceGetClock g h t id' (Some out) /\
  nvmlDeviceGetClockInfo id g h t (Some out) = nvmlDeviceGetClock g h t id' (Some out) /\
  (t <> NVML_CLOCK_GRAPHICS -> t <> NVML_CLOCK_SM -> t <> NVML_CLOCK_MEM ->
   nvmlDeviceGetClock g h t id (Some out) = Some (NVML_ERROR_NOT_SUPPORTED, Some out)).
Proof.
  intros Hg Hv. pose proof (initialized_pos g Hg) as Hinit.
  unfold nvmlDeviceGetClockInfo, nvmlDeviceGetClock, nvmlDeviceGetMaxClockInfo.
  rewrite Hinit, sentinel_test, Hv. simpl.
  destruct (lookup_valid h Hv) as [r Hr]. rewrite Hr. simpl.
  assert (Hc : clock_graphics r = 1410 /\ clock_sm r = 1410 /\ clock_memory r = 1593).
  { pose proof (lookup_in_fixture _ _ Hr) as Hin. clear Hr; revert r Hin.
    apply Forall_forall. repeat (apply Forall_cons_2; [repeat split|]).
    apply Forall_nil_2. }
  destruct Hc as (-> & -> & ->).
  destruct (Z.eqb_spec t NVML_CLOCK_GRAPHICS), (Z.eqb_spec t NVML_CLOCK_SM),
    (Z.eqb_spec t NVML_CLOCK_MEM); simpl; repeat split;
    first [reflexivity | intros; contradiction].
Qed.

(** *** Memory figures across queries *)

(** X13. Memory figures agree.  On an active session, for every handle that
    decodes, the attributes query, the memory query and the BAR1 query
    succeed; the memory size of the attributes, in MiB, is the total of the
    memory query in bytes; the BAR1 total is its free plus its used; and the
    attributes report no GPU-instance or compute-instance slices. *)
Theorem memory_figures_agree (g : Z) (h : nvmlDevice_t) (a0 : nvmlDeviceAttributes_t)
  (m0 : nvmlMemory_t) (b0 : nvmlBAR1Memory_t) :
  0 < g -> is_valid_device_handle h = true ->
  exists a m b,
    nvmlDeviceGetAttributes_v2 g h (Some a0) = Some (NVML_SUCCESS, Some a) /\
    nvmlDeviceGetMemoryInfo g h (Some m0) = Some (NVML_SUCCESS, Some m) /\
    nvmlDeviceGetBAR1MemoryInfo g h (Some b0) = Some (NVML_SUCCESS, Some b) /\
    memorySizeMB a * 2 ^ 20 = total m /\
    bar1Total b = bar1Free b + bar1Used b /\
    gpuInstanceSliceCount a = 0 /\ computeInstanceSliceCount a = 0.
Proof.
  intros Hg Hv. pose proof (initialized_pos g Hg) as Hinit.
  unfold nvmlDeviceGetAttributes_v2, nvmlDeviceGetMemoryInfo,
    nvmlDeviceGetBAR1MemoryInfo, device_const_getter.
  rewrite Hinit, sentinel_test, Hv. simpl.
  destruct (lookup_valid h Hv) as [r Hr]. rewrite Hr. simpl.
  do 3 eexists. repeat split.
  simpl. pose proof (lookup_in_fixture _ _ Hr) as Hin. clear Hr; revert r Hin.
  apply Forall_forall. repeat (apply Forall_cons_2; [reflexivity|]).
  apply Forall_nil_2.
Qed.

(** *** Process names *)

Lemma after_last_slash_none (s : string) :
  after_last_slash s = None <-> no_slash s = true.
Proof.
  unfold no_slash. induction s as [|c s IH]; simpl; [split; reflexivity|].
  destruct (after_last_slash s) as [t|].
  - split; [discriminate|]. intros [_ H]%andb_prop.
    apply IH in H. discriminate.
  - destruct (Ascii.eqb c "/"); simpl; split;
      first [discriminate | intros _; apply IH; reflexivity | intros _; reflexivity].
Qed.

Lemma after_last_slash_some (s t : string) :
  after_last_slash s = Some t ->
  no_slash t = true /\ exists p, s = (p ++ "/" ++ t)%string.
Proof.
  revert t. induction s as [|c s IH]; intros t H; simpl in H; [discriminate|].
  destruct (after_last_slash s) as [u|] eqn:Hs.
  - injection H as <-. destruct (IH u eq_refl) as (Hn & p & ->).
    split; [exact Hn|]. exists (String c p). reflexivity.
  - destruct (Ascii.eqb_spec c "/"); [|discriminate]. injection H as <-. subst c.
    split; [apply after_last_slash_none; exact Hs|]. exists EmptyString. reflexivity.
Qed.

Lemma after_last_slash_app (dir file : string) :
  no_slash file = true ->
  after_last_slash (dir ++ "/" ++ file) = Some file.
Proof.
  intros Hf. apply after_last_slash_none in Hf.
  induction dir as [|c dir IH]; simpl in *.
  - rewrite Hf. reflexivity.
  - rewrite IH. reflexivity.
Qed.

(** X14. Process names.  On an active session with a non-null buffer of
    positive capacity: for a process the system does not know the query
    reports not-found and leaves the buffer alone; for a process whose
    executable is [dir/file], [file] having no slash, the name asked for is
    [file], so a capacity of at most its length is insufficient, and a larger
    one makes the buffer hold [file].  In general the name is the part of
    the path after its last slash: it has no slash and the path ends
    with it. *)
Theorem process_name_lookup (g pid cap : Z) (old : list ascii) (dir file : string) :
  0 < g -> 0 < cap -> cap <= Z.of_nat (length old) ->
  no_slash file = true -> no_nul file = true ->
  (readlink_exe pid = None ->
   nvmlSystemGetProcessName g pid (Some old) cap = Some (NVML_ERROR_NOT_FOUND, Some old)) /\
  (readlink_exe pid = Some (dir ++ "/" ++ file)%string ->
   if cap <=? strlen file
   then nvmlSystemGetProcessName g pid (Some old) cap =
          Some (NVML_ERROR_INSUFFICIENT_SIZE, Some old)
   else exists new,
       nvmlSystemGetProcessName g pid (Some old) cap = Some (NVML_SUCCESS, Some new) /\
       c_str new = file /\ length new = length old) /\
  (forall path, no_slash (basename_of path) = true /\
                exists p, path = (p ++ basename_of path)%string).
Proof.
  intros Hg Hcap Hlen Hsl Hnn. pose proof (initialized_pos g Hg) as Hinit.
  unfold nvmlSystemGetProcessName. rewrite Hinit. simpl.
  destruct (Z.eqb_spec cap 0); [lia|].
  split; [|split].
  - intros ->. reflexivity.
  - intros ->. unfold basename_of.
    pose proof (after_last_slash_app dir file Hsl) as Ha. simpl in Ha. rewrite Ha.
    destruct (Z.leb_spec cap (strlen file)); [reflexivity|].
    rewrite strncpy_terminated_padded by lia. simpl.
    eexists. split; [reflexivity|]. unfold strlen in *. split.
    + apply c_str_padded; [exact Hnn | lia].
    + rewrite !length_app, length_replicate, length_drop, length_list_ascii. lia.
  - intros path. unfold basename_of.
    destruct (after_last_slash path) as [t|] eqn:Ht.
    + destruct (after_last_slash_some _ _ Ht) as (Hn & p & ->).
      split; [exact Hn|]. exists (p ++ "/")%string.
      clear. induction p as [|c p IH]; simpl; [reflexivity | f_equal; exact IH].
    + split; [apply after_last_slash_none; exact Ht|]. exists EmptyString. reflexivity.
Qed.

(** *** Events *)

(** X15. Events.  On an active session and for a handle that decodes, the
    supported event types are the empty mask, and registering a mask
    succeeds exactly when the mask asks for nothing outside the supported
    ones, that is, when it is 0; any other mask is not supported.  Waiting
    on any event set with a non-null data pointer times out, whatever the
    set and the timeout. *)
Theorem events_unsupported (g mask types0 timeoutms : Z) (h : nvmlDevice_t)
  (set : nvmlEventSet_t) (data : unit) :
  0 < g -> is_valid_device_handle h = true ->
  exists supported,
    nvmlDeviceGetSupportedEventTypes g h (Some types0) =
      Some (NVML_SUCCESS, Some supported) /\
    (nvmlDeviceRegisterEvents g h mask set = Some NVML_SUCCESS <->
     Z.land mask (Z.lnot supported) = 0) /\
    (mask <> 0 -> nvmlDeviceRegisterEvents g h mask set = Some NVML_ERROR_NOT_SUPPORTED) /\
    nvmlEventSetWait_v2 g set (Some data) timeoutms = Some (NVML_ERROR_TIMEOUT, Some data).
Proof.
  intros Hg Hv. pose proof (initialized_pos g Hg) as Hinit.
  unfold nvmlDeviceGetSupportedEventTypes, nvmlDeviceRegisterEvents, nvmlEventSetWait_v2.
  rewrite Hinit, Hv. simpl. exists 0. split; [reflexivity|].
  change (Z.lnot 0) with (-1). rewrite Z.land_m1_r.
  destruct (Z.eqb_spec mask 0); simpl; repeat split;
    first [reflexivity | discriminate | congruence | contradiction].
Qed.

(** *** Enumeration bounds *)

(** X16. Enumeration bounds.  On an active session the device count is 8
    and the handle-by-index query succeeds exactly for the indices below that
    count; for any other index it reports an invalid argument and leaves the
    slot alone.  The unit count is 0, and accordingly the unit-by-index query
    fails for every index. *)
Theorem enumeration_bounds (g index count : Z) (slot : nvmlDevice_t) (unit_slot : unit) :
  0 < g -> 0 <= index ->
  nvmlDeviceGetCount_v2 g (Some count) = Some (NVML_SUCCESS, Some 8) /\
  (fst <$> nvmlDeviceGetHandleByIndex_v2 g index (Some slot) = Some NVML_SUCCESS
   <-> index < 8) /\
  (8 <= index ->
   nvmlDeviceGetHandleByIndex_v2 g index (Some slot) =
     Some (NVML_ERROR_INVALID_ARGUMENT, Some slot)) /\
  nvmlUnitGetCount g (Some count) = Some (NVML_SUCCESS, Some 0) /\
  nvmlUnitGetHandleByIndex g index (Some unit_slot) =
    Some (NVML_ERROR_INVALID_ARGUMENT, Some unit_slot).
Proof.
  intros Hg Hi. pose proof (initialized_pos g Hg) as Hinit.
  unfold nvmlDeviceGetCount_v2, nvmlDeviceGetHandleByIndex_v2, nvmlUnitGetCount,
    nvmlUnitGetHandleByIndex, is_valid_device_index.
  rewrite Hinit. simpl.
  destruct (Z.ltb_spec index 8); simpl; repeat split;
    first [reflexivity | discriminate | lia | intros; lia].
Qed.

(** *** What MIG queries write *)

(** X17. MIG queries and their outputs.  On an active session and for a
    handle that decodes, the placement query and the instance query return
    the not-supported error and nevertheless overwrite the caller's count
    with 0, whatever it held and whatever the profile; the MIG mode query
    returns the same error and leaves both of its outputs as they were.
    With a NULL count the two list queries report an invalid argument. *)
Theorem mig_outputs (g profileId count cur pend : Z) (h : nvmlDevice_t)
  (placements instances : ptr unit) :
  0 < g -> is_valid_device_handle h = true ->
  nvmlDeviceGetGpuInstancePossiblePlacements_v2 g h profileId placements (Some count) =
    Some (NVML_ERROR_NOT_SUPPORTED, Some 0) /\
  nvmlDeviceGetGpuInstances g h profileId instances (Some count) =
    Some (NVML_ERROR_NOT_SUPPORTED, Some 0) /\
  nvmlDeviceGetMigMode g h (Some cur) (Some pend) =
    Some (NVML_ERROR_NOT_SUPPORTED, (Some cur, Some pend)) /\
  nvmlDeviceGetGpuInstancePossiblePlacements_v2 g h profileId placements None =
    Some (NVML_ERROR_INVALID_ARGUMENT, None) /\
  nvmlDeviceGetGpuInstances g h profileId instances None =
    Some (NVML_ERROR_INVALID_ARGUMENT, None).
Proof.
  intros Hg Hv. pose proof (initialized_pos g Hg) as Hinit.
  unfold nvmlDeviceGetGpuInstancePossiblePlacements_v2, nvmlDeviceGetGpuInstances,
    nvmlDeviceGetMigMode, device_const_getter.
  rewrite Hinit, sentinel_test, Hv. simpl. repeat split.
Qed.

(** *** Telemetry *)

(** X18. Telemetry by device.  On an active session, for every handle that
    decodes: the GPU temperature is 30 plus the device index and any other
    sensor is not supported, the output being left alone; the power usage
    never exceeds the enforced power limit; and the energy counter is one
    million times the handle value, so it differs from device to device. *)
Theorem telemetry_by_device (g sensor out : Z) (h : nvmlDevice_t) :
  0 < g -> is_valid_device_handle h = true ->
  nvmlDeviceGetTemperature g h NVML_TEMPERATURE_GPU (Some out) =
    Some (NVML_SUCCESS, Some (30 + (handle h - 1))) /\
  (sensor <> NVML_TEMPERATURE_GPU ->
   nvmlDeviceGetTemperature g h sensor (Some out) =
     Some (NVML_ERROR_NOT_SUPPORTED, Some out)) /\
  (exists usage limit,
      nvmlDeviceGetPowerUsage g h (Some out) = Some (NVML_SUCCESS, Some usage) /\
      nvmlDeviceGetEnforcedPowerLimit g h (Some out) = Some (NVML_SUCCESS, Some limit) /\
      0 < usage <= limit) /\
  nvmlDeviceGetTotalEnergyConsumption g h (Some out) =
    Some (NVML_SUCCESS, Some (1000000 * handle h)).
Proof.
  intros Hg Hv. pose proof (initialized_pos g Hg) as Hinit.
  unfold nvmlDeviceGetTemperature, nvmlDeviceGetPowerUsage,
    nvmlDeviceGetEnforcedPowerLimit, nvmlDeviceGetTotalEnergyConsumption,
    device_field_getter, device_const_getter.
  rewrite Hinit, sentinel_test, Hv. simpl. rewrite Z.eqb_refl. simpl.
  split; [|split; [|split]].
  - each_handle h Hv; reflexivity.
  - intros Hs. destruct (Z.eqb_spec sensor NVML_TEMPERATURE_GPU); [contradiction|].
    reflexivity.
  - each_handle h Hv; do 2 eexists; (split; [reflexivity|]); (split; [reflexivity|]); simpl; lia.
  - each_handle h Hv; reflexivity.
Qed.

(** *** NVLink neighbours *)

Lemma remote_bus (g idx link : Z) (p : nvmlPciInfo_t) :
  0 < g -> 0 <= idx < 8 -> 0 <= link < 12 -> pci_well_formed p = true ->
  exists out,
    nvmlDeviceGetNvLinkRemotePciInfo_v2 g {| handle := idx + 1 |} link (Some p) =
      Some (NVML_SUCCESS, Some out) /\
    bus out = (idx + link / 2 + 1) mod 8.
Proof.
  intros Hg Hi Hl Hp.
  assert (Hv : is_valid_device_handle {| handle := idx + 1 |} = true)
    by (apply valid_handle_range; simpl; lia).
  destruct (remote_pci_result g _ link p Hg Hv (proj2 Hl) Hp) as (r & out & Hr & Ho & Hid).
  exists out. split; [exact Ho|].
  rewrite (decode_valid _ Hv) in Hr. simpl in Hr.
  replace (idx + 1 - 1) with idx in Hr by lia.
  rewrite remote_index_formula in Hr by lia.
  apply fixture_bus_is_index in Hr. rewrite <- Hr.
  unfold pci_identity, fixture_pci_identity in Hid. congruence.
Qed.

Lemma ring_arithmetic (idx link link' : Z) :
  0 <= idx < 8 -> 0 <= link < 12 -> 0 <= link' < 12 ->
  (idx + link / 2 + 1) mod 8 <> idx /\
  (idx + link / 2 + 1) mod 8 <> (idx + 7) mod 8 /\
  ((idx + link / 2 + 1) mod 8 = (idx + link' / 2 + 1) mod 8 <-> link / 2 = link' / 2).
Proof.
  intros Hi Hl Hl'. clear - Hi Hl Hl'.
  repeat split; Z.div_mod_to_equations; lia.
Qed.

(** X19. NVLink neighbours.  On an active session, for the device at index
    [idx] and two links below 12: the remote device of a link is never the
    device itself, and never the device just before it in the ring; two
    links lead to the same remote device exactly when they form a pair
    (link / 2 equal), so the twelve links reach six devices, two links each.
    The bus number of the returned record is the index of the remote
    device. *)
Theorem nvlink_neighbours (g idx link link' : Z) (p : nvmlPciInfo_t) :
  0 < g -> 0 <= idx < 8 -> 0 <= link < 12 -> 0 <= link' < 12 ->
  pci_well_formed p = true ->
  exists out out',
    nvmlDeviceGetNvLinkRemotePciInfo_v2 g {| handle := idx + 1 |} link (Some p) =
      Some (NVML_SUCCESS, Some out) /\
    nvmlDeviceGetNvLinkRemotePciInfo_v2 g {| handle := idx + 1 |} link' (Some p) =
      Some (NVML_SUCCESS, Some out') /\
    bus out = (idx + link / 2 + 1) mod 8 /\
    bus out <> idx /\
    bus out <> (idx + 7) mod 8 /\
    (bus out = bus out' <-> link / 2 = link' / 2).
Proof.
  intros Hg Hi Hl Hl' Hp.
  destruct (remote_bus g idx link p Hg Hi Hl Hp) as (out & Ho & Hb).
  destruct (remote_bus g idx link' p Hg Hi Hl' Hp) as (out' & Ho' & Hb').
  exists out, out'. rewrite Hb, Hb'.
  destruct (ring_arithmetic idx link link' Hi Hl Hl') as (H1 & H2 & H3).
  repeat split; try assumption; apply H3.
Qed.

(** *** Mutators *)

(** X20. Mutators validate unevenly.  On an active session and for a handle
    that decodes, setting the persistence mode succeeds exactly for the two
    feature states and is an invalid argument for any other value, whereas
    setting the compute mode succeeds for every value of the mode.  With a
    handle that does not decode both report an invalid argument. *)
Theorem mutators_validate (g mode : Z) (h bad : nvmlDevice_t) :
  0 < g -> is_valid_device_handle h = true -> is_valid_device_handle bad = false ->
  (nvmlDeviceSetPersistenceMode g h mode = Some NVML_SUCCESS <->
   mode = NVML_FEATURE_DISABLED \/ mode = NVML_FEATURE_ENABLED) /\
  (mode <> NVML_FEATURE_DISABLED -> mode <> NVML_FEATURE_ENABLED ->
   nvmlDeviceSetPersistenceMode g h mode = Some NVML_ERROR_INVALID_ARGUMENT) /\
  nvmlDeviceSetComputeMode g h mode = Some NVML_SUCCESS /\
  nvmlDeviceSetPersistenceMode g bad mode = Some NVML_ERROR_INVALID_ARGUMENT /\
  nvmlDeviceSetComputeMode g bad mode = Some NVML_ERROR_INVALID_ARGUMENT.
Proof.
  intros Hg Hv Hbad. pose proof (initialized_pos g Hg) as Hinit.
  unfold nvmlDeviceSetPersistenceMode, nvmlDeviceSetComputeMode.
  rewrite Hinit, !sentinel_test, Hv, Hbad. simpl.
  destruct (Z.eqb_spec mode NVML_FEATURE_DISABLED),
    (Z.eqb_spec mode NVML_FEATURE_ENABLED); simpl; repeat split;
    first [reflexivity | discriminate | intros; contradiction
          | intros _; auto; fail | intros [?|?]; contradiction ].
Qed.

End WithHeader.

(** ** Worked examples *)

Import ExampleHeader.

(** The compute-capability query with a NULL [major]: invalid argument with
    a handle that decodes (device 0) and with one that does not (NULL). *)
Lemma validation_order_witness :
  0 < 1 /\
  dispatch nvmlMemory_v2 NVML_FEATURE_DISABLED NVML_FEATURE_ENABLED
     NVML_TEMPERATURE_GPU NVML_CLOCK_GRAPHICS NVML_CLOCK_SM NVML_CLOCK_MEM
     NVML_TOPOLOGY_SYSTEM NVML_P2P_STATUS_OK no_process 1
     (DeviceGetCudaComputeCapability {| handle := 1 |} None (Some 0))
    = Some NVML_ERROR_INVALID_ARGUMENT /\
  dispatch nvmlMemory_v2 NVML_FEATURE_DISABLED NVML_FEATURE_ENABLED
     NVML_TEMPERATURE_GPU NVML_CLOCK_GRAPHICS NVML_CLOCK_SM NVML_CLOCK_MEM
     NVML_TOPOLOGY_SYSTEM NVML_P2P_STATUS_OK no_process 1
     (DeviceGetCudaComputeCapability {| handle := 0 |} None (Some 0))
    = Some NVML_ERROR_INVALID_ARGUMENT.
Proof.
  split; [reflexivity|]. split.
  - apply (proj1 (proj2 (validation_order nvmlMemory_v2 NVML_FEATURE_DISABLED
     NVML_FEATURE_ENABLED NVML_TEMPERATURE_GPU NVML_CLOCK_GRAPHICS NVML_CLOCK_SM
     NVML_CLOCK_MEM NVML_TOPOLOGY_SYSTEM NVML_P2P_STATUS_OK no_process 1
                    (DeviceGetCudaComputeCapability {| handle := 1 |} None (Some 0)))));
      reflexivity.
  - apply (proj1 (proj2 (validation_order nvmlMemory_v2 NVML_FEATURE_DISABLED
     NVML_FEATURE_ENABLED NVML_TEMPERATURE_GPU NVML_CLOCK_GRAPHICS NVML_CLOCK_SM
     NVML_CLOCK_MEM NVML_TOPOLOGY_SYSTEM NVML_P2P_STATUS_OK no_process 1
                    (DeviceGetCudaComputeCapability {| handle := 0 |} None (Some 0)))));
      reflexivity.
Defined.

(** C1 as stated fails: on an active session, creating a GPU instance on
    device 0 with NULL for [gpuInstance], the one output of the call,
    returns the not-supported error, not the invalid-argument one. *)
Lemma validation_order_counterexample :
  ~ (forall (g : Z) (req : request),
        0 < g -> all_pointers_ok req = false ->
        dispatch nvmlMemory_v2 NVML_FEATURE_DISABLED NVML_FEATURE_ENABLED
          NVML_TEMPERATURE_GPU NVML_CLOCK_GRAPHICS NVML_CLOCK_SM NVML_CLOCK_MEM
          NVML_TOPOLOGY_SYSTEM NVML_P2P_STATUS_OK no_process g req
        = Some NVML_ERROR_INVALID_ARGUMENT).
Proof.
  intros H.
  specialize (H 1 (DeviceCreateGpuInstance {| handle := 1 |} 0 None) eq_refl eq_refl).
  discriminate H.
Qed.

(** Two inits, a shutdown, and then two more shutdowns to come: the counter
    is 1, the gate is open, and the next shutdown brings it to 0. *)
Lemma refcount_all_sequences_witness :
  inits [CallInit; CallInit; CallShutdown; CallShutdown; CallShutdown] <= INT_MAX /\
  run 0 [CallInit; CallInit; CallShutdown] =
    (1, [NVML_SUCCESS; NVML_SUCCESS; NVML_SUCCESS]) /\
  nvml_is_initialized 1 = true /\
  step 1 CallShutdown = (0, NVML_SUCCESS).
Proof.
  assert (Hmax : inits ([CallInit; CallInit; CallShutdown]
                        ++ [CallShutdown; CallShutdown]) <= INT_MAX)
    by (vm_compute; discriminate).
  pose proof (refcount_all_sequences [CallInit; CallInit; CallShutdown]
                [CallShutdown; CallShutdown] Hmax) as H.
  change (run 0 [CallInit; CallInit; CallShutdown])
    with (1, [NVML_SUCCESS; NVML_SUCCESS; NVML_SUCCESS]) in H.
  destruct H as (_ & _ & Hgate & Hnext & _).
  split; [exact Hmax|]. split; [reflexivity|]. split.
  - apply (proj2 Hgate). reflexivity.
  - exact Hnext.
Defined.

(** C2 as stated fails: 2^31 inits from a fresh process all return success
    and leave the [int] counter at -2^31, negative, with the gate closed
    although 2^31 inits are outstanding. *)
Lemma refcount_overflow_counterexample :
  ~ (forall calls : list lifecycle_call,
        let '(g, rets) := run 0 calls in
        0 <= g /\ (nvml_is_initialized g = true <-> 0 < net_outstanding calls rets)).
Proof.
  intros H. specialize (H (replicate (S (Z.to_nat INT_MAX)) CallInit)).
  remember (Z.to_nat INT_MAX) as N eqn:EN.
  assert (HN : Z.of_nat N = INT_MAX).
  { rewrite EN. apply Z2Nat.id. discriminate. }
  clear EN. rewrite replicate_S_end, run_app, run_inits in H by lia.
  cbn [run step] in H. unfold nvmlInit_v2 in H.
  replace (0 + Z.of_nat N + 1) with (INT_MAX + 1) in H by lia.
  change (to_int (INT_MAX + 1)) with (-2147483648) in H.
  destruct H as [H _]. lia.
Qed.

(** Index 3 and handle 4; the NULL handle; a name query on the NULL handle. *)
Lemma handle_round_trip_witness :
  nvmlDeviceGetHandleByIndex_v2 1 3 (Some {| handle := 0 |}) =
    Some (NVML_SUCCESS, Some {| handle := 4 |}) /\
  device_handle_to_index {| handle := 4 |} = 3 /\
  device_handle_to_index {| handle := 0 |} = 4294967295 /\
  dispatch nvmlMemory_v2 NVML_FEATURE_DISABLED NVML_FEATURE_ENABLED
     NVML_TEMPERATURE_GPU NVML_CLOCK_GRAPHICS NVML_CLOCK_SM NVML_CLOCK_MEM
     NVML_TOPOLOGY_SYSTEM NVML_P2P_STATUS_OK no_process 1
     (DeviceGetName {| handle := 0 |} (Some (blank_bytes 64)) 64)
    = Some NVML_ERROR_INVALID_ARGUMENT.
Proof.
  pose proof (handle_round_trip nvmlMemory_v2 NVML_FEATURE_DISABLED NVML_FEATURE_ENABLED
     NVML_TEMPERATURE_GPU NVML_CLOCK_GRAPHICS NVML_CLOCK_SM NVML_CLOCK_MEM
     NVML_TOPOLOGY_SYSTEM NVML_P2P_STATUS_OK no_process 1 3 0 {| handle := 0 |} 0 0
                (DeviceGetName {| handle := 0 |} (Some (blank_bytes 64)) 64)
                ltac:(reflexivity) ltac:(lia) ltac:(lia) ltac:(reflexivity))
    as (_ & _ & H1 & _ & H2 & _ & H3 & _ & _ & H4).
  exact (conj H1 (conj H2 (conj H3 H4))).
Defined.

(** Device 0, a zeroed v2 struct. *)
Lemma memory_invariant_witness :
  exists r1 r2,
    nvmlDeviceGetMemoryInfo 1 {| handle := 1 |}
      (Some {| total := 0; free := 0; used := 0 |}) = Some (NVML_SUCCESS, Some r1) /\
    total r1 = 42949672960 /\ total r1 = free r1 + used r1 /\
    nvmlDeviceGetMemoryInfo_v2 nvmlMemory_v2 1 {| handle := 1 |}
      (Some {| version := 0; total_v2 := 0; reserved_v2 := 0; free_v2 := 0; used_v2 := 0 |})
      = Some (NVML_SUCCESS, Some r2) /\
    total_v2 r2 = free_v2 r2 + used_v2 r2 /\ reserved_v2 r2 = 0.
Proof.
  destruct (memory_invariant nvmlMemory_v2 1 {| handle := 1 |}
              {| total := 0; free := 0; used := 0 |}
              {| version := 0; total_v2 := 0; reserved_v2 := 0; free_v2 := 0;
                 used_v2 := 0 |}
              ltac:(reflexivity) ltac:(reflexivity) (or_intror eq_refl))
    as (_ & r1 & r2 & H1 & H2 & _ & _ & H3 & H4 & _ & _ & H5).
  exists r1, r2. repeat split; try assumption.
  unfold nvmlDeviceGetMemoryInfo in H1. simpl in H1. injection H1 as <-. reflexivity.
Defined.

(** C5 as stated fails: on an active session, with a non-null struct whose
    version tag is the accepted 0, the NULL handle makes the v2 query return
    the invalid-argument error. *)
Lemma memory_v2_version_iff_counterexample :
  ~ (forall (g : Z) (dev : nvmlDevice_t) (m : nvmlMemory_v2_t),
        0 < g ->
        (fst <$> nvmlDeviceGetMemoryInfo_v2 nvmlMemory_v2 g dev (Some m)
           = Some NVML_ERROR_INVALID_ARGUMENT
         <-> version m <> nvmlMemory_v2 /\ version m <> 0)).
Proof.
  intros H.
  destruct (H 1 {| handle := 0 |}
              {| version := 0; total_v2 := 0; reserved_v2 := 0; free_v2 := 0;
                 used_v2 := 0 |} eq_refl) as [Hfail _].
  destruct (Hfail eq_refl) as [_ Hzero]. apply Hzero. reflexivity.
Qed.

(** Tag 7 is rejected on device 0 and on the NULL handle alike. *)
Lemma memory_v2_version_check_witness :
  let m := {| version := 7; total_v2 := 0; reserved_v2 := 0; free_v2 := 0;
              used_v2 := 0 |} in
  0 < 1 /\ is_valid_device_handle {| handle := 1 |} = true /\
  fst <$> nvmlDeviceGetMemoryInfo_v2 nvmlMemory_v2 1 {| handle := 1 |} (Some m)
    = Some NVML_ERROR_INVALID_ARGUMENT /\
  nvmlDeviceGetMemoryInfo_v2 nvmlMemory_v2 1 {| handle := 0 |} (Some m)
    = Some (NVML_ERROR_INVALID_ARGUMENT, Some m).
Proof.
  intros m.
  pose proof (memory_v2_version_check nvmlMemory_v2 1 {| handle := 1 |}
                {| handle := 0 |} m ltac:(reflexivity) ltac:(reflexivity))
    as (Hany & Hiff & _).
  assert (Hbad : version m <> nvmlMemory_v2 /\ version m <> 0) by (split; discriminate).
  split; [reflexivity|]. split; [reflexivity|]. split.
  - apply (proj2 Hiff). exact Hbad.
  - apply Hany. exact Hbad.
Defined.

(** Device 0, link 0: the remote device is the one at index 1, and the bus
    id written is its long-form id run on into its short-form id. *)
Lemma nvlink_ring_witness :
  let p := {| busIdLegacy := blank_bytes 16; domain := 0; bus := 0; device := 0;
              pciDeviceId := 0; pciSubSystemId := 0; busId := blank_bytes 32 |} in
  nvmlDeviceGetNvLinkState NVML_FEATURE_ENABLED 1 {| handle := 1 |} 0 (Some 0) =
    Some (NVML_SUCCESS, Some NVML_FEATURE_ENABLED) /\
  exists out,
    nvmlDeviceGetNvLinkRemotePciInfo_v2 1 {| handle := 1 |} 0 (Some p) =
      Some (NVML_SUCCESS, Some out) /\
    bus out = 1 /\
    c_str (busIdLegacy out) = "0000:01:00.0"%string /\
    c_str (busId out) = "00000000:01:00.00000:01:00.0"%string.
Proof.
  intros p.
  destruct (nvlink_ring NVML_FEATURE_ENABLED 1 1 0 0 0 p p
              ltac:(reflexivity) ltac:(reflexivity) ltac:(lia) ltac:(lia)
              ltac:(reflexivity) ltac:(reflexivity))
    as (Hs & r & out & _ & Hr & Ho & Hleg & _ & Hbus & Hid & _).
  injection Hr as <-.
  split; [exact Hs|]. exists out. auto.
Defined.

Lemma mig_asymmetry_witness :
  fst <$> nvmlDeviceGetMigMode 1 {| handle := 8 |} (Some 0) (Some 0)
    = Some NVML_ERROR_NOT_SUPPORTED /\
  nvmlDeviceGetMaxMigDeviceCount 1 {| handle := 8 |} (Some 5) = Some (NVML_SUCCESS, Some 0).
Proof.
  pose proof (mig_asymmetry 1 {| handle := 8 |} 0 0 5 0 0 tt tt tt tt
                ltac:(reflexivity) ltac:(reflexivity))
    as (H1 & _ & _ & _ & _ & _ & H2).
  exact (conj H1 H2).
Defined.

(** C8 as stated fails at capacity 0: it is less than the length of the name
    plus one, and the name query returns the invalid-argument error. *)
Lemma string_buffer_zero_capacity_counterexample :
  ~ (forall (g : Z) (q : string_query) (value : string) (old : list ascii) (cap : Z),
        0 < g -> string_query_value no_process q = Some value ->
        0 <= cap < strlen value + 1 ->
        run_string_query no_process g q (Some old) cap =
          Some (NVML_ERROR_INSUFFICIENT_SIZE, Some old)).
Proof.
  intros H.
  specialize (H 1 (QueryName {| handle := 1 |}) "NVIDIA A100-SXM4-40GB"%string
                (blank_bytes 64) 0 eq_refl eq_refl ltac:(unfold strlen; simpl; lia)).
  discriminate H.
Qed.

(** The driver version, 9 characters: capacities 0, 9 and 10. *)
Lemma string_buffer_contract_witness :
  run_string_query no_process 1 QueryDriverVersion (Some (blank_bytes 80)) 0 =
    Some (NVML_ERROR_INVALID_ARGUMENT, Some (blank_bytes 80)) /\
  run_string_query no_process 1 QueryDriverVersion (Some (blank_bytes 80)) 9 =
    Some (NVML_ERROR_INSUFFICIENT_SIZE, Some (blank_bytes 80)) /\
  exists new,
    run_string_query no_process 1 QueryDriverVersion (Some (blank_bytes 80)) 10 =
      Some (NVML_SUCCESS, Some new) /\
    c_str new = "550.54.15"%string.
Proof.
  pose proof (fun cap =>
                string_buffer_contract no_process 1 QueryDriverVersion "550.54.15"%string
                  (blank_bytes 80) cap ltac:(reflexivity) ltac:(reflexivity)
                  ltac:(reflexivity)) as H.
  split; [apply (H 0); reflexivity|].
  split; [apply (H 9); unfold strlen; simpl; lia|].
  destruct (H 10) as (_ & _ & H10).
  destruct (H10 ltac:(reflexivity) ltac:(simpl; lia)) as [Hrun Hstr].
  eexists. split; [exact Hrun | exact Hstr].
Defined.

Lemma compute_capability_by_index_witness :
  nvmlDeviceGetCudaComputeCapability 1 {| handle := 1 |} (Some 9) (Some 9) =
    Some (NVML_SUCCESS, (Some 0, Some 0)) /\
  nvmlDeviceGetCudaComputeCapability 1 {| handle := 2 |} (Some 9) (Some 9) =
    Some (NVML_SUCCESS, (Some 8, Some 0)).
Proof.
  split.
  - apply (compute_capability_by_index 1 0 9 9); [reflexivity | lia].
  - apply (compute_capability_by_index 1 1 9 9); [reflexivity | lia].
Defined.

Lemma event_set_constant_handle_witness :
  nvmlEventSetCreate 1 (Some {| set_handle := 0 |}) =
    Some (NVML_SUCCESS, Some {| set_handle := 3735928559 |}) /\
  nvmlEventSetFree 1 {| set_handle := 12345 |} = Some NVML_SUCCESS.
Proof.
  pose proof (event_set_constant_handle 1 2 {| set_handle := 0 |} {| set_handle := 1 |}
                {| set_handle := 12345 |} ltac:(reflexivity) ltac:(reflexivity))
    as (H1 & _ & _ & H2).
  exact (conj H1 H2).
Defined.

(** *** Examples for the further properties *)

Lemma lookup_by_uuid_sound_complete_witness :
  nvmlDeviceGetHandleByUUID 1 (Some "GPU-36da4373-4344-3b36-9951-6c7af0e8d7a0"%string)
    (Some {| handle := 0 |}) = Some (NVML_SUCCESS, Some {| handle := 3 |}) /\
  nvmlDeviceGetHandleByUUID 1 (Some "GPU-0"%string) (Some {| handle := 0 |})
    = Some (NVML_ERROR_NOT_FOUND, Some {| handle := 0 |}).
Proof.
  split.
  - destruct (lookup_by_uuid_sound_complete 1 "GPU-36da4373-4344-3b36-9951-6c7af0e8d7a0"
                {| handle := 0 |} ltac:(reflexivity))
      as [(h & r & Hrun & _) | [Hrun _]]; [reflexivity | discriminate Hrun].
  - destruct (lookup_by_uuid_sound_complete 1 "GPU-0" {| handle := 0 |}
                ltac:(reflexivity))
      as [(h & r & Hrun & _) | [Hrun _]]; [discriminate Hrun | exact Hrun].
Defined.

(** The name of device 0 into a 64-byte buffer. *)
Lemma string_query_roomy_witness :
  exists new,
    run_string_query no_process 1 (QueryName {| handle := 1 |}) (Some (blank_bytes 64)) 64 =
      Some (NVML_SUCCESS, Some new) /\
    c_str new = "NVIDIA A100-SXM4-40GB"%string /\ length new = 64%nat.
Proof.
  destruct (string_query_roomy no_process 1 (QueryName {| handle := 1 |})
              "NVIDIA A100-SXM4-40GB" (blank_bytes 64) 64
              ltac:(reflexivity) ltac:(reflexivity) ltac:(reflexivity)
              ltac:(unfold strlen; simpl; lia) ltac:(simpl; lia))
    as (new & Hrun & _ & Hlen & Hstr).
  exists new. auto.
Defined.

(** Device 5 and an 80-byte buffer. *)
Lemma uuid_round_trip_witness :
  exists new,
    nvmlDeviceGetUUID 1 {| handle := 6 |} (Some (blank_bytes 80)) 80 =
      Some (NVML_SUCCESS, Some new) /\
    nvmlDeviceGetHandleByUUID 1 (Some (c_str new)) (Some {| handle := 0 |}) =
      Some (NVML_SUCCESS, Some {| handle := 6 |}).
Proof.
  exact (uuid_round_trip 1 {| handle := 6 |} {| handle := 0 |} (blank_bytes 80) 80
           ltac:(reflexivity) ltac:(reflexivity) ltac:(lia) ltac:(simpl; lia)).
Defined.

(** Device 2 and a record with arrays of 16 and 32 bytes. *)
Lemma pci_round_trip_witness :
  let p := {| busIdLegacy := blank_bytes 16; domain := 9; bus := 9; device := 9;
              pciDeviceId := 0; pciSubSystemId := 0; busId := blank_bytes 32 |} in
  exists out,
    nvmlDeviceGetPciInfo_v3 1 {| handle := 3 |} (Some p) = Some (NVML_SUCCESS, Some out) /\
    bus out = 2 /\
    nvmlDeviceGetHandleByPciBusId_v2 1 (Some (c_str (busId out))) (Some {| handle := 0 |}) =
      Some (NVML_SUCCESS, Some {| handle := 3 |}).
Proof.
  intros p.
  destruct (pci_round_trip 1 {| handle := 3 |} {| handle := 0 |} p
              ltac:(reflexivity) ltac:(reflexivity) ltac:(simpl; lia) ltac:(simpl; lia))
    as (out & Hrun & _ & _ & Hbus & _ & _ & _ & _ & Hback).
  exists out. auto.
Defined.

(** Device 3 asked for its neighbours with a count of 2. *)
Lemma nearest_gpus_protocol_witness :
  nvmlDeviceGetTopologyNearestGpus 1 {| handle := 4 |} 0 (Some 2)
    (Some [{| handle := 0 |}; {| handle := 0 |}]) =
    Some (NVML_ERROR_INSUFFICIENT_SIZE,
          (Some 7, Some [{| handle := 0 |}; {| handle := 0 |}])).
Proof.
  apply (nearest_gpus_protocol 1 {| handle := 4 |} 0 2
           [{| handle := 0 |}; {| handle := 0 |}] ltac:(reflexivity) ltac:(reflexivity)).
  lia.
Defined.

Lemma topology_gpu_set_protocol_witness :
  nvmlSystemGetTopologyGpuSet 1 0 (Some 3) None = Some (NVML_SUCCESS, (Some 8, None)).
Proof.
  apply (topology_gpu_set_protocol 1 0 3 [] ltac:(reflexivity)).
Defined.

(** Device 0 paired with itself. *)
Lemma pairwise_topology_witness :
  nvmlDeviceGetP2PStatus NVML_P2P_STATUS_OK 1 {| handle := 1 |} {| handle := 1 |} 0 (Some 5) =
    Some (NVML_SUCCESS, Some NVML_P2P_STATUS_OK).
Proof.
  apply (pairwise_topology NVML_TOPOLOGY_SYSTEM NVML_P2P_STATUS_OK 1
           {| handle := 1 |} {| handle := 1 |} 0 5 ltac:(reflexivity)).
Defined.

(** Codes 6 and 7 have different strings. *)
Lemma error_string_mapping_witness :
  nvmlErrorString 999 = "Unknown error"%string.
Proof.
  apply (proj2 (proj1 (error_string_mapping 999 0))); lia.
Defined.

(** After one init and one shutdown the name query is refused. *)
Lemma gate_follows_refcount_witness :
  inits [CallInit; CallShutdown] <= INT_MAX /\
  run 0 [CallInit; CallShutdown] = (0, [NVML_SUCCESS; NVML_SUCCESS]) /\
  dispatch nvmlMemory_v2 NVML_FEATURE_DISABLED NVML_FEATURE_ENABLED
    NVML_TEMPERATURE_GPU NVML_CLOCK_GRAPHICS NVML_CLOCK_SM NVML_CLOCK_MEM
    NVML_TOPOLOGY_SYSTEM NVML_P2P_STATUS_OK no_process 0
    (DeviceGetName {| handle := 1 |} (Some (blank_bytes 64)) 64)
  = Some NVML_ERROR_UNINITIALIZED.
Proof.
  assert (Hmax : inits [CallInit; CallShutdown] <= INT_MAX) by (vm_compute; discriminate).
  pose proof (gate_follows_refcount nvmlMemory_v2 NVML_FEATURE_DISABLED
                NVML_FEATURE_ENABLED NVML_TEMPERATURE_GPU NVML_CLOCK_GRAPHICS
                NVML_CLOCK_SM NVML_CLOCK_MEM NVML_TOPOLOGY_SYSTEM NVML_P2P_STATUS_OK
                no_process [CallInit; CallShutdown]
                (DeviceGetName {| handle := 1 |} (Some (blank_bytes 64)) 64) Hmax) as H.
  change (run 0 [CallInit; CallShutdown]) with (0, [NVML_SUCCESS; NVML_SUCCESS]) in H.
  split; [exact Hmax|]. split; [reflexivity|]. apply (proj2 H). reflexivity.
Defined.

(** Two inits and three shutdowns: the third shutdown is refused. *)
Lemma inits_then_shutdowns_witness :
  Z.of_nat 2 <= INT_MAX /\
  run 0 (replicate 2 CallInit ++ replicate 3 CallShutdown) =
    (0, [NVML_SUCCESS; NVML_SUCCESS; NVML_SUCCESS; NVML_SUCCESS;
         NVML_ERROR_UNINITIALIZED]).
Proof.
  assert (Hmax : Z.of_nat 2 <= INT_MAX) by (vm_compute; discriminate).
  split; [exact Hmax|]. exact (proj1 (inits_then_shutdowns 2 3 Hmax)).
Defined.

Lemma index_minor_handle_witness :
  nvmlDeviceGetMinorNumber 1 {| handle := 8 |} (Some 0) = Some (NVML_SUCCESS, Some 7).
Proof.
  apply (index_minor_handle 1 0 {| handle := 8 |} {| handle := 0 |}
           ltac:(reflexivity) ltac:(reflexivity)).
Defined.

Lemma clocks_at_max_witness :
  nvmlDeviceGetClock NVML_CLOCK_GRAPHICS NVML_CLOCK_SM NVML_CLOCK_MEM 1
    {| handle := 1 |} NVML_CLOCK_MEM 0 (Some 0) =
  nvmlDeviceGetMaxClockInfo NVML_CLOCK_GRAPHICS NVML_CLOCK_SM NVML_CLOCK_MEM 1
    {| handle := 1 |} NVML_CLOCK_MEM (Some 0).
Proof.
  apply (clocks_at_max NVML_CLOCK_GRAPHICS NVML_CLOCK_SM NVML_CLOCK_MEM 1
           NVML_CLOCK_MEM 0 0 0 {| handle := 1 |} ltac:(reflexivity) ltac:(reflexivity)).
Defined.

Lemma memory_figures_agree_witness :
  exists a m,
    nvmlDeviceGetAttributes_v2 1 {| handle := 1 |}
      (Some {| multiprocessorCount := 0; sharedCopyEngineCount := 0;
               sharedDecoderCount := 0; sharedEncoderCount := 0; sharedJpegCount := 0;
               sharedOfaCount := 0; gpuInstanceSliceCount := 0;
               computeInstanceSliceCount := 0; memorySizeMB := 0 |})
      = Some (NVML_SUCCESS, Some a) /\
    nvmlDeviceGetMemoryInfo 1 {| handle := 1 |}
      (Some {| total := 0; free := 0; used := 0 |}) = Some (NVML_SUCCESS, Some m) /\
    memorySizeMB a * 2 ^ 20 = total m.
Proof.
  destruct (memory_figures_agree 1 {| handle := 1 |}
              {| multiprocessorCount := 0; sharedCopyEngineCount := 0;
                 sharedDecoderCount := 0; sharedEncoderCount := 0; sharedJpegCount := 0;
                 sharedOfaCount := 0; gpuInstanceSliceCount := 0;
                 computeInstanceSliceCount := 0; memorySizeMB := 0 |}
              {| total := 0; free := 0; used := 0 |}
              {| bar1Total := 0; bar1Free := 0; bar1Used := 0 |}
              ltac:(reflexivity) ltac:(reflexivity))
    as (a & m & b & Ha & Hm & _ & Heq & _).
  exists a, m. auto.
Defined.

(** A system that knows process 42 as /usr/bin/python3. *)
Lemma process_name_lookup_witness :
  let os := fun pid : Z => if pid =? 42 then Some "/usr/bin/python3"%string else None in
  nvmlSystemGetProcessName os 1 7 (Some (blank_bytes 16)) 16 =
    Some (NVML_ERROR_NOT_FOUND, Some (blank_bytes 16)) /\
  nvmlSystemGetProcessName os 1 42 (Some (blank_bytes 16)) 7 =
    Some (NVML_ERROR_INSUFFICIENT_SIZE, Some (blank_bytes 16)) /\
  exists new,
    nvmlSystemGetProcessName os 1 42 (Some (blank_bytes 16)) 16 =
      Some (NVML_SUCCESS, Some new) /\
    c_str new = "python3"%string.
Proof.
  intros os.
  split; [|split].
  - apply (process_name_lookup os 1 7 16 (blank_bytes 16) "/usr/bin" "python3"
             ltac:(reflexivity) ltac:(reflexivity) ltac:(simpl; lia)
             ltac:(reflexivity) ltac:(reflexivity)).
    reflexivity.
  - apply (proj1 (proj2 (process_name_lookup os 1 42 7 (blank_bytes 16) "/usr/bin" "python3"
             ltac:(reflexivity) ltac:(reflexivity) ltac:(simpl; lia)
             ltac:(reflexivity) ltac:(reflexivity))) eq_refl).
  - destruct (proj1 (proj2 (process_name_lookup os 1 42 16 (blank_bytes 16) "/usr/bin"
             "python3" ltac:(reflexivity) ltac:(reflexivity) ltac:(simpl; lia)
             ltac:(reflexivity) ltac:(reflexivity))) eq_refl) as (new & Hrun & Hstr & _).
    exists new. auto.
Defined.

Lemma events_unsupported_witness :
  nvmlDeviceRegisterEvents 1 {| handle := 1 |} 3 {| set_handle := 0 |} =
    Some NVML_ERROR_NOT_SUPPORTED.
Proof.
  destruct (events_unsupported 1 3 0 1000 {| handle := 1 |} {| set_handle := 0 |} tt
              ltac:(reflexivity) ltac:(reflexivity)) as (s & _ & _ & H & _).
  apply H. discriminate.
Defined.

Lemma enumeration_bounds_witness :
  nvmlDeviceGetHandleByIndex_v2 1 8 (Some {| handle := 0 |}) =
    Some (NVML_ERROR_INVALID_ARGUMENT, Some {| handle := 0 |}).
Proof.
  apply (enumeration_bounds 1 8 0 {| handle := 0 |} tt ltac:(reflexivity) ltac:(lia)).
  lia.
Defined.

Lemma mig_outputs_witness :
  nvmlDeviceGetGpuInstances 1 {| handle := 1 |} 0 (None : ptr unit) (Some 5) =
    Some (NVML_ERROR_NOT_SUPPORTED, Some 0).
Proof.
  apply (mig_outputs 1 0 5 0 0 {| handle := 1 |} None None
           ltac:(reflexivity) ltac:(reflexivity)).
Defined.

Lemma telemetry_by_device_witness :
  nvmlDeviceGetTemperature NVML_TEMPERATURE_GPU 1 {| handle := 4 |} NVML_TEMPERATURE_GPU
    (Some 0) = Some (NVML_SUCCESS, Some 33).
Proof.
  apply (telemetry_by_device NVML_TEMPERATURE_GPU 1 1 0 {| handle := 4 |}
           ltac:(reflexivity) ltac:(reflexivity)).
Defined.

(** Device 0, links 4 and 5: one remote device, at index 3. *)
Lemma nvlink_neighbours_witness :
  let p := {| busIdLegacy := blank_bytes 16; domain := 0; bus := 0; device := 0;
              pciDeviceId := 0; pciSubSystemId := 0; busId := blank_bytes 32 |} in
  exists out out',
    nvmlDeviceGetNvLinkRemotePciInfo_v2 1 {| handle := 1 |} 4 (Some p) =
      Some (NVML_SUCCESS, Some out) /\
    nvmlDeviceGetNvLinkRemotePciInfo_v2 1 {| handle := 1 |} 5 (Some p) =
      Some (NVML_SUCCESS, Some out') /\
    bus out = 3 /\ bus out = bus out'.
Proof.
  intros p.
  destruct (nvlink_neighbours 1 0 4 5 p
              ltac:(reflexivity) ltac:(lia) ltac:(lia) ltac:(lia) ltac:(reflexivity))
    as (out & out' & Ho & Ho' & Hb & _ & _ & Hsame).
  exists out, out'. repeat split; try assumption. apply Hsame. reflexivity.
Defined.

Lemma mutators_validate_witness :
  nvmlDeviceSetPersistenceMode NVML_FEATURE_DISABLED NVML_FEATURE_ENABLED 1
    {| handle := 1 |} 2 = Some NVML_ERROR_INVALID_ARGUMENT /\
  nvmlDeviceSetComputeMode 1 {| handle := 1 |} 2 = Some NVML_SUCCESS.
Proof.
  destruct (mutators_validate NVML_FEATURE_DISABLED NVML_FEATURE_ENABLED 1 2
              {| handle := 1 |} {| handle := 0 |}
              ltac:(reflexivity) ltac:(reflexivity) ltac:(reflexivity))
    as (_ & H1 & H2 & _).
  split; [apply H1; discriminate | exact H2].
Defined.
